(** * RentPlatform_GLI: policy and claim lifecycle

    A shallow embedding of the policy form (client), the zod schemas (client
    and server), the database table constraints and the policy controller
    (server) of the rental-guarantee back office, with the properties the
    specification states about them.

    JavaScript numbers are IEEE-754 binary64 values: they are Rocq's
    primitive floats.  Integer quantities that the ECMAScript standard
    itself defines over mathematical integers (time values, days, years)
    are in [Z]. *)

From Stdlib Require Import ZArith Floats Lia List Bool Ascii String.
From stdpp Require Import base strings gmap pretty.

Set Warnings "-inexact-float".
Local Open Scope Z_scope.

(* ===================================================================== *)
(** ** JavaScript numbers *)
(* ===================================================================== *)

Module JsNumber.

(** A Number is falsy when it is NaN, [+0] or [-0]. *)
Definition truthy (x : float) : bool :=
  negb (PrimFloat.is_nan x || PrimFloat.is_zero x).

(** [typeof x === "number" && !isNaN(x)]: what zod's [z.number()] takes. *)
Definition isNumber (x : float) : bool := negb (PrimFloat.is_nan x).

(** [Number.isInteger]: a finite value [m * 2^e] with no fractional bit. *)
Definition isInteger (x : float) : bool :=
  match Prim2SF x with
  | S754_zero _ => true
  | S754_finite _ m e =>
      (0 <=? e) || (Z.pos m mod 2 ^ (- e) =? 0)
  | _ => false
  end.

(** The Number of a mathematical integer below [2^63] in magnitude. *)
Definition ofZ (n : Z) : float :=
  match n with
  | Z0 => PrimFloat.zero
  | Zpos _ => PrimFloat.of_uint63 (Uint63.of_Z n)
  | Zneg p => PrimFloat.opp (PrimFloat.of_uint63 (Uint63.of_Z (Zpos p)))
  end.

(** The mathematical integer [floor (x + 1/2)] of the finite value
    [x = (-1)^s * m * 2^e] with [e < 0]: twice the value over twice the
    denominator, after adding the half. *)
Definition roundHalfUp (s : bool) (m : positive) (e : Z) : Z :=
  let d := 2 ^ (- e) in
  let v := if s then Z.neg m else Z.pos m in
  (2 * v + d) / (2 * d).

(** The Number of the integer [n] that rounding a value of sign [s]
    gives: a zero keeps the sign of the value. *)
Definition integral (s : bool) (n : Z) : float :=
  if n =? 0 then (if s then PrimFloat.neg_zero else PrimFloat.zero)
  else ofZ n.

(** [Math.round]: [x] itself when it is not finite or already integral;
    otherwise the integral Number closest to [x], the one closer to
    [+Infinity] on a tie, and a zero of the sign of [x] when that is 0. *)
Definition Math_round (x : float) : float :=
  match Prim2SF x with
  | S754_finite s m e =>
      if 0 <=? e then x else integral s (roundHalfUp s m e)
  | _ => x
  end.

(** [ToIntegerOrInfinity] of a finite Number: truncation toward zero.
    [None] stands for NaN and the infinities. *)
Definition toInteger (x : float) : option Z :=
  match Prim2SF x with
  | S754_zero _ => Some 0
  | S754_finite s m e =>
      let a := if 0 <=? e then Z.pos m * 2 ^ e else Z.pos m / 2 ^ (- e) in
      Some (if s then - a else a)
  | _ => None
  end.

End JsNumber.

(* ===================================================================== *)
(** ** The policy form: derived premium *)
(* ===================================================================== *)

(** A property as the form receives it from the API; [rentAmount] is the
    Number that [parseFloat(String(property.rentAmount) || "0")] yields. *)
Record Property := mkProperty {
  property_id : string;
  property_userId : string;
  property_landlordId : string;
  property_rentAmount : float
}.

(** The values of the policy form (react-hook-form state). *)
Record PolicyFormValues := mkPolicyFormValues {
  form_landlordId : string;
  form_propertyId : string;
  form_tenantId : string;
  form_status : string;
  form_coverageMonths : float;
  form_riskScore : float;
  form_decision : string;
  form_startDate : string;
  form_endDate : string;
  form_premiumAmount : float
}.

Module PolicyForm.

(** [selectedRiskScore < 50 ? 1.5 : selectedRiskScore < 75 ? 1.0 : 0.8] *)
Definition riskMultiplier (selectedRiskScore : float) : float :=
  if (selectedRiskScore <? 50)%float then 1.5%float
  else if (selectedRiskScore <? 75)%float then 1.0%float
  else 0.8%float.

(** [monthlyRent * 0.03 * coverageMonths * riskMultiplier], evaluated
    left to right as JavaScript does. *)
Definition premium (monthlyRent coverageMonths selectedRiskScore : float)
  : float :=
  (((monthlyRent * 0.03) * coverageMonths)
   * riskMultiplier selectedRiskScore)%float.

(** The value handed to [form.setValue("premiumAmount", ...)]. *)
Definition premiumAmount (monthlyRent coverageMonths selectedRiskScore : float)
  : float :=
  JsNumber.Math_round (premium monthlyRent coverageMonths selectedRiskScore).

Definition setPremiumAmount (v : float) (f : PolicyFormValues)
  : PolicyFormValues :=
  mkPolicyFormValues (form_landlordId f) (form_propertyId f)
    (form_tenantId f) (form_status f) (form_coverageMonths f)
    (form_riskScore f) (form_decision f) (form_startDate f)
    (form_endDate f) v.

(** The effect "Auto-calculate premium based on property rent and
    coverage": it runs when the property, the coverage or the risk score
    changes, and writes the premium only when a property is selected, the
    coverage is truthy and the property is among the fetched ones. *)
Definition premiumEffect (properties : list Property) (f : PolicyFormValues)
  : PolicyFormValues :=
  if negb (String.eqb (form_propertyId f) "")
     && JsNumber.truthy (form_coverageMonths f)
  then
    match List.find (fun p => String.eqb (property_id p) (form_propertyId f))
                    properties with
    | Some property =>
        setPremiumAmount
          (premiumAmount (property_rentAmount property)
             (form_coverageMonths f) (form_riskScore f)) f
    | None => f
    end
  else f.

End PolicyForm.

(* ===================================================================== *)
(** ** ECMAScript dates *)
(* ===================================================================== *)

(** Time values are milliseconds since the epoch; a Date object is its
    time value, [None] for the NaN of an Invalid Date.  The algorithms are
    those of ECMA-262, section "Date Objects". *)
Module JsDate.

Definition msPerDay : Z := 86400000.

Definition Day (t : Z) : Z := t / msPerDay.
Definition TimeWithinDay (t : Z) : Z := t mod msPerDay.

Definition DaysInYear (y : Z) : Z :=
  if negb (y mod 4 =? 0) then 365
  else if negb (y mod 100 =? 0) then 366
  else if negb (y mod 400 =? 0) then 365
  else 366.

Definition DayFromYear (y : Z) : Z :=
  365 * (y - 1970) + (y - 1969) / 4 - (y - 1901) / 100 + (y - 1601) / 400.

Definition TimeFromYear (y : Z) : Z := msPerDay * DayFromYear y.

(** "The largest integral Number y such that TimeFromYear(y) <= t":
    an estimate from the mean length of a year, corrected by one. *)
Definition YearFromDay (d : Z) : Z :=
  let y := 1970 + (400 * d) / 146097 in
  if d <? DayFromYear y then y - 1
  else if DayFromYear (y + 1) <=? d then y + 1
  else y.

Definition YearFromTime (t : Z) : Z := YearFromDay (Day t).

Definition leapOfYear (y : Z) : Z := if DaysInYear y =? 366 then 1 else 0.
Definition InLeapYear (t : Z) : Z := leapOfYear (YearFromTime t).

Definition DayWithinYear (t : Z) : Z := Day t - DayFromYear (YearFromTime t).

(** The month of a day within a year with leap-day count [leap]. *)
Definition monthOfDay (leap dwy : Z) : Z :=
  if dwy <? 31 then 0
  else if dwy <? 59 + leap then 1
  else if dwy <? 90 + leap then 2
  else if dwy <? 120 + leap then 3
  else if dwy <? 151 + leap then 4
  else if dwy <? 181 + leap then 5
  else if dwy <? 212 + leap then 6
  else if dwy <? 243 + leap then 7
  else if dwy <? 273 + leap then 8
  else if dwy <? 304 + leap then 9
  else if dwy <? 334 + leap then 10
  else 11.

Definition MonthFromTime (t : Z) : Z :=
  monthOfDay (InLeapYear t) (DayWithinYear t).

(** The day within the year on which month [mn] (0 to 11) starts. *)
Definition firstDayOfMonth (leap mn : Z) : Z :=
  if mn =? 0 then 0
  else if mn =? 1 then 31
  else if mn =? 2 then 59 + leap
  else if mn =? 3 then 90 + leap
  else if mn =? 4 then 120 + leap
  else if mn =? 5 then 151 + leap
  else if mn =? 6 then 181 + leap
  else if mn =? 7 then 212 + leap
  else if mn =? 8 then 243 + leap
  else if mn =? 9 then 273 + leap
  else if mn =? 10 then 304 + leap
  else 334 + leap.

Definition DateFromTime (t : Z) : Z :=
  DayWithinYear t - firstDayOfMonth (InLeapYear t) (MonthFromTime t) + 1.

(** [MakeDay(year, month, date)] on integers: the day number of the first
    of month [month mod 12] of year [year + floor(month / 12)], plus
    [date - 1]. *)
Definition MakeDay (year month date : Z) : Z :=
  let ym := year + month / 12 in
  let mn := month mod 12 in
  DayFromYear ym + firstDayOfMonth (leapOfYear ym) mn + date - 1.

Definition MakeDate (day time : Z) : Z := day * msPerDay + time.

Definition TimeClip (t : Z) : option Z :=
  if Z.abs t <=? 8640000000000000 then Some t else None.

(** [LocalTime] and [UTC] for a host zone of constant offset [tza]
    milliseconds east of Greenwich (no daylight-saving rule). *)
Definition LocalTime (tza t : Z) : Z := t + tza.
Definition UTC (tza t : Z) : Z := t - tza.

(** [Date.prototype.getMonth]: NaN on an Invalid Date. *)
Definition getMonth (tza : Z) (d : option Z) : float :=
  match d with
  | Some t => JsNumber.ofZ (MonthFromTime (LocalTime tza t))
  | None => PrimFloat.nan
  end.

(** [Date.prototype.setMonth(month)]: the new time value. *)
Definition setMonth (tza : Z) (d : option Z) (month : float) : option Z :=
  match d with
  | None => None
  | Some t0 =>
      let t := LocalTime tza t0 in
      match JsNumber.toInteger month with
      | None => None
      | Some m =>
          let newDate :=
            MakeDate (MakeDay (YearFromTime t) m (DateFromTime t))
                     (TimeWithinDay t) in
          TimeClip (UTC tza newDate)
      end
  end.

(** *** Date strings *)

Definition digitChar (n : Z) : ascii :=
  Ascii.ascii_of_nat (Z.to_nat (48 + n mod 10)).

(** The last [width] decimal digits of [n], most significant first. *)
Fixpoint digits (width : nat) (n : Z) (acc : string) : string :=
  match width with
  | O => acc
  | S w => digits w (n / 10) (String (digitChar n) acc)
  end.

Definition digitVal (c : ascii) : option Z :=
  let n := Z.of_nat (Ascii.nat_of_ascii c) in
  if (48 <=? n) && (n <=? 57) then Some (n - 48) else None.

Fixpoint number (l : list ascii) (acc : Z) : option Z :=
  match l with
  | [] => Some acc
  | c :: r =>
      match digitVal c with
      | Some d => number r (10 * acc + d)
      | None => None
      end
  end.

(** The year of the ISO format: four digits from 0 to 9999, otherwise a
    sign and six digits. *)
Definition yearString (y : Z) (rest : string) : string :=
  if (0 <=? y) && (y <=? 9999) then digits 4 y rest
  else String (if 0 <=? y then "+"%char else "-"%char) (digits 6 (Z.abs y) rest).

(** [YYYY-MM-DD], the part of [toISOString()] before the ["T"]. *)
Definition isoDate (t : Z) (rest : string) : string :=
  yearString (YearFromTime t)
    (String "-" (digits 2 (MonthFromTime t + 1)
       (String "-" (digits 2 (DateFromTime t) rest)))).

(** [HH:mm:ss.sssZ] *)
Definition isoTime (t : Z) : string :=
  let ms := TimeWithinDay t in
  digits 2 (ms / 3600000)
    (String ":" (digits 2 (ms / 60000 mod 60)
       (String ":" (digits 2 (ms / 1000 mod 60)
          (String "." (digits 3 (ms mod 1000) "Z")))))).

(** [Date.prototype.toISOString]: a RangeError on an Invalid Date. *)
Definition toISOString (d : option Z) : option string :=
  match d with
  | Some t => Some (isoDate t (String "T" (isoTime t)))
  | None => None
  end.

(** [s.split("T")[0]]: the text before the first ["T"]. *)
Fixpoint beforeT (s : string) : string :=
  match s with
  | EmptyString => EmptyString
  | String c r => if Ascii.eqb c "T" then EmptyString else String c (beforeT r)
  end.

(** The time zone designator of the ISO format: [Z], or [+HH:mm] or
    [-HH:mm], as the milliseconds local time is ahead of UTC. *)
Definition parseZone (l : list ascii) : option Z :=
  match l with
  | z :: [] => if Ascii.eqb z "Z" then Some 0 else None
  | sg :: h1 :: h0 :: c :: m1 :: m0 :: [] =>
      if (Ascii.eqb sg "+" || Ascii.eqb sg "-") && Ascii.eqb c ":" then
        match number [h1; h0] 0, number [m1; m0] 0 with
        | Some h, Some m =>
            if (h <=? 23) && (m <=? 59)
            then Some ((if Ascii.eqb sg "+" then 1 else -1)
                       * (h * 3600000 + m * 60000))
            else None
        | _, _ => None
        end
      else None
  | _ => None
  end.

(** The milliseconds of a time of day: hours to 23, or 24:00:00.000, the
    midnight that ends the day. *)
Definition timeOfDay (h m sec ms : Z) : option Z :=
  if ((h <=? 23) && (m <=? 59) && (sec <=? 59))
     || ((h =? 24) && (m =? 0) && (sec =? 0) && (ms =? 0))
  then Some (h * 3600000 + m * 60000 + sec * 1000 + ms)
  else None.

(** A time of day of a zone, in milliseconds from the UTC midnight of the
    day. *)
Definition zoned (time zone : option Z) : option Z :=
  match time, zone with
  | Some t, Some z => Some (t - z)
  | _, _ => None
  end.

(** The time part of the ISO format: [THH:mm], [THH:mm:ss] or
    [THH:mm:ss.sss], followed by a zone designator. *)
Definition parseTime (l : list ascii) : option Z :=
  match l with
  | t :: h1 :: h0 :: c1 :: m1 :: m0 :: rest =>
      if Ascii.eqb t "T" && Ascii.eqb c1 ":" then
        match number [h1; h0] 0, number [m1; m0] 0 with
        | Some h, Some m =>
            match rest with
            | c2 :: s1 :: s0 :: rest' =>
                if Ascii.eqb c2 ":" then
                  match number [s1; s0] 0 with
                  | Some sec =>
                      match rest' with
                      | c3 :: f2 :: f1 :: f0 :: zone =>
                          if Ascii.eqb c3 "." then
                            match number [f2; f1; f0] 0 with
                            | Some ms =>
                                zoned (timeOfDay h m sec ms) (parseZone zone)
                            | None => None
                            end
                          else zoned (timeOfDay h m sec 0) (parseZone rest')
                      | _ => zoned (timeOfDay h m sec 0) (parseZone rest')
                      end
                  | None => None
                  end
                else zoned (timeOfDay h m 0 0) (parseZone rest)
            | _ => zoned (timeOfDay h m 0 0) (parseZone rest)
            end
        | _, _ => None
        end
      else None
  | _ => None
  end.

(** [Date.parse] on the ISO format of ECMA-262 with a four-digit year:
    the date-only forms [YYYY], [YYYY-MM] and [YYYY-MM-DD], which are UTC
    midnight, and the date-time forms that name their zone.  A day up to
    31 is taken in any month and carried over by [MakeDay], as Node does.
    Not recognised, and read as an Invalid Date: a date-time form without
    a zone designator, which is local time, a year of six digits, and the
    other spellings an engine accepts beyond the standard format. *)
Definition parse (s : string) : option Z :=
  match list_ascii_of_string s with
  | y3 :: y2 :: y1 :: y0 :: [] =>
      match number [y3; y2; y1; y0] 0 with
      | Some y => Some (MakeDate (MakeDay y 0 1) 0)
      | None => None
      end
  | y3 :: y2 :: y1 :: y0 :: c1 :: m1 :: m0 :: [] =>
      if Ascii.eqb c1 "-" then
        match number [y3; y2; y1; y0] 0, number [m1; m0] 0 with
        | Some y, Some m =>
            if (1 <=? m) && (m <=? 12)
            then Some (MakeDate (MakeDay y (m - 1) 1) 0)
            else None
        | _, _ => None
        end
      else None
  | y3 :: y2 :: y1 :: y0 :: c1 :: m1 :: m0 :: c2 :: d1 :: d0 :: rest =>
      if Ascii.eqb c1 "-" && Ascii.eqb c2 "-" then
        match number [y3; y2; y1; y0] 0, number [m1; m0] 0,
              number [d1; d0] 0 with
        | Some y, Some m, Some d =>
            if (1 <=? m) && (m <=? 12) && (1 <=? d) && (d <=? 31) then
              match rest with
              | [] => Some (MakeDate (MakeDay y (m - 1) d) 0)
              | _ =>
                  match parseTime rest with
                  | Some time => Some (MakeDate (MakeDay y (m - 1) d) time)
                  | None => None
                  end
              end
            else None
        | _, _, _ => None
        end
      else None
  | _ => None
  end.

(** [new Date(string)] *)
Definition ofString (s : string) : option Z :=
  match parse s with
  | Some t => TimeClip t
  | None => None
  end.

End JsDate.

(* ===================================================================== *)
(** ** The policy form: derived end date *)
(* ===================================================================== *)

(** How the body of an effect or handler completes: normally, or by
    throwing an error with a message. *)
Inductive Completion (A : Type) : Type :=
| Normal (a : A)
| Throw (message : string).
Arguments Normal {A} a.
Arguments Throw {A} message.

Module EndDate.

Definition setEndDate (v : string) (f : PolicyFormValues) : PolicyFormValues :=
  mkPolicyFormValues (form_landlordId f) (form_propertyId f)
    (form_tenantId f) (form_status f) (form_coverageMonths f)
    (form_riskScore f) (form_decision f) (form_startDate f)
    v (form_premiumAmount f).

(** The end date the effect derives: [new Date(startDate)], copied,
    [setMonth(getMonth() + coverageMonths)], [toISOString().split("T")[0]].
    [None] is the RangeError of [toISOString] on an Invalid Date. *)
Definition computeEndDate (tza : Z) (startDate : string)
  (coverageMonths : float) : option string :=
  let start := JsDate.ofString startDate in
  let end_ := start in
  let end' :=
    JsDate.setMonth tza end_ (JsDate.getMonth tza end_ + coverageMonths)%float in
  match JsDate.toISOString end' with
  | Some iso => Some (JsDate.beforeT iso)
  | None => None
  end.

(** The effect "Auto-calculate end date based on start date and coverage
    months": it runs when the start date or the coverage changes, and
    writes the end date only when both are truthy. *)
Definition endDateEffect (tza : Z) (f : PolicyFormValues)
  : Completion PolicyFormValues :=
  if negb (String.eqb (form_startDate f) "")
     && JsNumber.truthy (form_coverageMonths f)
  then
    match computeEndDate tza (form_startDate f) (form_coverageMonths f) with
    | Some endDate => Normal (setEndDate endDate f)
    | None => Throw "RangeError: Invalid time value"
    end
  else Normal f.

(** [onSubmit]: the dates sent to the server. *)
Definition submitStartDate (f : PolicyFormValues) : string :=
  form_startDate f +:+ "T00:00:00.000Z".
Definition submitEndDate (f : PolicyFormValues) : string :=
  form_endDate f +:+ "T23:59:59.000Z".

End EndDate.

(* ===================================================================== *)
(** ** Request bodies and zod schemas *)
(* ===================================================================== *)

(** A value of a JSON request body, as far as the schemas below look into
    it; [JOther] stands for arrays and nested objects. *)
Inductive JValue : Type :=
| JUndefined
| JNull
| JBool (b : bool)
| JNum (x : float)
| JStr (s : string)
| JOther.

(** A request body is a JavaScript object: a finite map from keys to
    values, a missing key reading as [undefined]. *)
Definition field (o : gmap string JValue) (k : string) : JValue :=
  default JUndefined (o !! k).

Definition truthyValue (v : JValue) : bool :=
  match v with
  | JUndefined | JNull => false
  | JBool b => b
  | JNum x => JsNumber.truthy x
  | JStr s => negb (String.eqb s "")
  | JOther => true
  end.

(** [list.includes(v)] for a list of strings: only a string can be equal
    to one of them. *)
Definition includes (l : list string) (v : JValue) : bool :=
  match v with
  | JStr s => existsb (String.eqb s) l
  | _ => false
  end.

Module Zod.

(** A schema either returns the parsed value or throws a ZodError.  The
    message of a ZodError lists every issue found; here it names the first
    field that fails, which is all the controller does with it. *)

(** [z.string()] *)
Definition string_ (path : string) (v : JValue) : Completion string :=
  match v with
  | JStr s => Normal s
  | _ => Throw ("ZodError: " +:+ path +:+ ": expected string")
  end.

(** [z.number()] *)
Definition number (path : string) (v : JValue) : Completion float :=
  match v with
  | JNum x =>
      if JsNumber.isNumber x then Normal x
      else Throw ("ZodError: " +:+ path +:+ ": expected number")
  | _ => Throw ("ZodError: " +:+ path +:+ ": expected number")
  end.

(** [z.enum(values).default(dflt)] *)
Definition enumDefault (values : list string) (dflt : string)
  (path : string) (v : JValue) : Completion string :=
  match v with
  | JUndefined => Normal dflt
  | JStr s =>
      if existsb (String.eqb s) values then Normal s
      else Throw ("ZodError: " +:+ path +:+ ": invalid enum value")
  | _ => Throw ("ZodError: " +:+ path +:+ ": invalid enum value")
  end.

(** [z.coerce.date()]: [new Date(input)], which must be a valid date; an
    array or a nested object is taken as not coercible. *)
Definition coerceDate (path : string) (v : JValue) : Completion Z :=
  let d :=
    match v with
    | JUndefined => None
    | JNull => Some 0
    | JBool b => Some (if b then 1 else 0)
    | JNum x =>
        match JsNumber.toInteger x with
        | Some t => JsDate.TimeClip t
        | None => None
        end
    | JStr s => JsDate.ofString s
    | JOther => None
    end in
  match d with
  | Some t => Normal t
  | None => Throw ("ZodError: " +:+ path +:+ ": invalid date")
  end.

(** The schema drizzle-zod derives from an [integer] column:
    a number that is an integer of the 32-bit range. *)
Definition integerColumn (path : string) (v : JValue) : Completion float :=
  match number path v with
  | Normal x =>
      if JsNumber.isInteger x && (-2147483648 <=? x)%float
         && (x <=? 2147483647)%float
      then Normal x
      else Throw ("ZodError: " +:+ path +:+ ": expected 32-bit integer")
  | Throw m => Throw m
  end.

End Zod.

(** Sequencing of completions: the first [Throw] aborts the rest. *)
#[global] Instance Completion_bind : MBind Completion :=
  fun A B (k : A -> Completion B) (c : Completion A) =>
    match c with
    | Normal a => k a
    | Throw m => Throw m
    end.

(** *** Server schemas ([src/database/schema.ts]) *)

(** [z.infer<typeof insertPolicySchema>] on the server. *)
Record InsertPolicy := mkInsertPolicy {
  ip_userId : string;
  ip_landlordId : string;
  ip_propertyId : string;
  ip_tenantId : string;
  ip_status : string;
  ip_coverageMonths : float;
  ip_riskScore : float;
  ip_decision : string;
  ip_startDate : Z;
  ip_endDate : Z;
  ip_premiumAmount : float
}.

Module Server.

Definition policyStatuses : list string := ["active"; "expired"; "cancelled"].

(** [insertClaimSchema]'s status: [z.enum(["pending", "approved",
    "rejected", "paid"]).default("pending")]. *)
Definition claimStatuses : list string :=
  ["pending"; "approved"; "rejected"; "paid"].

Definition insertClaimSchema_status (v : JValue) : Completion string :=
  Zod.enumDefault claimStatuses "pending" "status" v.

(** [insertPolicySchema.parse]: the columns of [policies] without [id],
    [policyNumber], [createdAt] and [updatedAt]; [status], [riskScore] and
    [premiumAmount] overridden, [startDate] and [endDate] coerced to
    dates.  Keys the schema does not name are dropped. *)
Definition insertPolicySchema (o : gmap string JValue)
  : Completion InsertPolicy :=
  userId ← Zod.string_ "userId" (field o "userId");
  landlordId ← Zod.string_ "landlordId" (field o "landlordId");
  propertyId ← Zod.string_ "propertyId" (field o "propertyId");
  tenantId ← Zod.string_ "tenantId" (field o "tenantId");
  status ← Zod.enumDefault policyStatuses "active" "status"
              (field o "status");
  coverageMonths ← Zod.integerColumn "coverageMonths"
                      (field o "coverageMonths");
  riskScore ← Zod.number "riskScore" (field o "riskScore");
  decision ← Zod.string_ "decision" (field o "decision");
  startDate ← Zod.coerceDate "startDate" (field o "startDate");
  endDate ← Zod.coerceDate "endDate" (field o "endDate");
  premiumAmount ← Zod.number "premiumAmount" (field o "premiumAmount");
  Normal (mkInsertPolicy userId landlordId propertyId tenantId status
            coverageMonths riskScore decision startDate endDate
            premiumAmount).

End Server.

(** *** Client schemas ([client/src/types/schema/policySchema.ts],
    [claimSchema.ts]) *)

Module Client.

(** [insertClaimSchema]'s status on the client. *)
Definition claimStatuses : list string :=
  ["pending"; "under_review"; "approved"; "rejected"; "paid"].

Definition insertClaimSchema_status (v : JValue) : Completion string :=
  Zod.enumDefault claimStatuses "pending" "status" v.

(** [coverageMonths: z.coerce.number().int().min(1, ...)] on a Number. *)
Definition coverageMonths_ok (x : float) : bool :=
  JsNumber.isNumber x && JsNumber.isInteger x && (1 <=? x)%float.

(** [riskScore: z.coerce.number().min(0).max(100, ...)] on a Number. *)
Definition riskScore_ok (x : float) : bool :=
  JsNumber.isNumber x && (0 <=? x)%float && (x <=? 100)%float.

End Client.

(* ===================================================================== *)
(** ** Records of the entity store ([src/database/schema.ts]) *)
(* ===================================================================== *)

(** Rows of [landlords], [tenants], [policies] and [claims], with the
    columns the policy controller and its storage calls read or write
    ([createdAt] and [updatedAt] are left out). *)
Record Landlord := mkLandlord {
  landlord_id : string;
  landlord_userId : string;
  landlord_name : string
}.

Record Tenant := mkTenant {
  tenant_id : string;
  tenant_userId : string;
  tenant_propertyId : string;
  tenant_name : string
}.

Record Policy := mkPolicy {
  policy_id : string;
  policy_userId : string;
  policy_landlordId : string;
  policy_propertyId : string;
  policy_tenantId : string;
  policy_policyNumber : string;
  policy_status : string;
  policy_coverageMonths : float;
  policy_riskScore : float;
  policy_decision : string;
  policy_startDate : Z;
  policy_endDate : Z;
  policy_premiumAmount : float
}.

Record Claim := mkClaim {
  claim_id : string;
  claim_userId : string;
  claim_policyId : string;
  claim_claimNumber : string;
  claim_status : string;
  claim_amountRequested : float;
  claim_monthsOfUnpaidRent : Z
}.

(* ===================================================================== *)
(** ** The policy controller ([src/controllers/policyController.ts]) *)
(* ===================================================================== *)

(** The calls the controller makes on [storage], each with the type of
    the value its promise resolves to. *)
Module storage.
Inductive StorageCall : Type -> Type :=
| getLandlord (id : string) : StorageCall (option Landlord)
| getProperty (id : string) : StorageCall (option Property)
| getTenant (id : string) : StorageCall (option Tenant)
| createPolicy (policyData : InsertPolicy) : StorageCall Policy
| updatePolicy (id userId : string) (status : JValue)
    : StorageCall (option Policy)
| deletePolicy (id userId : string) : StorageCall bool.
End storage.

(** A handler is a program that awaits storage calls, each of which
    resolves or rejects, and ends by sending a response. *)
Inductive Controller (R : Type) : Type :=
| Respond (r : R)
| Await {A : Type} (call : storage.StorageCall A)
        (k : Completion A -> Controller R).
Arguments Respond {R} r.
Arguments Await {R A} call k.

(** [res.status(code).json({ success, message, data })] *)
Record Response := mkResponse {
  statusCode : Z;
  success : bool;
  message : option string;
  data : option Policy
}.

(** [haystack.includes(needle)] on strings. *)
Definition String_includes (haystack needle : string) : bool :=
  match String.index 0 needle haystack with
  | Some _ => true
  | None => false
  end.

Module policyController.

Definition failure (code : Z) (msg : string) : Controller Response :=
  Respond (mkResponse code false (Some msg) None).

(** The [catch] of [createPolicy]: [err.message || "Invalid policy data."] *)
Definition createPolicy_catch (errMessage : string) : Controller Response :=
  failure 400 (if String.eqb errMessage "" then "Invalid policy data."
               else errMessage).

(** [createPolicy]: parse the body with the session's [userId], fetch
    the three parents together ([Promise.all] issues the three calls
    before any result is looked at), check each is present and owned,
    then create. *)
Definition createPolicy (userId : string) (body : gmap string JValue)
  : Controller Response :=
  match Server.insertPolicySchema (<["userId" := JStr userId]> body) with
  | Throw m => createPolicy_catch m
  | Normal policyData =>
      Await (storage.getLandlord (ip_landlordId policyData)) (fun r1 =>
      Await (storage.getProperty (ip_propertyId policyData)) (fun r2 =>
      Await (storage.getTenant (ip_tenantId policyData)) (fun r3 =>
        match r1, r2, r3 with
        | Normal landlord, Normal property, Normal tenant =>
            if match landlord with
               | None => true
               | Some l => negb (String.eqb (landlord_userId l) userId)
               end
            then failure 403 "Invalid landlord."
            else if match property with
                    | None => true
                    | Some p => negb (String.eqb (property_userId p) userId)
                    end
            then failure 403 "Invalid property."
            else if match tenant with
                    | None => true
                    | Some t => negb (String.eqb (tenant_userId t) userId)
                    end
            then failure 403 "Invalid tenant."
            else
              Await (storage.createPolicy policyData) (fun r =>
                match r with
                | Normal newPolicy =>
                    Respond (mkResponse 201 true None (Some newPolicy))
                | Throw m => createPolicy_catch m
                end)
        | Throw m, _, _ => createPolicy_catch m
        | _, Throw m, _ => createPolicy_catch m
        | _, _, Throw m => createPolicy_catch m
        end)))
  end.

(** [updatePolicyStatus] *)
Definition updatePolicyStatus (userId id : string)
  (body : gmap string JValue) : Controller Response :=
  let status := field body "status" in
  if negb (truthyValue status)
     || negb (includes ["active"; "expired"; "cancelled"] status)
  then failure 400 "Invalid status provided."
  else
    Await (storage.updatePolicy id userId status) (fun r =>
      match r with
      | Normal None => failure 404 "Policy not found or access denied."
      | Normal (Some updatedPolicy) =>
          Respond (mkResponse 200 true None (Some updatedPolicy))
      | Throw _ => failure 500 "Failed to update policy."
      end).

(** [deletePolicy] *)
Definition deletePolicy (userId id : string) : Controller Response :=
  Await (storage.deletePolicy id userId) (fun r =>
    match r with
    | Normal false => failure 404 "Policy not found or access denied."
    | Normal true =>
        Respond (mkResponse 200 true (Some "Policy deleted successfully.")
                   None)
    | Throw m =>
        if String_includes m "active claims" then failure 409 m
        else failure 500 "Failed to delete policy."
    end).

End policyController.

(** Running a handler against an implementation [h] of the storage calls
    over a state [S]. *)
Fixpoint run {S R : Type}
  (h : forall A, storage.StorageCall A -> S -> Completion A * S)
  (c : Controller R) (st : S) : R * S :=
  match c with
  | Respond r => (r, st)
  | Await call k =>
      let '(a, st') := h _ call st in run h (k a) st'
  end.

(** The storage calls a handler issues, in order. *)
Inductive Issued : Type :=
| issued {A : Type} (call : storage.StorageCall A).

Fixpoint trace {S R : Type}
  (h : forall A, storage.StorageCall A -> S -> Completion A * S)
  (c : Controller R) (st : S) : list Issued :=
  match c with
  | Respond _ => []
  | Await call k =>
      let '(a, st') := h _ call st in issued call :: trace h (k a) st'
  end.

(* ===================================================================== *)
(** ** The entity store *)
(* ===================================================================== *)

(** The tables the policy controller reaches, as lists of rows, and the
    count of policy numbers issued so far. *)
Record Store := mkStore {
  landlords : list Landlord;
  properties : list Property;
  tenants : list Tenant;
  policies : list Policy;
  claims : list Claim;
  issuedNumbers : nat
}.

Module EntityStore.

Definition setPolicies (ps : list Policy) (n : nat) (st : Store) : Store :=
  mkStore (landlords st) (properties st) (tenants st) ps (claims st) n.

Definition setStatus (status : string) (p : Policy) : Policy :=
  mkPolicy (policy_id p) (policy_userId p) (policy_landlordId p)
    (policy_propertyId p) (policy_tenantId p) (policy_policyNumber p)
    status (policy_coverageMonths p) (policy_riskScore p)
    (policy_decision p) (policy_startDate p) (policy_endDate p)
    (policy_premiumAmount p).

(** The row of [policies] with this id that belongs to this user. *)
Definition ownedBy (id userId : string) (p : Policy) : bool :=
  String.eqb (policy_id p) id && String.eqb (policy_userId p) userId.

(** Modelled from the spec: [storage.getLandlord], absent from the
    sources; the Entity Store resolves an id to its record, if any. *)
Definition getLandlord (id : string) (st : Store) : option Landlord :=
  List.find (fun l => String.eqb (landlord_id l) id) (landlords st).

(** Modelled from the spec: [storage.getProperty], absent from the
    sources; the Entity Store resolves an id to its record, if any. *)
Definition getProperty (id : string) (st : Store) : option Property :=
  List.find (fun p => String.eqb (property_id p) id) (properties st).

(** Modelled from the spec: [storage.getTenant], absent from the sources;
    the Entity Store resolves an id to its record, if any. *)
Definition getTenant (id : string) (st : Store) : option Tenant :=
  List.find (fun t => String.eqb (tenant_id t) id) (tenants st).

(** The insert violates [tenant_id ... .unique()] of the [policies]
    table when a row already references the tenant. *)
Definition tenantInsured (tenantId : string) (st : Store) : bool :=
  existsb (fun p => String.eqb (policy_tenantId p) tenantId) (policies st).

(** Modelled from the spec: [storage.createPolicy], absent from the
    sources.  The Entity Store persists the validated record as the
    caller supplied it, under a fresh id and the policy number the
    Numbering Service issues; the insert is refused when it breaks the
    unique constraint on [tenant_id] that the [policies] table declares
    ("a tenant cannot be double-insured"). *)
Definition createPolicy (d : InsertPolicy) (st : Store)
  : Completion Policy * Store :=
  if tenantInsured (ip_tenantId d) st then
    (Throw "duplicate key value violates unique constraint policies_tenant_id_unique",
     st)
  else
    let n := issuedNumbers st in
    let newPolicy :=
      mkPolicy ("policy-" +:+ pretty n) (ip_userId d) (ip_landlordId d)
        (ip_propertyId d) (ip_tenantId d) ("POL-" +:+ pretty n)
        (ip_status d) (ip_coverageMonths d) (ip_riskScore d)
        (ip_decision d) (ip_startDate d) (ip_endDate d)
        (ip_premiumAmount d) in
    (Normal newPolicy, setPolicies (policies st ++ [newPolicy]) (S n) st).

(** Modelled from the spec: [storage.updatePolicy], absent from the
    sources, after the operation the spec lists as
    [updatePolicyStatus(id, userId, status) -> Policy | NotFound]:
    NotFound (record absent or not owned) when no record has this id and
    owner; otherwise the status of the record is set and the updated
    record returned.  The operation has no conflict among its results,
    unlike [deletePolicy], and the handler in the sources has no branch
    for one, unlike the handler of [deletePolicy]: no lifecycle check is
    modelled. *)
Definition updatePolicy (id userId : string) (status : JValue)
  (st : Store) : Completion (option Policy) * Store :=
  match List.filter (ownedBy id userId) (policies st), status with
  | [], _ => (Normal None, st)
  | p :: rows, JStr s =>
      (Normal (Some (setStatus s p)),
       setPolicies
         (map (fun q => if ownedBy id userId q then setStatus s q else q)
              (policies st))
         (issuedNumbers st) st)
  | _ :: _, _ => (Throw "ValidationError: status is not a string", st)
  end.

Definition hasClaims (policyId : string) (st : Store) : bool :=
  existsb (fun c => String.eqb (claim_policyId c) policyId) (claims st).

(** Modelled from the spec: [storage.deletePolicy], absent from the
    sources.  NotFound (a false result) when the record is absent or not
    owned; "Policy deletion fails with a ConflictError (active claims)
    whenever at least one Claim references it, regardless of the claim's
    status"; otherwise the policy row is removed and nothing cascades. *)
Definition deletePolicy (id userId : string) (st : Store)
  : Completion bool * Store :=
  match List.find (ownedBy id userId) (policies st) with
  | None => (Normal false, st)
  | Some _ =>
      if hasClaims id st then
        (Throw "Cannot delete policy with active claims.", st)
      else
        (Normal true,
         setPolicies
           (List.filter (fun q => negb (ownedBy id userId q)) (policies st))
           (issuedNumbers st) st)
  end.

(** The storage object over the in-memory tables. *)
Definition handle (A : Type) (call : storage.StorageCall A) (st : Store)
  : Completion A * Store :=
  match call in storage.StorageCall T return Completion T * Store with
  | storage.getLandlord id => (Normal (getLandlord id st), st)
  | storage.getProperty id => (Normal (getProperty id st), st)
  | storage.getTenant id => (Normal (getTenant id st), st)
  | storage.createPolicy d => createPolicy d st
  | storage.updatePolicy id userId status => updatePolicy id userId status st
  | storage.deletePolicy id userId => deletePolicy id userId st
  end.

End EntityStore.

(** The three operations of the controller on the in-memory store. *)
Definition createPolicy (userId : string) (body : gmap string JValue)
  (st : Store) : Response * Store :=
  run EntityStore.handle (policyController.createPolicy userId body) st.

Definition updatePolicyStatus (userId id : string)
  (body : gmap string JValue) (st : Store) : Response * Store :=
  run EntityStore.handle (policyController.updatePolicyStatus userId id body) st.

Definition deletePolicy (userId id : string) (st : Store) : Response * Store :=
  run EntityStore.handle (policyController.deletePolicy userId id) st.

(* ===================================================================== *)
(** ** Notions the specification uses *)
(* ===================================================================== *)

Module Calendar.

(** The length of month [mo] (1 to 12) of year [y]. *)
Definition DaysInMonth (y mo : Z) : Z :=
  if mo =? 2 then 28 + JsDate.leapOfYear y
  else if (mo =? 4) || (mo =? 6) || (mo =? 9) || (mo =? 11) then 30
  else 31.

(** The date [y]-[mo]-[d] advanced by [n] calendar months: the same day of
    the month [n] months later, a day past the end of that month carried
    over into the month after it. *)
Definition addMonths (y mo d n : Z) : Z * Z * Z :=
  let i := mo - 1 + n in
  let y' := y + i / 12 in
  let mo' := i mod 12 + 1 in
  if d <=? DaysInMonth y' mo' then (y', mo', d)
  else (y', mo' + 1, d - DaysInMonth y' mo').

(** [YYYY-MM-DD] *)
Definition civil (y mo d : Z) : string :=
  JsDate.digits 4 y
    (String "-" (JsDate.digits 2 mo
       (String "-" (JsDate.digits 2 d EmptyString)))).

Definition civilOf (date : Z * Z * Z) : string :=
  let '(y, mo, d) := date in civil y mo d.

(** The time value [t] advanced by [n] calendar months, in UTC. *)
Definition advance (t n : Z) : Z :=
  JsDate.MakeDate
    (JsDate.MakeDay (JsDate.YearFromTime t) (JsDate.MonthFromTime t + n)
       (JsDate.DateFromTime t))
    (JsDate.TimeWithinDay t).

End Calendar.

(** The numerator [(-1)^s * m] of the finite Number [(-1)^s * m * 2^e]. *)
Definition numerator (s : bool) (m : positive) : Z :=
  if s then Z.neg m else Z.pos m.

(** "Rounded to the currency's minor-unit precision", two decimal places:
    the amount in hundredths, rounded, over a hundred. *)
Definition roundToMinorUnit (x : float) : float :=
  (JsNumber.Math_round (x * 100) / 100)%float.

(** A parent reference of a policy is valid when the record exists and
    belongs to the acting user. *)
Definition landlordOk (userId : string) (d : InsertPolicy) (st : Store) : bool :=
  match EntityStore.getLandlord (ip_landlordId d) st with
  | Some l => String.eqb (landlord_userId l) userId
  | None => false
  end.

Definition propertyOk (userId : string) (d : InsertPolicy) (st : Store) : bool :=
  match EntityStore.getProperty (ip_propertyId d) st with
  | Some p => String.eqb (property_userId p) userId
  | None => false
  end.

Definition tenantOk (userId : string) (d : InsertPolicy) (st : Store) : bool :=
  match EntityStore.getTenant (ip_tenantId d) st with
  | Some t => String.eqb (tenant_userId t) userId
  | None => false
  end.

(** The reference error of a policy input, naming the first reference that
    fails in the order landlord, property, tenant. *)
Definition invalidReference (userId : string) (d : InsertPolicy) (st : Store)
  : option string :=
  if negb (landlordOk userId d st) then Some "Invalid landlord."
  else if negb (propertyOk userId d st) then Some "Invalid property."
  else if negb (tenantOk userId d st) then Some "Invalid tenant."
  else None.


(** No two policies insure the same tenant. *)
Definition tenantsUnique (st : Store) : Prop :=
  List.NoDup (map policy_tenantId (policies st)).

(** A mantissa shifted to the left by [k] bits. *)
Definition shl (m : positive) (k : Z) : positive :=
  match k with
  | Zpos p => Pos.iter xO m p
  | _ => m
  end.

(* ===================================================================== *)
(** ** Sample data *)
(* ===================================================================== *)

Module Sample.

(** Two users, [u1] and [u2], each with a landlord, a property and
    tenants; no policy yet. *)
Definition store0 : Store :=
  mkStore [mkLandlord "l1" "u1" "Amira"; mkLandlord "l2" "u2" "Bilel"]
          [mkProperty "p1" "u1" "l1" 850; mkProperty "p2" "u2" "l2" 1000]
          [mkTenant "t1" "u1" "p1" "Chedly"; mkTenant "t2" "u2" "p2" "Dorra";
           mkTenant "t3" "u1" "p1" "Emna"]
          [] [] 0.

(** A twelve-month policy from 2024-01-01 whose end date is the next day. *)
Definition body0 : gmap string JValue :=
  <["landlordId" := JStr "l1"]> (<["propertyId" := JStr "p1"]>
  (<["tenantId" := JStr "t1"]> (<["coverageMonths" := JNum 12]>
  (<["riskScore" := JNum 40]> (<["decision" := JStr "accept"]>
  (<["startDate" := JStr "2024-01-01T00:00:00.000Z"]>
  (<["endDate" := JStr "2024-01-02T23:59:59.000Z"]>
  (<["premiumAmount" := JNum 459]> ∅)))))))).

Definition data0 : InsertPolicy :=
  mkInsertPolicy "u1" "l1" "p1" "t1" "active" 12 40 "accept"
    1704067200000 1704239999000 459.

Definition policy0 : Policy :=
  mkPolicy "policy-0" "u1" "l1" "p1" "t1" "POL-0" "active" 12 40 "accept"
    1704067200000 1704239999000 459.

(** The store after [body0] was accepted. *)
Definition store1 : Store :=
  mkStore (landlords store0) (properties store0) (tenants store0)
          [policy0] [] 1.


(** The same store with a rejected claim against the policy. *)
Definition store1_claimed : Store :=
  mkStore (landlords store0) (properties store0) (tenants store0)
          [policy0]
          [mkClaim "claim-0" "u1" "policy-0" "CLM-0" "rejected" 850 1] 1.

(** A body whose tenant belongs to the other user. *)
Definition body_foreign_tenant : gmap string JValue :=
  <["tenantId" := JStr "t2"]> body0.

(** A body with no coverage and a risk score above the scale. *)
Definition body_out_of_range : gmap string JValue :=
  <["coverageMonths" := JNum 0]> (<["riskScore" := JNum 150]> body0).

Definition policy_out_of_range : Policy :=
  mkPolicy "policy-0" "u1" "l1" "p1" "t1" "POL-0" "active" 0 150 "accept"
    1704067200000 1704239999000 459.

Definition form0 : PolicyFormValues :=
  mkPolicyFormValues "l1" "p1" "t1" "active" 1 40 "accept" "2024-01-31"
    EmptyString 0.

End Sample.

(* ===================================================================== *)
(** ** The read handlers of the policy controller *)
(* ===================================================================== *)

(** A row of a policy list, as the list pages read it. *)
Record PolicyListItem := mkPolicyListItem {
  item_id : string;
  item_policyNumber : string;
  item_tenantName : string;
  item_landlordName : string;
  item_status : string;
  item_decision : string
}.

(** A policy with its tenant, property and landlord ([PolicyDetail]). *)
Record PolicyDetail := mkPolicyDetail {
  detail_policy : Policy;
  detail_tenant : Tenant;
  detail_property : Property;
  detail_landlord : Landlord
}.

(** The calls the read handlers make on [storage]. *)
Module storageRead.
Inductive ReadCall : Type -> Type :=
| getAllPolicies (userId : string) : ReadCall (list PolicyListItem)
| getPolicyById (id userId : string) : ReadCall (option PolicyDetail)
| getLandlord (id : string) : ReadCall (option Landlord)
| getTenant (id : string) : ReadCall (option Tenant)
| getPoliciesByLandlord (userId landlordId : string)
    : ReadCall (list PolicyListItem)
| getPoliciesByTenant (userId tenantId : string)
    : ReadCall (list PolicyListItem).
End storageRead.

(** What a read handler sends: a JSON body, or the PDF of a policy with
    its two headers. *)
Inductive ReplyData : Type :=
| noData
| policyList (l : list PolicyListItem)
| policyDetail (d : PolicyDetail).

Inductive Reply : Type :=
| json (code : Z) (ok : bool) (msg : option string) (payload : ReplyData)
| pdf (contentType contentDisposition : string) (policyData : PolicyDetail).

Inductive ReadHandler : Type :=
| Reply_ (r : Reply)
| AwaitRead {A : Type} (call : storageRead.ReadCall A)
            (k : Completion A -> ReadHandler).

Module policyReads.

Definition notFound (msg : string) : ReadHandler :=
  Reply_ (json 404 false (Some msg) noData).

Definition failed (msg : string) : ReadHandler :=
  Reply_ (json 500 false (Some msg) noData).

(** [getAllPolicies] *)
Definition getAllPolicies (userId : string) : ReadHandler :=
  AwaitRead (storageRead.getAllPolicies userId) (fun r =>
    match r with
    | Normal policies => Reply_ (json 200 true None (policyList policies))
    | Throw _ => failed "Failed to fetch policies."
    end).

(** [getPolicyById] *)
Definition getPolicyById (userId id : string) : ReadHandler :=
  AwaitRead (storageRead.getPolicyById id userId) (fun r =>
    match r with
    | Normal None => notFound "Policy not found or access denied."
    | Normal (Some policy) => Reply_ (json 200 true None (policyDetail policy))
    | Throw _ => failed "Failed to fetch policy."
    end).

(** [getPoliciesForLandlord] *)
Definition getPoliciesForLandlord (userId landlordId : string) : ReadHandler :=
  AwaitRead (storageRead.getLandlord landlordId) (fun r =>
    match r with
    | Normal landlord =>
        if match landlord with
           | None => true
           | Some l => negb (String.eqb (landlord_userId l) userId)
           end
        then notFound "Landlord not found or access denied."
        else
          AwaitRead (storageRead.getPoliciesByLandlord userId landlordId)
            (fun r' =>
               match r' with
               | Normal policies =>
                   Reply_ (json 200 true None (policyList policies))
               | Throw _ => failed "Failed to fetch policies."
               end)
    | Throw _ => failed "Failed to fetch policies."
    end).

(** [getPoliciesForTenant] *)
Definition getPoliciesForTenant (userId tenantId : string) : ReadHandler :=
  AwaitRead (storageRead.getTenant tenantId) (fun r =>
    match r with
    | Normal tenant =>
        if match tenant with
           | None => true
           | Some t => negb (String.eqb (tenant_userId t) userId)
           end
        then notFound "Tenant not found or access denied."
        else
          AwaitRead (storageRead.getPoliciesByTenant userId tenantId)
            (fun r' =>
               match r' with
               | Normal policies =>
                   Reply_ (json 200 true None (policyList policies))
               | Throw _ => failed "Failed to fetch policies."
               end)
    | Throw _ => failed "Failed to fetch policies."
    end).

(** The double quote character. *)
Definition dquote : string := String (Ascii.ascii_of_nat 34) EmptyString.

(** [generatePolicyDocument]: the two headers, then the PDF generator on
    the policy found. *)
Definition generatePolicyDocument (userId id : string) : ReadHandler :=
  AwaitRead (storageRead.getPolicyById id userId) (fun r =>
    match r with
    | Normal None => notFound "Policy not found or access denied."
    | Normal (Some policyData) =>
        Reply_ (pdf "application/pdf"
                  ("inline; filename=" +:+ dquote +:+ "policy-"
                   +:+ policy_policyNumber (detail_policy policyData)
                   +:+ ".pdf" +:+ dquote)
                  policyData)
    | Throw _ => failed "Failed to generate policy document."
    end).

End policyReads.

Fixpoint runRead {S : Type}
  (h : forall A, storageRead.ReadCall A -> S -> Completion A * S)
  (c : ReadHandler) (st : S) : Reply * S :=
  match c with
  | Reply_ r => (r, st)
  | AwaitRead call k =>
      let '(a, st') := h _ call st in runRead h (k a) st'
  end.

(** Whether a read handler, run against [h], asks storage for a list of
    policies. *)
Fixpoint listsPolicies {S : Type}
  (h : forall A, storageRead.ReadCall A -> S -> Completion A * S)
  (c : ReadHandler) (st : S) : bool :=
  match c with
  | Reply_ _ => false
  | AwaitRead call k =>
      let '(a, st') := h _ call st in
      match call with
      | storageRead.getAllPolicies _
      | storageRead.getPoliciesByLandlord _ _
      | storageRead.getPoliciesByTenant _ _ => true
      | _ => false
      end
      || listsPolicies h (k a) st'
  end.

(** The reply code of a JSON reply; a PDF is sent with 200. *)
Definition replyCode (r : Reply) : Z :=
  match r with
  | json code _ _ _ => code
  | pdf _ _ _ => 200
  end.

(** The policy data of the [storage.createPolicy] calls among issued
    calls. *)
Definition createCalls (l : list Issued) : list InsertPolicy :=
  flat_map (fun i =>
              match i with
              | issued call =>
                  match call with
                  | storage.createPolicy d => [d]
                  | _ => []
                  end
              end) l.

(** The keys of a request body that [insertPolicySchema] reads. *)
Definition policyBodyKeys : list string :=
  ["landlordId"; "propertyId"; "tenantId"; "status"; "coverageMonths";
   "riskScore"; "decision"; "startDate"; "endDate"; "premiumAmount"].

(** A lookup resolved to a record of the acting user. *)
Definition resolvedOwned {A : Type} (owner : A -> string) (userId : string)
  (r : Completion (option A)) : Prop :=
  exists a, r = Normal (Some a) /\ owner a = userId.

Module SampleReads.

Definition item0 : PolicyListItem :=
  mkPolicyListItem "policy-0" "POL-0" "Chedly" "Amira" "active" "accept".

Definition detail0 : PolicyDetail :=
  mkPolicyDetail Sample.policy0 (mkTenant "t1" "u1" "p1" "Chedly")
    (mkProperty "p1" "u1" "l1" 850) (mkLandlord "l1" "u1" "Amira").

(** A storage for the read calls over the sample store with its one
    policy: lookups by id, and the one row for its owner. *)
Definition handle (A : Type) (call : storageRead.ReadCall A) (st : Store)
  : Completion A * Store :=
  match call in storageRead.ReadCall T return Completion T * Store with
  | storageRead.getAllPolicies userId =>
      (Normal (if String.eqb userId "u1" then [item0] else []), st)
  | storageRead.getPolicyById id userId =>
      (Normal (if String.eqb id "policy-0" && String.eqb userId "u1"
               then Some detail0 else None), st)
  | storageRead.getLandlord id => (Normal (EntityStore.getLandlord id st), st)
  | storageRead.getTenant id => (Normal (EntityStore.getTenant id st), st)
  | storageRead.getPoliciesByLandlord userId landlordId =>
      (Normal (if String.eqb userId "u1" && String.eqb landlordId "l1"
               then [item0] else []), st)
  | storageRead.getPoliciesByTenant userId tenantId =>
      (Normal (if String.eqb userId "u1" && String.eqb tenantId "t1"
               then [item0] else []), st)
  end.

End SampleReads.

(* ===================================================================== *)
(** ** Dates between the form, the server and the pages *)
(* ===================================================================== *)

Module DateTrip.

(** [JSON.stringify] of a Date in a reply: [toJSON], which is
    [toISOString]. *)
Definition toJSON (t : Z) : option string := JsDate.toISOString (Some t).

(** The date the edit dialogs start from, [new Date(value).toISOString()
    .split("T")[0]] ([fullPolicyData] of the policies page, the default
    values of the tenant form); [None] is the RangeError on an invalid
    date. *)
Definition formDate (value : string) : option string :=
  match JsDate.toISOString (JsDate.ofString value) with
  | Some iso => Some (JsDate.beforeT iso)
  | None => None
  end.

(** [onSubmit] of the tenant form: both lease dates at midnight UTC. *)
Definition submitLeaseDate (date : string) : string :=
  date +:+ "T00:00:00.000Z".

(** What comes back into the form for a date that went out as [sent]:
    coerced by the server schema, serialised in the reply, converted by
    the page. *)
Definition thereAndBack (sent : string) : option string :=
  match Zod.coerceDate "date" (JStr sent) with
  | Normal t =>
      match toJSON t with
      | Some s => formDate s
      | None => None
      end
  | Throw _ => None
  end.

End DateTrip.

(* ===================================================================== *)
(** ** More of the client schemas and forms *)
(* ===================================================================== *)

Module ClientPolicy.

(** [premiumAmount: z.coerce.number().positive(...)] on a Number. *)
Definition premiumAmount_ok (x : float) : bool :=
  JsNumber.isNumber x && (0 <? x)%float.

End ClientPolicy.

(** [z.enum(values)], with no default: a missing value is refused. *)
Definition Zod_enum (values : list string) (v : JValue) : bool :=
  match v with
  | JStr s => existsb (String.eqb s) values
  | _ => false
  end.

Module PropertyStatus.

(** [status] of the client's [insertPropertySchema], the values the
    property form offers. *)
Definition client : list string := ["available"; "rented"; "under_maintenance"].

(** [status] of the server's [insertPropertySchema]. *)
Definition server : list string := ["available"; "rented"; "maintenance"].

End PropertyStatus.

(** The quote wizard ([pages/quote]): [step] is -1 on the landing page and
    0 to 4 on the five sections. *)
Module Quote.

Inductive Handler : Type :=
| handleStart
| handleNext
| handleBack
| handleRestart.

(** [setStep] of each handler: [Math.min(s + 1, 4)], [Math.max(s - 1, 0)],
    [0], [-1]. *)
Definition setStep (s : Z) (a : Handler) : Z :=
  match a with
  | handleStart => 0
  | handleNext => Z.min (s + 1) 4
  | handleBack => Z.max (s - 1) 0
  | handleRestart => -1
  end.

(** [useState<number>(-1)], then the handlers in the order they fire. *)
Definition stepAfter (l : list Handler) : Z := fold_left setStep l (-1).

(** [step >= 0 ? ((step + 1) / SECTION_TITLES.length) * 100 : 0] *)
Definition progressValue (step : Z) : float :=
  if 0 <=? step then ((JsNumber.ofZ (step + 1) / 5) * 100)%float
  else 0%float.

End Quote.

(** The claim form's list of evidence links. *)
Module ClaimForm.

(** [handleRemoveLink]: [evidenceLinks.filter((_, i) => i !== index)] *)
Definition handleRemoveLink (index : nat) (evidenceLinks : list string)
  : list string :=
  map snd
    (List.filter (fun p => negb (Nat.eqb (fst p) index))
       (combine (seq 0 (length evidenceLinks)) evidenceLinks)).

End ClaimForm.

(* ===================================================================== *)
(** ** Reading a list out of a reply *)
(* ===================================================================== *)

#[local] Set Warnings "-register-all".

(** A parsed JSON reply. *)
Inductive Json : Type :=
| JsUndefined
| JsNull
| JsBool (b : bool)
| JsNumber (x : float)
| JsString (s : string)
| JsArray (l : list Json)
| JsObject (o : gmap string Json).

Module Extract.

Definition truthyJson (v : Json) : bool :=
  match v with
  | JsUndefined | JsNull => false
  | JsBool b => b
  | JsNumber x => JsNumber.truthy x
  | JsString s => negb (String.eqb s "")
  | JsArray _ | JsObject _ => true
  end.

(** [v.key] on a value that is neither null nor undefined: an own
    property of an object, undefined on anything else. *)
Definition get (v : Json) (key : string) : Json :=
  match v with
  | JsObject o => default JsUndefined (o !! key)
  | _ => JsUndefined
  end.

(** [Array.isArray(v) ? v : []] *)
Definition arrayOrEmpty (v : Json) : list Json :=
  match v with
  | JsArray l => l
  | _ => []
  end.

Definition isArray (v : Json) : bool :=
  match v with
  | JsArray _ => true
  | _ => false
  end.

(** [response.success && Array.isArray(response.data)
     ? response.data : []] *)
Definition dataOfSuccess (v : Json) : list Json :=
  if truthyJson (get v "success") && isArray (get v "data")
  then arrayOrEmpty (get v "data")
  else [].

(** [policies] of the policies page and [claims] of the claims page: the
    ['success' in response] test throws a TypeError on a value that is not
    an object. *)
Definition listPage (response : Json) : Completion (list Json) :=
  if negb (truthyJson response) then Normal []
  else
    match response with
    | JsArray l => Normal l
    | JsObject o =>
        if bool_decide (is_Some (o !! "success")) then
          Normal (dataOfSuccess response)
        else Normal []
    | _ => Throw "TypeError: Cannot use 'in' operator to search for 'success'"
    end.

(** [policies] of the claim form: [typeof response === 'object'] guards
    the ['success' in response] test. *)
Definition claimForm (response : Json) : list Json :=
  if negb (truthyJson response) then []
  else
    match response with
    | JsArray l => l
    | JsObject o =>
        if bool_decide (is_Some (o !! "success"))
        then dataOfSuccess response else []
    | _ => []
    end.

(** [policies] of a landlord's policies page. *)
Definition landlordPage (response : Json) : list Json :=
  if negb (truthyJson response) then []
  else
    match response with
    | JsArray l => l
    | _ => dataOfSuccess response
    end.

(** [policies] and [claims] of the dashboard:
    [Array.isArray(r) ? r : r?.success && Array.isArray(r.data) ? r.data : []] *)
Definition dashboard (response : Json) : list Json :=
  match response with
  | JsArray l => l
  | JsUndefined | JsNull => []
  | _ => dataOfSuccess response
  end.

(** The body [{ success: true, data: rows }] of a successful list reply. *)
Definition successBody (rows : list Json) : Json :=
  JsObject (<["success" := JsBool true]> (<["data" := JsArray rows]> ∅)).

End Extract.

(* ===================================================================== *)
(** ** The policy form as the user drives it *)
(* ===================================================================== *)

(** [Object.is] on two Numbers, the comparison React applies to the
    entries of a dependency list: NaN is the same as NaN, the two zeros
    differ, any other Number is the same as itself only. *)
Definition SFsame (a b : spec_float) : bool :=
  match a, b with
  | S754_zero s, S754_zero s' => Bool.eqb s s'
  | S754_infinity s, S754_infinity s' => Bool.eqb s s'
  | S754_nan, S754_nan => true
  | S754_finite s m e, S754_finite s' m' e' =>
      Bool.eqb s s' && Pos.eqb m m' && Z.eqb e e'
  | _, _ => false
  end.

Definition Object_is (x y : float) : bool := SFsame (Prim2SF x) (Prim2SF y).

Module PolicyFormSession.

(** What the user can do in the form, one constructor for each input
    that is not disabled, and the arrival of the properties the form
    fetches.  The end date has no constructor: its input is [disabled]
    and no handler of the form writes it. *)
Inductive Input : Type :=
| selectLandlord (value : string)
| selectProperty (value : string)
| selectTenant (value : string)
| selectStatus (value : string)
| inputCoverageMonths (value : float)
| inputRiskScore (value : float)
| selectDecision (value : string)
| inputStartDate (value : string)
| inputPremiumAmount (value : float)
| propertiesFetched (properties : list Property).

(** The values of the form and the [properties] of the last render. *)
Record State := mkState {
  values : PolicyFormValues;
  fetched : list Property
}.

(** The [form.setValue] calls of each handler ([onValueChange] of the
    selects, the change of a registered input). *)
Definition setValues (i : Input) (f : PolicyFormValues) : PolicyFormValues :=
  match i with
  | selectLandlord value =>
      mkPolicyFormValues value EmptyString EmptyString (form_status f)
        (form_coverageMonths f) (form_riskScore f) (form_decision f)
        (form_startDate f) (form_endDate f) (form_premiumAmount f)
  | selectProperty value =>
      mkPolicyFormValues (form_landlordId f) value EmptyString (form_status f)
        (form_coverageMonths f) (form_riskScore f) (form_decision f)
        (form_startDate f) (form_endDate f) (form_premiumAmount f)
  | selectTenant value =>
      mkPolicyFormValues (form_landlordId f) (form_propertyId f) value
        (form_status f) (form_coverageMonths f) (form_riskScore f)
        (form_decision f) (form_startDate f) (form_endDate f)
        (form_premiumAmount f)
  | selectStatus value =>
      mkPolicyFormValues (form_landlordId f) (form_propertyId f)
        (form_tenantId f) value (form_coverageMonths f) (form_riskScore f)
        (form_decision f) (form_startDate f) (form_endDate f)
        (form_premiumAmount f)
  | inputCoverageMonths value =>
      mkPolicyFormValues (form_landlordId f) (form_propertyId f)
        (form_tenantId f) (form_status f) value (form_riskScore f)
        (form_decision f) (form_startDate f) (form_endDate f)
        (form_premiumAmount f)
  | inputRiskScore value =>
      mkPolicyFormValues (form_landlordId f) (form_propertyId f)
        (form_tenantId f) (form_status f) (form_coverageMonths f) value
        (form_decision f) (form_startDate f) (form_endDate f)
        (form_premiumAmount f)
  | selectDecision value =>
      mkPolicyFormValues (form_landlordId f) (form_propertyId f)
        (form_tenantId f) (form_status f) (form_coverageMonths f)
        (form_riskScore f) value (form_startDate f) (form_endDate f)
        (form_premiumAmount f)
  | inputStartDate value =>
      mkPolicyFormValues (form_landlordId f) (form_propertyId f)
        (form_tenantId f) (form_status f) (form_coverageMonths f)
        (form_riskScore f) (form_decision f) value (form_endDate f)
        (form_premiumAmount f)
  | inputPremiumAmount value => PolicyForm.setPremiumAmount value f
  | propertiesFetched _ => f
  end.

(** [properties] of the render that follows: the data of the query
    keyed by the landlord, an empty list until it arrives. *)
Definition fetchedAfter (i : Input) (properties : list Property)
  : list Property :=
  match i with
  | selectLandlord _ => []
  | propertiesFetched data => data
  | _ => properties
  end.

(** Whether an entry of the dependency list
    [[form.watch("startDate"), form.watch("coverageMonths")]] changed. *)
Definition endDateDepsChanged (before after : PolicyFormValues) : bool :=
  negb (String.eqb (form_startDate before) (form_startDate after)
        && Object_is (form_coverageMonths before) (form_coverageMonths after)).

(** Whether an entry of [[form.watch("propertyId"),
    form.watch("coverageMonths"), form.watch("riskScore"), properties]]
    changed.  While the query has no data, [properties] is a new empty
    array at every render; the runs this adds find no property and write
    nothing, and are left out. *)
Definition premiumDepsChanged (i : Input) (before after : PolicyFormValues)
  : bool :=
  negb (String.eqb (form_propertyId before) (form_propertyId after)
        && Object_is (form_coverageMonths before) (form_coverageMonths after)
        && Object_is (form_riskScore before) (form_riskScore after))
  || match i with
     | selectLandlord _ | propertiesFetched _ => true
     | _ => false
     end.

(** The effects of one commit, in the order the component declares
    them; a RangeError thrown by the first ends the session. *)
Definition effects (tza : Z) (runEndDate runPremium : bool) (s : State)
  : Completion State :=
  f ← (if runEndDate then EndDate.endDateEffect tza (values s)
       else Normal (values s));
  Normal (mkState (if runPremium then PolicyForm.premiumEffect (fetched s) f
                   else f)
                  (fetched s)).

(** Mounting runs both effects on the default values. *)
Definition mount (tza : Z) (defaultValues : PolicyFormValues)
  : Completion State :=
  effects tza true true (mkState defaultValues []).

(** One input: the handler sets its values, the form renders again, and
    the effects whose dependencies changed run. *)
Definition step (tza : Z) (s : State) (i : Input) : Completion State :=
  let f := setValues i (values s) in
  effects tza (endDateDepsChanged (values s) f)
    (premiumDepsChanged i (values s) f)
    (mkState f (fetchedAfter i (fetched s))).

Fixpoint steps (tza : Z) (s : State) (inputs : list Input)
  : Completion State :=
  match inputs with
  | [] => Normal s
  | i :: rest => s' ← step tza s i; steps tza s' rest
  end.

(** The form from mounting through a sequence of inputs. *)
Definition session (tza : Z) (defaultValues : PolicyFormValues)
  (inputs : list Input) : Completion State :=
  s ← mount tza defaultValues; steps tza s inputs.

End PolicyFormSession.


Module SampleForms.

(** The default values of a new policy opened on 2024-01-31. *)
Definition defaults : PolicyFormValues :=
  mkPolicyFormValues EmptyString EmptyString EmptyString "active" 12 0
    "accept" "2024-01-31" EmptyString 0.

(** Landlord and property chosen, one month of coverage at score 40. *)
Definition inputs : list PolicyFormSession.Input :=
  [PolicyFormSession.selectLandlord "l1";
   PolicyFormSession.propertiesFetched (properties Sample.store0);
   PolicyFormSession.selectProperty "p1";
   PolicyFormSession.inputRiskScore 40;
   PolicyFormSession.inputCoverageMonths 1].

(** A rent of 1000 over twelve months. *)
Definition thousand : list Property := [mkProperty "p2" "u2" "l2" 1000].

Definition form1000 (riskScore : float) : PolicyFormValues :=
  mkPolicyFormValues "l2" "p2" "t2" "active" 12 riskScore "accept"
    "2024-01-01" EmptyString 0.

(** A body whose premium has nothing to do with the rent. *)
Definition body_premium : gmap string JValue :=
  <["premiumAmount" := JNum 38.25]> Sample.body0.


End SampleForms.

(* ===================================================================== *)
(** * Properties *)
(* ===================================================================== *)

Ltac zdiv := Z.div_mod_to_equations; lia.

Ltac ztests :=
  repeat match goal with
         | |- context [?a <? ?b] => destruct (Z.ltb_spec a b)
         | |- context [?a <=? ?b] => destruct (Z.leb_spec a b)
         | |- context [?a =? ?b] => destruct (Z.eqb_spec a b)
         end.

(* --------------------------------------------------------------------- *)
(** ** Numbers *)
(* --------------------------------------------------------------------- *)

Example Math_round_examples :
  JsNumber.Math_round 38.25%float = 38%float
  /\ JsNumber.Math_round 2.5%float = 3%float
  /\ Prim2SF (JsNumber.Math_round (-2.5)%float) = Prim2SF (-2)%float
  /\ Prim2SF (JsNumber.Math_round (-0.5)%float) = S754_zero true
  /\ JsNumber.Math_round 0.49999999999999994%float = 0%float.
Proof. repeat split; vm_compute; reflexivity. Qed.

(** On the specification of binary64 values, [a <= b] excludes [b < a]. *)
Lemma SFleb_SFltb_false (a b : spec_float) :
  SFleb a b = true -> SFltb b a = false.
Proof.
  unfold SFleb, SFltb.
  destruct a as [sa|sa| |sa ma ea], b as [sb|sb| |sb mb eb]; simpl;
    try discriminate; try reflexivity;
    try (destruct sa; try destruct sb; simpl; intros; congruence).
  change (PosDef.Pos.compare_cont Eq ma mb) with (Pos.compare ma mb).
  change (PosDef.Pos.compare_cont Eq mb ma) with (Pos.compare mb ma).
  rewrite (Z.compare_antisym ea eb), (Pos.compare_antisym ma mb).
  destruct sa, sb; simpl; try discriminate; try reflexivity;
    destruct (ea ?= eb); simpl; try discriminate; try reflexivity;
    destruct (ma ?= mb)%positive; simpl; try discriminate; reflexivity.
Qed.

Lemma leb_ltb_false (a b : float) :
  (a <=? b)%float = true -> (b <? a)%float = false.
Proof.
  rewrite FloatAxioms.leb_spec, FloatAxioms.ltb_spec. apply SFleb_SFltb_false.
Qed.

(** A value that 75 does not exceed is not below 50: the exponents decide. *)
Lemma SFleb_75_not_lt_50 (s : spec_float) :
  SFleb (S754_finite false 5277655813324800 (-46)) s = true ->
  SFltb s (S754_finite false 7036874417766400 (-47)) = false.
Proof.
  destruct s as [sb|sb| |sb mb eb]; cbv [SFleb SFltb SFcompare];
    try discriminate; try reflexivity.
  - destruct sb; try discriminate; reflexivity.
  - destruct sb; try discriminate; try reflexivity.
    destruct (Z.compare_spec (-46) eb) as [E|E|E]; try discriminate; intros _.
    + subst eb. reflexivity.
    + destruct (Z.compare_spec eb (-47)) as [E'|E'|E']; try lia; reflexivity.
Qed.

Lemma leb_75_ltb_50 (s : float) :
  (75 <=? s)%float = true -> (s <? 50)%float = false.
Proof.
  rewrite FloatAxioms.leb_spec, FloatAxioms.ltb_spec.
  replace (Prim2SF 75) with (S754_finite false 5277655813324800 (-46))
    by (vm_compute; reflexivity).
  replace (Prim2SF 50) with (S754_finite false 7036874417766400 (-47))
    by (vm_compute; reflexivity).
  apply SFleb_75_not_lt_50.
Qed.

(** [roundHalfUp] is the integer within a half of the value, the upper one
    on a tie: [n - 1/2 <= v / 2^(-e) < n + 1/2]. *)
Lemma roundHalfUp_nearest (s : bool) (m : positive) (e : Z) :
  e < 0 ->
  (2 * JsNumber.roundHalfUp s m e - 1) * 2 ^ (- e)
  <= 2 * numerator s m
  < (2 * JsNumber.roundHalfUp s m e + 1) * 2 ^ (- e).
Proof.
  intros He. unfold JsNumber.roundHalfUp. fold (numerator s m).
  assert (Hd : 0 < 2 ^ (- e)) by (apply Z.pow_pos_nonneg; lia).
  set (d := 2 ^ (- e)) in *. set (v := numerator s m).
  pose proof (Z.div_mod (2 * v + d) (2 * d) ltac:(lia)) as Hdm.
  pose proof (Z.mod_pos_bound (2 * v + d) (2 * d) ltac:(lia)) as Hb.
  nia.
Qed.

(* --------------------------------------------------------------------- *)
(** ** Integers as Numbers *)
(* --------------------------------------------------------------------- *)

Lemma iter_xO_value (p m : positive) :
  Z.pos (Pos.iter xO m p) = Z.pos m * 2 ^ Z.pos p.
Proof.
  revert m. induction p as [|p IH] using Pos.peano_ind; intros m.
  - cbn [Pos.iter]. rewrite Pos2Z.inj_xO. change (2 ^ 1) with 2. lia.
  - rewrite Pos.iter_succ, Pos2Z.inj_xO, IH, Pos2Z.inj_succ, Z.pow_succ_r by lia.
    lia.
Qed.

Lemma shl_value (m : positive) (k : Z) :
  0 <= k -> Z.pos (shl m k) = Z.pos m * 2 ^ k.
Proof.
  intros Hk. destruct k as [|p|p]; [simpl; lia| |lia].
  apply iter_xO_value.
Qed.

Lemma digits2_pos_iter_xO (p m : positive) :
  Z.pos (digits2_pos (Pos.iter xO m p)) = Z.pos (digits2_pos m) + Z.pos p.
Proof.
  revert m. induction p as [|p IH] using Pos.peano_ind; intros m.
  - simpl. lia.
  - rewrite Pos.iter_succ. cbn [digits2_pos]. rewrite Pos2Z.inj_succ, IH. lia.
Qed.

Lemma digits2_pos_shl (m : positive) (k : Z) :
  0 <= k -> Z.pos (digits2_pos (shl m k)) = Z.pos (digits2_pos m) + k.
Proof.
  intros Hk. destruct k as [|p|p]; [simpl; lia| |lia].
  apply digits2_pos_iter_xO.
Qed.

Lemma shl_shl (m : positive) (a b : Z) :
  0 <= a -> 0 <= b -> shl (shl m a) b = shl m (a + b).
Proof.
  intros Ha Hb. apply Pos2Z.inj.
  rewrite !shl_value, Z.pow_add_r by lia. lia.
Qed.

Lemma digits2_pos_range (m : positive) :
  2 ^ (Z.pos (digits2_pos m) - 1) <= Z.pos m < 2 ^ Z.pos (digits2_pos m).
Proof.
  induction m as [m IH|m IH|]; cbn [digits2_pos].
  - rewrite Pos2Z.inj_succ, Z.pow_succ_r by lia.
    replace (Z.succ (Z.pos (digits2_pos m)) - 1)
      with (Z.succ (Z.pos (digits2_pos m) - 1)) by lia.
    rewrite Z.pow_succ_r by lia. lia.
  - rewrite Pos2Z.inj_succ, Z.pow_succ_r by lia.
    replace (Z.succ (Z.pos (digits2_pos m)) - 1)
      with (Z.succ (Z.pos (digits2_pos m) - 1)) by lia.
    rewrite Z.pow_succ_r by lia. lia.
  - simpl. lia.
Qed.

Lemma digits2_pos_le (m : positive) (n : Z) :
  0 <= n -> Z.pos m < 2 ^ n -> Z.pos (digits2_pos m) <= n.
Proof.
  intros Hn Hm. destruct (digits2_pos_range m) as [Hlo _].
  destruct (Z.le_gt_cases (Z.pos (digits2_pos m)) n) as [H|H]; [exact H|].
  assert (2 ^ n <= 2 ^ (Z.pos (digits2_pos m) - 1))
    by (apply Z.pow_le_mono_r; lia).
  lia.
Qed.

(** Shifting right the bits that a shift to the left brought in loses
    nothing. *)
Lemma iter_shr_1_exact (p m : positive) :
  SpecFloat.iter_pos shr_1 p (Build_shr_record (Z.pos (Pos.iter xO m p)) false false)
  = Build_shr_record (Z.pos m) false false.
Proof.
  revert m. induction p as [p IH|p IH|]; intros m; cbn [SpecFloat.iter_pos Pos.iter].
  - cbn [shr_1 orb]. rewrite IH, IH. reflexivity.
  - rewrite IH, IH. reflexivity.
  - reflexivity.
Qed.

Lemma binary_round_aux_canonical (m : positive) (e : Z) :
  Z.pos (digits2_pos m) = 53 -> -1074 <= e <= 971 ->
  binary_round_aux prec emax false (Z.pos m) e loc_Exact = S754_finite false m e.
Proof.
  intros Hd He. unfold binary_round_aux, shr_fexp, Zdigits2.
  rewrite Hd.
  assert (Hf : fexp prec emax (53 + e) - e = 0).
  { unfold fexp, SpecFloat.emin, prec, emax. lia. }
  rewrite Hf. cbn [shr shr_record_of_loc shr_m loc_of_shr_record
                   round_nearest_even Zdigits2].
  rewrite Hd, Hf. cbn [shr shr_m].
  destruct (Z.leb_spec e (emax - prec)) as [H|H]; [reflexivity|].
  unfold emax, prec in H. lia.
Qed.

(** Rounding [c * 2^j * 2^E] is exact when [c] has at most 53 bits. *)
Lemma binary_round_exact (c : positive) (j E : Z) :
  0 <= j -> Z.pos (digits2_pos c) <= 53 ->
  -1074 <= Z.pos (digits2_pos c) + j + E - 53 <= 971 ->
  binary_round prec emax false (shl c j) E
  = S754_finite false (shl c (53 - Z.pos (digits2_pos c)))
      (Z.pos (digits2_pos c) + j + E - 53).
Proof.
  intros Hj Hd He. set (d := Z.pos (digits2_pos c)) in *.
  unfold binary_round. rewrite (digits2_pos_shl c j Hj). fold d.
  assert (Hf : fexp prec emax (d + j + E) = d + j + E - 53).
  { unfold fexp, SpecFloat.emin, prec, emax. lia. }
  rewrite Hf. unfold shl_align.
  assert (Hc53 : Z.pos (digits2_pos (shl c (53 - d))) = 53).
  { rewrite digits2_pos_shl by lia. fold d. lia. }
  destruct (d + j + E - 53 - E) as [|s|s] eqn:Hs.
  - replace j with (53 - d) by lia.
    replace (d + (53 - d) + E - 53) with E by lia.
    apply binary_round_aux_canonical; [exact Hc53|lia].
  - assert (Hshl : shl c j = Pos.iter xO (shl c (53 - d)) s).
    { change (Pos.iter xO (shl c (53 - d)) s) with (shl (shl c (53 - d)) (Z.pos s)).
      rewrite shl_shl by lia. f_equal. lia. }
    unfold binary_round_aux, shr_fexp, Zdigits2.
    rewrite (digits2_pos_shl c j Hj). fold d. rewrite Hf.
    replace (d + j + E - 53 - E) with (Z.pos s) by lia.
    cbn [shr shr_record_of_loc]. rewrite Hshl, iter_shr_1_exact.
    cbn [shr_m loc_of_shr_record round_nearest_even Zdigits2].
    rewrite Hc53.
    assert (Hf2 : fexp prec emax (53 + (E + Z.pos s)) - (E + Z.pos s) = 0).
    { unfold fexp, SpecFloat.emin, prec, emax. lia. }
    rewrite Hf2. cbn [shr shr_m].
    replace (E + Z.pos s) with (d + j + E - 53) by lia.
    destruct (Z.leb_spec (d + j + E - 53) (emax - prec)) as [H|H];
      [reflexivity|]. unfold emax, prec in H. lia.
  - change (Pos.iter xO (shl c j) s) with (shl (shl c j) (Z.pos s)).
    rewrite shl_shl by lia.
    replace (j + Z.pos s) with (53 - d) by lia.
    apply binary_round_aux_canonical; [exact Hc53|lia].
Qed.

Lemma shl_align_fst (mx : positive) (ex ex' : Z) :
  ex' <= ex -> fst (shl_align mx ex ex') = shl mx (ex - ex').
Proof.
  intros H. unfold shl_align.
  destruct (ex' - ex) as [|d|d] eqn:E; [|lia|].
  - replace (ex - ex') with 0 by lia. reflexivity.
  - replace (ex - ex') with (Z.pos d) by lia. reflexivity.
Qed.

Lemma shl_add (a b : positive) (k : Z) :
  0 <= k -> (shl a k + shl b k)%positive = shl (a + b) k.
Proof.
  intros Hk. apply Pos2Z.inj. rewrite Pos2Z.inj_add, !shl_value by lia.
  rewrite Pos2Z.inj_add. lia.
Qed.

(** The Number of a positive integer below [2^53] is that integer. *)
Lemma Prim2SF_ofZ_pos (p : positive) :
  Z.pos p < 2 ^ 53 ->
  Prim2SF (JsNumber.ofZ (Z.pos p))
  = S754_finite false (shl p (53 - Z.pos (digits2_pos p)))
      (Z.pos (digits2_pos p) - 53).
Proof.
  intros Hp. unfold JsNumber.ofZ.
  rewrite FloatAxioms.of_uint63_spec, Uint63.of_Z_spec.
  rewrite Z.mod_small
    by (split; [lia|]; apply Z.lt_trans with (2 ^ 53); [exact Hp|reflexivity]).
  cbn [binary_normalize].
  pose proof (digits2_pos_le p 53 ltac:(lia) Hp) as Hd.
  change p with (shl p 0) at 1.
  rewrite binary_round_exact by lia.
  f_equal; lia.
Qed.

Lemma ofZ_add_pos (a n : positive) :
  Z.pos a + Z.pos n < 2 ^ 53 ->
  (JsNumber.ofZ (Z.pos a) + JsNumber.ofZ (Z.pos n))%float
  = JsNumber.ofZ (Z.pos a + Z.pos n).
Proof.
  intros H. apply FloatAxioms.Prim2SF_inj.
  rewrite FloatAxioms.add_spec.
  rewrite (Prim2SF_ofZ_pos a), (Prim2SF_ofZ_pos n) by lia.
  change (Z.pos a + Z.pos n) with (Z.pos (a + n)).
  rewrite (Prim2SF_ofZ_pos (a + n)) by (rewrite Pos2Z.inj_add; exact H).
  set (da := Z.pos (digits2_pos a)). set (dn := Z.pos (digits2_pos n)).
  set (d := Z.pos (digits2_pos (a + n))).
  assert (Hda : 1 <= da <= 53).
  { split; [unfold da; lia|]. apply digits2_pos_le; lia. }
  assert (Hdn : 1 <= dn <= 53).
  { split; [unfold dn; lia|]. apply digits2_pos_le; lia. }
  assert (Hd : 1 <= d <= 53).
  { split; [unfold d; lia|]. apply digits2_pos_le; [lia|].
    rewrite Pos2Z.inj_add. exact H. }
  unfold FloatAxioms.SF64add, SFadd. cbv zeta.
  set (ez := Z.min (da - 53) (dn - 53)).
  rewrite !shl_align_fst by (unfold ez; lia).
  rewrite !shl_shl by (unfold ez; lia).
  replace (53 - da + (da - 53 - ez)) with (- ez) by lia.
  replace (53 - dn + (dn - 53 - ez)) with (- ez) by lia.
  cbn [cond_Zopp]. 
  change (Z.pos (shl a (- ez)) + Z.pos (shl n (- ez)))
    with (Z.pos (shl a (- ez) + shl n (- ez))).
  rewrite shl_add by (unfold ez; lia).
  cbn [binary_normalize].
  rewrite binary_round_exact; fold d; try (unfold ez; lia).
  f_equal; lia.
Qed.

Lemma toInteger_ofZ (k : Z) :
  0 <= k < 2 ^ 53 -> JsNumber.toInteger (JsNumber.ofZ k) = Some k.
Proof.
  intros [H0 Hk]. destruct k as [|p|p]; [reflexivity| |lia].
  unfold JsNumber.toInteger. rewrite (Prim2SF_ofZ_pos p Hk).
  pose proof (digits2_pos_le p 53 ltac:(lia) Hk) as Hd.
  set (d := Z.pos (digits2_pos p)) in *.
  rewrite shl_value by lia.
  destruct (Z.leb_spec 0 (d - 53)) as [H|H].
  - replace (53 - d) with 0 by lia. replace (d - 53) with 0 by lia.
    f_equal. change (2 ^ 0) with 1. lia.
  - replace (- (d - 53)) with (53 - d) by lia.
    rewrite Z.div_mul by (apply Z.pow_nonzero; lia). reflexivity.
Qed.

Lemma truthy_ofZ (k : Z) :
  0 < k < 2 ^ 53 -> JsNumber.truthy (JsNumber.ofZ k) = true.
Proof.
  intros [H0 Hk]. destruct k as [|p|p]; [lia| |lia].
  unfold JsNumber.truthy, PrimFloat.is_nan, PrimFloat.is_zero.
  rewrite !FloatAxioms.eqb_spec, (Prim2SF_ofZ_pos p Hk).
  replace (Prim2SF 0) with (S754_zero false) by reflexivity.
  unfold SFeqb, SFcompare. rewrite Z.compare_refl.
  change (PosDef.Pos.compare_cont Eq ?m ?m') with (Pos.compare m m').
  rewrite Pos.compare_refl. reflexivity.
Qed.

(** The Number [getMonth() + coverageMonths] is the exact sum. *)
Lemma month_plus_coverage a n :
  0 <= a -> 1 <= n -> a + n < 2 ^ 53 ->
  JsNumber.truthy (JsNumber.ofZ n) = true
  /\ JsNumber.toInteger (JsNumber.ofZ a + JsNumber.ofZ n)%float = Some (a + n).
Proof.
  intros Ha Hn Hs. split; [apply truthy_ofZ; lia|].
  destruct n as [|n|n]; try lia. destruct a as [|a|a]; try lia.
  - replace (JsNumber.ofZ 0 + JsNumber.ofZ (Z.pos n))%float
      with (JsNumber.ofZ (Z.pos n)).
    + apply toInteger_ofZ. lia.
    + apply FloatAxioms.Prim2SF_inj. rewrite FloatAxioms.add_spec.
      rewrite (Prim2SF_ofZ_pos n) by lia. reflexivity.
  - rewrite ofZ_add_pos by exact Hs. apply toInteger_ofZ. lia.
Qed.

(* --------------------------------------------------------------------- *)
(** ** What [createPolicy] hands to the storage *)
(* --------------------------------------------------------------------- *)

(** Reading a body after another of its keys was set. *)
Lemma field_insert_ne o k v key :
  k <> key -> field (<[k := v]> o) key = field o key.
Proof. intros H. unfold field. rewrite lookup_insert_ne by exact H. reflexivity. Qed.

Lemma insertPolicySchema_fields o d :
  Server.insertPolicySchema o = Normal d ->
  Zod.string_ "userId" (field o "userId") = Normal (ip_userId d)
  /\ Zod.string_ "landlordId" (field o "landlordId") = Normal (ip_landlordId d)
  /\ Zod.string_ "propertyId" (field o "propertyId") = Normal (ip_propertyId d)
  /\ Zod.string_ "tenantId" (field o "tenantId") = Normal (ip_tenantId d)
  /\ Zod.enumDefault Server.policyStatuses "active" "status" (field o "status")
     = Normal (ip_status d)
  /\ Zod.integerColumn "coverageMonths" (field o "coverageMonths")
     = Normal (ip_coverageMonths d)
  /\ Zod.number "riskScore" (field o "riskScore") = Normal (ip_riskScore d)
  /\ Zod.string_ "decision" (field o "decision") = Normal (ip_decision d)
  /\ Zod.coerceDate "startDate" (field o "startDate") = Normal (ip_startDate d)
  /\ Zod.coerceDate "endDate" (field o "endDate") = Normal (ip_endDate d)
  /\ Zod.number "premiumAmount" (field o "premiumAmount")
     = Normal (ip_premiumAmount d).
Proof.
  unfold Server.insertPolicySchema, mbind, Completion_bind.
  repeat match goal with
         | |- context [match ?c with Normal _ => _ | Throw _ => _ end] =>
             destruct c; [|discriminate]
         end.
  intros H. inversion H; subst; clear H. simpl. repeat split; reflexivity.
Qed.

Section HandedToStorage.
Context {S : Type}.
Variable h : forall A, storage.StorageCall A -> S -> Completion A * S.

(** Whatever the storage answers, [createPolicy] calls
    [storage.createPolicy] with nothing but the parsed body. *)
Lemma createPolicy_hands_over_parsed_body
  (userId : string) (body : gmap string JValue) (st : S) (d : InsertPolicy) :
  In d (createCalls (trace h (policyController.createPolicy userId body) st)) ->
  Server.insertPolicySchema (<["userId" := JStr userId]> body) = Normal d.
Proof.
  unfold policyController.createPolicy.
  destruct (Server.insertPolicySchema (<["userId" := JStr userId]> body))
    as [d0|m] eqn:Hd; [|intros []].
  simpl.
  destruct (h _ (storage.getLandlord (ip_landlordId d0)) st) as [r1 s1].
  destruct (h _ (storage.getProperty (ip_propertyId d0)) s1) as [r2 s2].
  destruct (h _ (storage.getTenant (ip_tenantId d0)) s2) as [r3 s3].
  simpl.
  destruct r1 as [[l|]|m1], r2 as [[p|]|m2], r3 as [[t|]|m3]; simpl;
    repeat match goal with
           | |- context [String.eqb ?a ?b] =>
               destruct (String.eqb_spec a b); simpl
           end;
    try (intros []).
  destruct (h _ (storage.createPolicy d0) s3) as [[np|m] s4]; simpl;
    intros [<-|[]]; reflexivity.
Qed.

(** The status, the dates and the premium of the record handed over are
    those of the request body, each as its schema reads it. *)
Lemma createPolicy_hands_over_body_fields
  (userId : string) (body : gmap string JValue) (st : S) (d : InsertPolicy) :
  In d (createCalls (trace h (policyController.createPolicy userId body) st)) ->
  Zod.enumDefault Server.policyStatuses "active" "status" (field body "status")
  = Normal (ip_status d)
  /\ Zod.coerceDate "startDate" (field body "startDate")
     = Normal (ip_startDate d)
  /\ Zod.coerceDate "endDate" (field body "endDate") = Normal (ip_endDate d)
  /\ Zod.number "premiumAmount" (field body "premiumAmount")
     = Normal (ip_premiumAmount d).
Proof.
  intros Hin. apply createPolicy_hands_over_parsed_body in Hin.
  destruct (insertPolicySchema_fields _ _ Hin)
    as [_ [_ [_ [_ [Hst [_ [_ [_ [Hsd [Hed Hp]]]]]]]]]].
  unfold field in *.
  rewrite lookup_insert_ne in Hst, Hsd, Hed, Hp by discriminate.
  repeat split; assumption.
Qed.

(** When the three lookups resolve to records of the caller, the parsed
    body is handed to [storage.createPolicy], once, and the policy this
    resolves to is the answer. *)
Lemma createPolicy_owned_references_reach_storage
  (userId : string) (body : gmap string JValue) (d : InsertPolicy)
  (st st1 st2 st3 : S) (l : Landlord) (p : Property) (t : Tenant) :
  Server.insertPolicySchema (<["userId" := JStr userId]> body) = Normal d ->
  h _ (storage.getLandlord (ip_landlordId d)) st = (Normal (Some l), st1) ->
  landlord_userId l = userId ->
  h _ (storage.getProperty (ip_propertyId d)) st1 = (Normal (Some p), st2) ->
  property_userId p = userId ->
  h _ (storage.getTenant (ip_tenantId d)) st2 = (Normal (Some t), st3) ->
  tenant_userId t = userId ->
  createCalls (trace h (policyController.createPolicy userId body) st) = [d]
  /\ forall (newPolicy : Policy) (st4 : S),
       h _ (storage.createPolicy d) st3 = (Normal newPolicy, st4) ->
       run h (policyController.createPolicy userId body) st
       = (mkResponse 201 true None (Some newPolicy), st4).
Proof.
  intros Hd E1 Hl E2 Hp E3 Ht.
  unfold policyController.createPolicy. rewrite Hd.
  cbn [trace run]. rewrite E1, E2, E3, Hl, Hp, Ht.
  rewrite String.eqb_refl. cbn [negb trace run createCalls].
  destruct (h _ (storage.createPolicy d) st3) as [r st4] eqn:E4.
  split; [destruct r; reflexivity|].
  intros newPolicy st4' H. inversion H; subst. reflexivity.
Qed.

End HandedToStorage.

(* --------------------------------------------------------------------- *)
(** ** The derived premium *)
(* --------------------------------------------------------------------- *)

(** The effect writes the rounded premium of the selected property, and
    nothing when no property is selected or the coverage is falsy. *)
Lemma premiumEffect_writes_premiumAmount properties f property :
  form_propertyId f <> EmptyString ->
  JsNumber.truthy (form_coverageMonths f) = true ->
  List.find (fun p => String.eqb (property_id p) (form_propertyId f)) properties
  = Some property ->
  form_premiumAmount (PolicyForm.premiumEffect properties f)
  = PolicyForm.premiumAmount (property_rentAmount property)
      (form_coverageMonths f) (form_riskScore f).
Proof.
  intros Hid Hcov Hfind. unfold PolicyForm.premiumEffect.
  apply String.eqb_neq in Hid. rewrite Hid, Hcov, Hfind. reflexivity.
Qed.

(** A valid Number [m * 2^e] that is a whole number [q] with [e < 0]. *)
Lemma whole_Number_mantissa (m : positive) (e : Z) (q : positive) :
  valid_binary (S754_finite false m e) = true ->
  e < 0 -> Z.pos m = Z.pos q * 2 ^ (- e) ->
  Z.pos q < 2 ^ 53
  /\ m = shl q (53 - Z.pos (digits2_pos q))
  /\ e = Z.pos (digits2_pos q) - 53.
Proof.
  intros Hv He Hm.
  unfold valid_binary, bounded, canonical_mantissa, fexp, SpecFloat.emin,
    prec, emax in Hv.
  apply andb_true_iff in Hv. destruct Hv as [Hc _]. apply Z.eqb_eq in Hc.
  assert (Hshl : m = shl q (- e))
    by (apply Pos2Z.inj; rewrite shl_value by lia; exact Hm).
  pose proof (digits2_pos_shl q (- e) ltac:(lia)) as Hd.
  rewrite <- Hshl in Hd.
  set (dm := Z.pos (digits2_pos m)) in *.
  set (dq := Z.pos (digits2_pos q)) in *.
  assert (Hdq : 1 <= dq) by (unfold dq; lia).
  assert (Hcanon : e = dq - 53) by lia.
  split; [|split; [|exact Hcanon]].
  - destruct (digits2_pos_range q) as [_ Hhi]. fold dq in Hhi.
    apply Z.lt_le_trans with (2 ^ dq); [exact Hhi|].
    apply Z.pow_le_mono_r; lia.
  - rewrite Hshl. f_equal. lia.
Qed.

(** [Math.round] leaves a whole number as it is. *)
Lemma Math_round_integer (x : float) :
  JsNumber.isInteger x = true -> JsNumber.Math_round x = x.
Proof.
  unfold JsNumber.isInteger, JsNumber.Math_round.
  pose proof (FloatAxioms.Prim2SF_valid x) as Hv.
  destruct (Prim2SF x) as [s|s| |s m e] eqn:E; try reflexivity.
  destruct (Z.leb_spec 0 e) as [He|He]; [reflexivity|].
  cbn [orb]. intros Hmod. apply Z.eqb_eq in Hmod.
  assert (HD : 0 < 2 ^ (- e)) by (apply Z.pow_pos_nonneg; lia).
  assert (Hq : exists q : positive, Z.pos m = Z.pos q * 2 ^ (- e)).
  { pose proof (Z.div_mod (Z.pos m) (2 ^ (- e)) ltac:(lia)) as Hdm.
    rewrite Hmod in Hdm.
    assert (0 < Z.pos m / 2 ^ (- e)) by nia.
    exists (Z.to_pos (Z.pos m / 2 ^ (- e))). rewrite Z2Pos.id by lia. lia. }
  destruct Hq as [q Hm].
  destruct (whole_Number_mantissa m e q Hv He Hm) as [Hq53 [Hshl Hexp]].
  assert (Hround : JsNumber.roundHalfUp s m e
                   = if s then Z.neg q else Z.pos q).
  { unfold JsNumber.roundHalfUp. set (D := 2 ^ (- e)) in *.
    destruct s.
    - replace (2 * Z.neg m + D) with (D + Z.neg q * (2 * D))
        by (rewrite <- !Pos2Z.opp_pos, Hm; lia).
      rewrite Z.div_add by lia. rewrite Z.div_small by lia. lia.
    - replace (2 * Z.pos m + D) with (D + Z.pos q * (2 * D))
        by (rewrite Hm; lia).
      rewrite Z.div_add by lia. rewrite Z.div_small by lia. lia. }
  rewrite Hround. apply FloatAxioms.Prim2SF_inj. rewrite E.
  unfold JsNumber.integral.
  destruct s; cbn [Z.eqb].
  - unfold JsNumber.ofZ. rewrite FloatAxioms.opp_spec.
    change (PrimFloat.of_uint63 (Uint63.of_Z (Z.pos q)))
      with (JsNumber.ofZ (Z.pos q)).
    rewrite (Prim2SF_ofZ_pos q Hq53). cbn [SFopp negb]. congruence.
  - rewrite (Prim2SF_ofZ_pos q Hq53). congruence.
Qed.

(** C1, as the specification states it, fails: for the property of rent
    850, one month of coverage and a risk score of 40 the product is
    38.25, and the premium the form derives is 38. *)
Lemma derived_premium_is_not_the_product :
  form_premiumAmount
    (PolicyForm.premiumEffect (properties Sample.store0) Sample.form0)
  = 38%float
  /\ Prim2SF (850 * 0.03 * 1 * PolicyForm.riskMultiplier 40)%float
     = Prim2SF 38.25%float
  /\ form_premiumAmount
       (PolicyForm.premiumEffect (properties Sample.store0) Sample.form0)
     <> (850 * 0.03 * 1 * PolicyForm.riskMultiplier 40)%float.
Proof.
  split; [vm_compute; reflexivity|]. split; [vm_compute; reflexivity|].
  intros H. apply (f_equal Prim2SF) in H. vm_compute in H. discriminate.
Qed.

(** C1, amended. With a property selected among the fetched ones and a
    truthy coverage, the premium the form derives, the value its effect
    writes to [premiumAmount], is [Math.round] of rent x 0.03 x months x
    riskMultiplier(score), and that product itself whenever the product is
    a whole number; the multiplier is 1.5 below 50, 1.0 from 50 to below
    75, and 0.8 from 75 on; at exactly 50 it is 1.0 and at exactly 75 it is
    0.8. *)
Theorem premium_formula_and_risk_brackets
  (properties : list Property) (f : PolicyFormValues) (property : Property) :
  form_propertyId f <> EmptyString ->
  JsNumber.truthy (form_coverageMonths f) = true ->
  List.find (fun p => String.eqb (property_id p) (form_propertyId f)) properties
  = Some property ->
  form_premiumAmount (PolicyForm.premiumEffect properties f)
  = JsNumber.Math_round
      (property_rentAmount property * 0.03 * form_coverageMonths f
       * PolicyForm.riskMultiplier (form_riskScore f))%float
  /\ (JsNumber.isInteger
        (property_rentAmount property * 0.03 * form_coverageMonths f
         * PolicyForm.riskMultiplier (form_riskScore f))%float = true ->
      form_premiumAmount (PolicyForm.premiumEffect properties f)
      = (property_rentAmount property * 0.03 * form_coverageMonths f
         * PolicyForm.riskMultiplier (form_riskScore f))%float)
  /\ ((form_riskScore f <? 50)%float = true ->
      PolicyForm.riskMultiplier (form_riskScore f) = 1.5%float)
  /\ ((50 <=? form_riskScore f)%float = true ->
      (form_riskScore f <? 75)%float = true ->
      PolicyForm.riskMultiplier (form_riskScore f) = 1.0%float)
  /\ ((75 <=? form_riskScore f)%float = true ->
      PolicyForm.riskMultiplier (form_riskScore f) = 0.8%float)
  /\ PolicyForm.riskMultiplier 49.999 = 1.5%float
  /\ PolicyForm.riskMultiplier 50 = 1.0%float
  /\ PolicyForm.riskMultiplier 74.999 = 1.0%float
  /\ PolicyForm.riskMultiplier 75 = 0.8%float.
Proof.
  intros Hid Hcov Hfind.
  rewrite (premiumEffect_writes_premiumAmount _ _ _ Hid Hcov Hfind).
  unfold PolicyForm.premiumAmount, PolicyForm.premium.
  split; [reflexivity|]. split; [apply Math_round_integer|].
  unfold PolicyForm.riskMultiplier.
  split; [intros ->; reflexivity|].
  split; [intros H1 H2; rewrite (leb_ltb_false _ _ H1), H2; reflexivity|].
  split; [|repeat split; vm_compute; reflexivity].
  intros H. rewrite (leb_ltb_false _ _ H), (leb_75_ltb_50 _ H). reflexivity.
Qed.

(** The rent of 1000 over 12 months: 540 at score 40, where the product
    is a whole number, 360 at score 60 and 288 at score 80. *)
Lemma premium_formula_and_risk_brackets_witness :
  form_premiumAmount
    (PolicyForm.premiumEffect SampleForms.thousand (SampleForms.form1000 40))
  = 540%float
  /\ form_premiumAmount
       (PolicyForm.premiumEffect SampleForms.thousand (SampleForms.form1000 60))
     = 360%float
  /\ form_premiumAmount
       (PolicyForm.premiumEffect SampleForms.thousand (SampleForms.form1000 80))
     = 288%float.
Proof.
  destruct (premium_formula_and_risk_brackets SampleForms.thousand
              (SampleForms.form1000 40) (mkProperty "p2" "u2" "l2" 1000)
              ltac:(discriminate) ltac:(vm_compute; reflexivity) eq_refl)
    as [_ [H40 _]].
  destruct (premium_formula_and_risk_brackets SampleForms.thousand
              (SampleForms.form1000 60) (mkProperty "p2" "u2" "l2" 1000)
              ltac:(discriminate) ltac:(vm_compute; reflexivity) eq_refl)
    as [H60 _].
  destruct (premium_formula_and_risk_brackets SampleForms.thousand
              (SampleForms.form1000 80) (mkProperty "p2" "u2" "l2" 1000)
              ltac:(discriminate) ltac:(vm_compute; reflexivity) eq_refl)
    as [H80 _].
  split; [rewrite H40 by (vm_compute; reflexivity); vm_compute; reflexivity|].
  split; [rewrite H60; vm_compute; reflexivity|].
  rewrite H80; vm_compute; reflexivity.
Defined.

(** C6, as the specification states it, fails, on the form and on the
    server.  For the property of rent 850, one month of coverage and a
    score of 40 the product is 38.25, which is its own rounding to two
    decimal places, and the form derives 38.  A request body whose
    premium is 38.25 for twelve months of the same rent, where the product
    is 459, is parsed and handed to [storage.createPolicy] with 38.25, on
    the entity store and on any storage whose lookups resolve to records
    of the caller. *)
Lemma premium_not_rounded_to_minor_unit :
  Prim2SF (PolicyForm.premium 850 1 40) = Prim2SF 38.25%float
  /\ roundToMinorUnit (PolicyForm.premium 850 1 40) = 38.25%float
  /\ form_premiumAmount
       (PolicyForm.premiumEffect (properties Sample.store0) Sample.form0)
     = 38%float
  /\ form_premiumAmount
       (PolicyForm.premiumEffect (properties Sample.store0) Sample.form0)
     <> roundToMinorUnit (PolicyForm.premium 850 1 40)
  /\ roundToMinorUnit (PolicyForm.premium 850 12 40) = 459%float
  /\ map ip_premiumAmount
       (createCalls
          (trace EntityStore.handle
             (policyController.createPolicy "u1" SampleForms.body_premium)
             Sample.store0))
     = [38.25%float]
  /\ (forall (S : Type)
             (h : forall A, storage.StorageCall A -> S -> Completion A * S)
             (st st1 st2 st3 : S) (l : Landlord) (p : Property) (t : Tenant),
        h _ (storage.getLandlord "l1") st = (Normal (Some l), st1) ->
        landlord_userId l = "u1" ->
        h _ (storage.getProperty "p1") st1 = (Normal (Some p), st2) ->
        property_userId p = "u1" ->
        h _ (storage.getTenant "t1") st2 = (Normal (Some t), st3) ->
        tenant_userId t = "u1" ->
        map ip_premiumAmount
          (createCalls
             (trace h
                (policyController.createPolicy "u1" SampleForms.body_premium)
                st))
        = [38.25%float]).
Proof.
  split; [vm_compute; reflexivity|]. split; [vm_compute; reflexivity|].
  split; [vm_compute; reflexivity|].
  split; [intros H; apply (f_equal Prim2SF) in H; vm_compute in H;
          discriminate|].
  split; [vm_compute; reflexivity|]. split; [vm_compute; reflexivity|].
  intros S h st st1 st2 st3 l p t E1 Hl E2 Hp E3 Ht.
  assert (Hd : exists d,
             Server.insertPolicySchema
               (<["userId" := JStr "u1"]> SampleForms.body_premium) = Normal d
             /\ ip_landlordId d = "l1" /\ ip_propertyId d = "p1"
             /\ ip_tenantId d = "t1" /\ ip_premiumAmount d = 38.25%float).
  { eexists. split; [vm_compute; reflexivity|]. repeat split. }
  destruct Hd as [d [Hd [Hdl [Hdp [Hdt Hprem]]]]].
  rewrite <- Hdl in E1. rewrite <- Hdp in E2. rewrite <- Hdt in E3.
  destruct (createPolicy_owned_references_reach_storage h "u1"
              SampleForms.body_premium d st st1 st2 st3 l p t
              Hd E1 Hl E2 Hp E3 Ht) as [-> _].
  simpl. rewrite Hprem. reflexivity.
Qed.

(** C6, amended. The premium the form derives, the value its effect
    writes to [premiumAmount], is [Math.round] of the product: the product
    itself when it is integral or not finite, otherwise the integer [n]
    with [n - 1/2 <= product < n + 1/2]; a rent of 1000 over 12 months
    gives 540 at score 40 and 288 at score 80.  The server rounds nothing:
    whatever the storage does, the premium of the record [createPolicy]
    hands to [storage.createPolicy] is the number the request body
    carries. *)
Theorem premiumAmount_rounds_to_integer
  (properties : list Property) (f : PolicyFormValues) (property : Property) :
  form_propertyId f <> EmptyString ->
  JsNumber.truthy (form_coverageMonths f) = true ->
  List.find (fun p => String.eqb (property_id p) (form_propertyId f)) properties
  = Some property ->
  match Prim2SF (PolicyForm.premium (property_rentAmount property)
                   (form_coverageMonths f) (form_riskScore f)) with
  | S754_finite sg mt e =>
      if 0 <=? e
      then form_premiumAmount (PolicyForm.premiumEffect properties f)
           = PolicyForm.premium (property_rentAmount property)
               (form_coverageMonths f) (form_riskScore f)
      else
        exists n : Z,
          form_premiumAmount (PolicyForm.premiumEffect properties f)
          = JsNumber.integral sg n
          /\ (2 * n - 1) * 2 ^ (- e) <= 2 * numerator sg mt
             < (2 * n + 1) * 2 ^ (- e)
  | _ => form_premiumAmount (PolicyForm.premiumEffect properties f)
         = PolicyForm.premium (property_rentAmount property)
             (form_coverageMonths f) (form_riskScore f)
  end
  /\ form_premiumAmount
       (PolicyForm.premiumEffect SampleForms.thousand (SampleForms.form1000 40))
     = 540%float
  /\ form_premiumAmount
       (PolicyForm.premiumEffect SampleForms.thousand (SampleForms.form1000 80))
     = 288%float
  /\ (forall (S : Type)
             (h : forall A, storage.StorageCall A -> S -> Completion A * S)
             (userId : string) (body : gmap string JValue) (st : S)
             (d : InsertPolicy),
        In d (createCalls
                (trace h (policyController.createPolicy userId body) st)) ->
        field body "premiumAmount" = JNum (ip_premiumAmount d)).
Proof.
  intros Hid Hcov Hfind.
  rewrite (premiumEffect_writes_premiumAmount _ _ _ Hid Hcov Hfind).
  split; [|split; [vm_compute; reflexivity|split; [vm_compute; reflexivity|]]].
  - unfold PolicyForm.premiumAmount, JsNumber.Math_round.
    destruct (Prim2SF (PolicyForm.premium _ _ _)) as [sg|sg| |sg mt e];
      try reflexivity.
    destruct (Z.leb_spec 0 e) as [He|He]; [reflexivity|].
    exists (JsNumber.roundHalfUp sg mt e). split; [reflexivity|].
    apply roundHalfUp_nearest. exact He.
  - intros S h userId body st d Hin.
    destruct (createPolicy_hands_over_body_fields h _ _ _ _ Hin)
      as [_ [_ [_ Hp]]].
    unfold Zod.number in Hp.
    destruct (field body "premiumAmount") as [| |b|x|s|]; try discriminate.
    destruct (JsNumber.isNumber x); [|discriminate].
    inversion Hp. reflexivity.
Qed.

(** The property of rent 850 over one month at score 40: the form
    derives 38, the whole number nearest to 38.25. *)
Lemma premiumAmount_rounds_to_integer_witness :
  exists n : Z,
    form_premiumAmount
      (PolicyForm.premiumEffect (properties Sample.store0) Sample.form0)
    = JsNumber.integral false n
    /\ (2 * n - 1) * 2 ^ 47 <= 2 * 5383208929591296 < (2 * n + 1) * 2 ^ 47.
Proof.
  exact (proj1 (premiumAmount_rounds_to_integer (properties Sample.store0)
                  Sample.form0 (mkProperty "p1" "u1" "l1" 850)
                  ltac:(discriminate) ltac:(vm_compute; reflexivity)
                  eq_refl)).
Defined.

(* --------------------------------------------------------------------- *)
(** ** The calendar of ECMAScript dates *)
(* --------------------------------------------------------------------- *)

Section CalendarFacts.
Import JsDate Calendar.

Lemma DayFromYear_succ y : DayFromYear (y + 1) = DayFromYear y + DaysInYear y.
Proof.
  unfold DayFromYear, DaysInYear.
  repeat match goal with
         | |- context [negb (?a =? ?b)] => destruct (Z.eqb_spec a b); simpl
         end; zdiv.
Qed.

Lemma DaysInYear_cases y : DaysInYear y = 365 + leapOfYear y /\ 0 <= leapOfYear y <= 1.
Proof.
  unfold leapOfYear, DaysInYear.
  repeat match goal with
         | |- context [negb (?a =? ?b)] => destruct (Z.eqb_spec a b); simpl
         end; lia.
Qed.

Lemma YearFromDay_spec d :
  DayFromYear (YearFromDay d) <= d < DayFromYear (YearFromDay d + 1).
Proof.
  unfold YearFromDay.
  set (y := 1970 + 400 * d / 146097).
  assert (Hlo : DayFromYear (y - 1) <= d) by (subst y; unfold DayFromYear; zdiv).
  assert (Hhi : d < DayFromYear (y + 2)) by (subst y; unfold DayFromYear; zdiv).
  destruct (Z.ltb_spec d (DayFromYear y)).
  - replace (y - 1 + 1) with y by lia. lia.
  - destruct (Z.leb_spec (DayFromYear (y + 1)) d).
    + replace (y + 1 + 1) with (y + 2) by lia. lia.
    + lia.
Qed.

Lemma DayFromYear_mono a b : a < b -> DayFromYear a + 365 <= DayFromYear b.
Proof. unfold DayFromYear. zdiv. Qed.

Lemma YearFromDay_unique y d :
  DayFromYear y <= d < DayFromYear (y + 1) -> YearFromDay d = y.
Proof.
  intros H. pose proof (YearFromDay_spec d) as Hs.
  destruct (Z.lt_trichotomy (YearFromDay d) y) as [Hlt|[Heq|Hgt]]; [|exact Heq|].
  - assert (YearFromDay d + 1 <= y) by lia.
    destruct (Z.eq_dec (YearFromDay d + 1) y) as [E|E].
    + rewrite E in Hs. lia.
    + pose proof (DayFromYear_mono (YearFromDay d + 1) y ltac:(lia)). lia.
  - destruct (Z.eq_dec (y + 1) (YearFromDay d)) as [E|E].
    + rewrite <- E in Hs. lia.
    + pose proof (DayFromYear_mono (y + 1) (YearFromDay d) ltac:(lia)). lia.
Qed.

(** The day number of the [d]-th of month [mn] (0 to 11) of year [y], a
    [d] past the end of the month counting on into the next one. *)
Lemma day_of_month_year y mn d :
  0 <= mn <= 11 -> 1 <= d <= 31 ->
  YearFromDay (DayFromYear y + firstDayOfMonth (leapOfYear y) mn + d - 1) = y.
Proof.
  intros Hmn Hd. apply YearFromDay_unique. rewrite DayFromYear_succ.
  destruct (DaysInYear_cases y) as [-> Hl]. unfold firstDayOfMonth.
  ztests; lia.
Qed.

Lemma day_of_month_fits l mn d :
  0 <= l <= 1 -> 0 <= mn <= 11 ->
  1 <= d <= (if mn + 1 =? 2 then 28 + l
             else if (mn + 1 =? 4) || (mn + 1 =? 6) || (mn + 1 =? 9) || (mn + 1 =? 11)
                  then 30 else 31) ->
  monthOfDay l (firstDayOfMonth l mn + d - 1) = mn
  /\ firstDayOfMonth l mn + d - 1 - firstDayOfMonth l mn + 1 = d.
Proof.
  intros Hl Hmn Hd. split; [|lia].
  assert (Hc : mn = 0 \/ mn = 1 \/ mn = 2 \/ mn = 3 \/ mn = 4 \/ mn = 5 \/ mn = 6
               \/ mn = 7 \/ mn = 8 \/ mn = 9 \/ mn = 10 \/ mn = 11) by lia.
  repeat (destruct Hc as [->|Hc]); try subst mn; simpl in Hd;
    unfold monthOfDay, firstDayOfMonth; simpl; ztests; lia.
Qed.

Lemma day_of_month_carries l mn d :
  0 <= l <= 1 -> 0 <= mn <= 11 -> d <= 31 ->
  (if mn + 1 =? 2 then 28 + l
   else if (mn + 1 =? 4) || (mn + 1 =? 6) || (mn + 1 =? 9) || (mn + 1 =? 11)
        then 30 else 31) < d ->
  monthOfDay l (firstDayOfMonth l mn + d - 1) = mn + 1
  /\ firstDayOfMonth l mn + d - 1 - firstDayOfMonth l (mn + 1) + 1
     = d - (if mn + 1 =? 2 then 28 + l
            else if (mn + 1 =? 4) || (mn + 1 =? 6) || (mn + 1 =? 9) || (mn + 1 =? 11)
                 then 30 else 31).
Proof.
  intros Hl Hmn Hd31 Hd.
  assert (Hc : mn = 0 \/ mn = 1 \/ mn = 2 \/ mn = 3 \/ mn = 4 \/ mn = 5 \/ mn = 6
               \/ mn = 7 \/ mn = 8 \/ mn = 9 \/ mn = 10 \/ mn = 11) by lia.
  repeat (destruct Hc as [->|Hc]); try subst mn; simpl in Hd; simpl;
    unfold monthOfDay, firstDayOfMonth; simpl; try lia; split; ztests; lia.
Qed.

Lemma MakeDay_normal y i d :
  MakeDay y i d
  = DayFromYear (y + i / 12)
    + firstDayOfMonth (leapOfYear (y + i / 12)) (i mod 12) + d - 1.
Proof. reflexivity. Qed.

Lemma Day_MakeDate D tod : 0 <= tod < msPerDay -> Day (MakeDate D tod) = D.
Proof. unfold Day, MakeDate, msPerDay. intros H. zdiv. Qed.

Lemma TimeWithinDay_MakeDate D tod :
  0 <= tod < msPerDay -> TimeWithinDay (MakeDate D tod) = tod.
Proof. unfold TimeWithinDay, MakeDate, msPerDay. intros H. zdiv. Qed.

Lemma fields_of_time y mn d tod :
  0 <= mn <= 11 -> 1 <= d <= 31 -> 0 <= tod < msPerDay ->
  let t := MakeDate (DayFromYear y + firstDayOfMonth (leapOfYear y) mn + d - 1) tod in
  YearFromTime t = y
  /\ TimeWithinDay t = tod
  /\ (d <= DaysInMonth y (mn + 1) -> MonthFromTime t = mn /\ DateFromTime t = d)
  /\ (DaysInMonth y (mn + 1) < d ->
      MonthFromTime t = mn + 1 /\ DateFromTime t = d - DaysInMonth y (mn + 1)).
Proof.
  intros Hmn Hd Htod t.
  assert (HD : Day t = DayFromYear y + firstDayOfMonth (leapOfYear y) mn + d - 1)
    by (apply Day_MakeDate; exact Htod).
  assert (HY : YearFromTime t = y).
  { unfold YearFromTime. rewrite HD. apply day_of_month_year; assumption. }
  assert (HW : DayWithinYear t = firstDayOfMonth (leapOfYear y) mn + d - 1).
  { unfold DayWithinYear. rewrite HY, HD. lia. }
  destruct (DaysInYear_cases y) as [_ Hl].
  split; [exact HY|]. split; [apply TimeWithinDay_MakeDate; exact Htod|].
  unfold DateFromTime, MonthFromTime, InLeapYear. rewrite HY, HW.
  unfold DaysInMonth. split.
  - intros Hfit.
    destruct (day_of_month_fits (leapOfYear y) mn d Hl Hmn (conj (proj1 Hd) Hfit))
      as [Hm Hdate].
    rewrite Hm. split; [reflexivity|exact Hdate].
  - intros Hover.
    destruct (day_of_month_carries (leapOfYear y) mn d Hl Hmn (proj2 Hd) Hover)
      as [Hm Hdate].
    rewrite Hm. split; [reflexivity|exact Hdate].
Qed.

(** Digits *)
Lemma digitVal_digitChar n : digitVal (digitChar n) = Some (n mod 10).
Proof.
  unfold digitChar. pose proof (Z.mod_pos_bound n 10 ltac:(lia)) as Hb.
  remember (n mod 10) as k eqn:E. clear E.
  assert (Hc : k = 0 \/ k = 1 \/ k = 2 \/ k = 3 \/ k = 4 \/ k = 5 \/ k = 6
               \/ k = 7 \/ k = 8 \/ k = 9) by lia.
  repeat (destruct Hc as [->|Hc]); try subst k; reflexivity.
Qed.

Lemma digitChar_not_T n : Ascii.eqb (digitChar n) "T" = false.
Proof.
  unfold digitChar. pose proof (Z.mod_pos_bound n 10 ltac:(lia)) as Hb.
  remember (n mod 10) as k eqn:E. clear E.
  assert (Hc : k = 0 \/ k = 1 \/ k = 2 \/ k = 3 \/ k = 4 \/ k = 5 \/ k = 6
               \/ k = 7 \/ k = 8 \/ k = 9) by lia.
  repeat (destruct Hc as [->|Hc]); try subst k; reflexivity.
Qed.

Lemma beforeT_digits w n rest :
  beforeT (digits w n rest) = digits w n (beforeT rest).
Proof.
  revert n rest. induction w as [|w IH]; intros n rest; [reflexivity|].
  cbn [digits]. rewrite IH. cbn [beforeT]. rewrite digitChar_not_T. reflexivity.
Qed.

Lemma number2 n :
  0 <= n <= 99 -> number [digitChar (n / 10); digitChar n] 0 = Some n.
Proof.
  intros H. cbn [number]. rewrite !digitVal_digitChar. f_equal. zdiv.
Qed.

Lemma number4 n :
  0 <= n <= 9999 ->
  number [digitChar (n / 10 / 10 / 10); digitChar (n / 10 / 10);
          digitChar (n / 10); digitChar n] 0 = Some n.
Proof.
  intros H. cbn [number]. rewrite !digitVal_digitChar. f_equal. zdiv.
Qed.

Lemma TimeClip_day y mn d :
  0 <= y <= 9999 -> 0 <= mn <= 11 -> 1 <= d <= 31 ->
  TimeClip (MakeDate (DayFromYear y + firstDayOfMonth (leapOfYear y) mn + d - 1) 0)
  = Some (MakeDate (DayFromYear y + firstDayOfMonth (leapOfYear y) mn + d - 1) 0).
Proof.
  intros Hy Hmn Hd. unfold TimeClip.
  destruct (DaysInYear_cases y) as [_ Hl].
  destruct (Z.leb_spec (Z.abs (MakeDate (DayFromYear y
              + firstDayOfMonth (leapOfYear y) mn + d - 1) 0)) 8640000000000000)
    as [H|H]; [reflexivity|exfalso].
  revert H. generalize (leapOfYear y) Hl. intros l Hl'.
  unfold MakeDate, msPerDay, DayFromYear, firstDayOfMonth. ztests; zdiv.
Qed.

Lemma parse_civil y mo d :
  0 <= y <= 9999 -> 1 <= mo <= 12 -> 1 <= d <= 31 ->
  parse (civil y mo d) = Some (MakeDate (MakeDay y (mo - 1) d) 0).
Proof.
  intros Hy Hmo Hd. unfold parse, civil.
  cbn [digits list_ascii_of_string]. rewrite !Ascii.eqb_refl.
  cbn [andb]. rewrite (number4 y Hy), (number2 mo ltac:(lia)), (number2 d ltac:(lia)).
  destruct (Z.leb_spec 1 mo); [|lia]. destruct (Z.leb_spec mo 12); [|lia].
  destruct (Z.leb_spec 1 d); [|lia]. destruct (Z.leb_spec d 31); [|lia].
  reflexivity.
Qed.

Lemma beforeT_isoDate t r :
  0 <= YearFromTime t <= 9999 ->
  beforeT (isoDate t (String "T" r)) = isoDate t EmptyString.
Proof.
  intros Hy. unfold isoDate, yearString.
  destruct (Z.leb_spec 0 (YearFromTime t)); [|lia].
  destruct (Z.leb_spec (YearFromTime t) 9999); [|lia]. cbn [andb].
  rewrite beforeT_digits. cbn [beforeT]. 
  change (Ascii.eqb "-" "T") with false. cbv iota.
  rewrite beforeT_digits. cbn [beforeT].
  change (Ascii.eqb "-" "T") with false. cbv iota.
  rewrite beforeT_digits. cbn [beforeT]. rewrite Ascii.eqb_refl. reflexivity.
Qed.

Lemma isoDate_civil t :
  0 <= YearFromTime t <= 9999 ->
  isoDate t EmptyString
  = civil (YearFromTime t) (MonthFromTime t + 1) (DateFromTime t).
Proof.
  intros Hy. unfold isoDate, yearString, civil.
  destruct (Z.leb_spec 0 (YearFromTime t)); [|lia].
  destruct (Z.leb_spec (YearFromTime t) 9999); [|lia]. reflexivity.
Qed.

Lemma computeEndDate_calendar tza y mo d n :
  0 <= tza < msPerDay ->
  0 <= y -> 1 <= mo <= 12 -> 1 <= d <= DaysInMonth y mo ->
  1 <= n -> y + (mo - 1 + n) / 12 <= 9999 ->
  EndDate.computeEndDate tza (civil y mo d) (JsNumber.ofZ n)
  = Some (let '(y', mo', d') := addMonths y mo d n in civil y' mo' d').
Proof.
  intros Htza Hy Hmo Hd Hn Hy'.
  assert (Hd31 : 1 <= d <= 31).
  { revert Hd. unfold DaysInMonth. destruct (DaysInYear_cases y) as [_ Hl].
    ztests; simpl; lia. }
  assert (Hy9 : 0 <= y <= 9999).
  { split; [exact Hy|]. assert (0 <= (mo - 1 + n) / 12) by (apply Z.div_pos; lia). lia. }
  set (i := mo - 1 + n) in *.
  assert (Hi12 : 0 <= i mod 12 <= 11) by (pose proof (Z.mod_pos_bound i 12); lia).
  assert (Hiy : 0 <= y + i / 12 <= 9999).
  { split; [|exact Hy']. assert (0 <= i / 12) by (apply Z.div_pos; lia). lia. }
  unfold EndDate.computeEndDate, ofString.
  rewrite (parse_civil y mo d Hy9 Hmo Hd31), MakeDay_normal.
  replace ((mo - 1) / 12) with 0 by (symmetry; apply Z.div_small; lia).
  replace ((mo - 1) mod 12) with (mo - 1) by (symmetry; apply Z.mod_small; lia).
  replace (y + 0) with y by lia.
  rewrite (TimeClip_day y (mo - 1) d Hy9 ltac:(lia) Hd31).
  unfold getMonth, setMonth, LocalTime.
  set (D0 := DayFromYear y + firstDayOfMonth (leapOfYear y) (mo - 1) + d - 1).
  replace (MakeDate D0 0 + tza) with (MakeDate D0 tza) by (unfold MakeDate; lia).
  destruct (fields_of_time y (mo - 1) d tza ltac:(lia) Hd31 Htza)
    as [HY [HT [Hfit _]]]. fold D0 in HY, HT, Hfit.
  replace (mo - 1 + 1) with mo in Hfit by lia.
  destruct (Hfit (proj2 Hd)) as [HM HDt].
  rewrite HM, HY, HT, HDt.
  assert (Hsmall : mo - 1 + n < 2 ^ 53).
  { change (2 ^ 53) with 9007199254740992. fold i. clear - Hiy Hy. zdiv. }
  destruct (month_plus_coverage (mo - 1) n ltac:(lia) Hn Hsmall) as [_ Hsum].
  rewrite Hsum. fold i. rewrite MakeDay_normal.
  set (y1 := y + i / 12) in *. set (mn := i mod 12) in *.
  set (D1 := DayFromYear y1 + firstDayOfMonth (leapOfYear y1) mn + d - 1).
  replace (UTC tza (MakeDate D1 tza)) with (MakeDate D1 0)
    by (unfold UTC, MakeDate; lia).
  unfold D1. rewrite (TimeClip_day y1 mn d Hiy Hi12 Hd31). fold D1.
  unfold toISOString.
  destruct (fields_of_time y1 mn d 0 Hi12 Hd31 ltac:(unfold msPerDay; lia))
    as [HY1 [_ [Hfit1 Hcar1]]]. fold D1 in HY1, Hfit1, Hcar1.
  rewrite beforeT_isoDate by (rewrite HY1; exact Hiy).
  rewrite isoDate_civil by (rewrite HY1; exact Hiy).
  rewrite HY1. unfold addMonths. fold i. fold y1. fold mn.
  destruct (Z.leb_spec d (DaysInMonth y1 (mn + 1))) as [Hle|Hgt].
  - destruct (Hfit1 Hle) as [-> ->]. reflexivity.
  - destruct (Hcar1 Hgt) as [-> ->]. reflexivity.
Qed.


End CalendarFacts.

(* --------------------------------------------------------------------- *)
(** ** The derived end date *)
(* --------------------------------------------------------------------- *)

Example computeEndDate_examples :
  EndDate.computeEndDate 0 "2024-01-15" 12 = Some "2025-01-15"
  /\ EndDate.computeEndDate 0 "2024-01-31" 1 = Some "2024-03-02"
  /\ EndDate.computeEndDate 0 "2023-01-31" 1 = Some "2023-03-03"
  /\ EndDate.computeEndDate 0 "2024-02-29" 12 = Some "2025-03-01"
  /\ EndDate.computeEndDate 0 "not a date" 12 = None.
Proof. repeat split; vm_compute; reflexivity. Qed.

(** The spellings of one instant that the ISO format allows, and a
    date-time without a zone, which is not read. *)
Example ofString_examples :
  JsDate.ofString "2024-01-01T00:00:00.000Z" = Some 1704067200000
  /\ JsDate.ofString "2024-01-01T00:00:00Z" = Some 1704067200000
  /\ JsDate.ofString "2024-01-01T00:00Z" = Some 1704067200000
  /\ JsDate.ofString "2024-01-01T01:00:00+01:00" = Some 1704067200000
  /\ JsDate.ofString "2023-12-31T19:00:00.000-05:00" = Some 1704067200000
  /\ JsDate.ofString "2023-12-31T24:00:00Z" = Some 1704067200000
  /\ JsDate.ofString "2024-01-01" = Some 1704067200000
  /\ JsDate.ofString "2024-01" = Some 1704067200000
  /\ JsDate.ofString "2024" = Some 1704067200000
  /\ JsDate.ofString "2024-01-01T24:00:01Z" = None
  /\ JsDate.ofString "2024-01-01T00:00:00" = None.
Proof. repeat split; vm_compute; reflexivity. Qed.

(** West of Greenwich the local date of a UTC midnight is the day before:
    five hours west, a month from the first of March ends on the 30th. *)
Example computeEndDate_west_of_Greenwich :
  EndDate.computeEndDate (-5 * 3600000) "2024-03-01" 1 = Some "2024-03-30".
Proof. vm_compute. reflexivity. Qed.

Lemma civil_not_empty y mo d : String.eqb (Calendar.civil y mo d) EmptyString = false.
Proof. reflexivity. Qed.

Lemma endDateEffect_calendar tza y mo d n f :
  0 <= tza < JsDate.msPerDay ->
  0 <= y -> 1 <= mo <= 12 -> 1 <= d <= Calendar.DaysInMonth y mo ->
  1 <= n -> y + (mo - 1 + n) / 12 <= 9999 ->
  form_startDate f = Calendar.civil y mo d ->
  form_coverageMonths f = JsNumber.ofZ n ->
  EndDate.endDateEffect tza f
  = Normal (EndDate.setEndDate
              (Calendar.civilOf (Calendar.addMonths y mo d n)) f).
Proof.
  intros Htza Hy Hmo Hd Hn Hy' Hstart Hcov. unfold EndDate.endDateEffect.
  rewrite Hstart, Hcov, civil_not_empty.
  assert (Hsmall : 0 + n < 2 ^ 53).
  { change (2 ^ 53) with 9007199254740992. clear - Hy Hmo Hy'. zdiv. }
  destruct (month_plus_coverage 0 n ltac:(lia) Hn Hsmall) as [-> _].
  cbn [negb andb].
  rewrite (computeEndDate_calendar tza y mo d n Htza Hy Hmo Hd Hn Hy').
  unfold Calendar.civilOf. reflexivity.
Qed.

(* --------------------------------------------------------------------- *)
(** ** The controller on any storage *)
(* --------------------------------------------------------------------- *)

Section AnyStorage.
Context {S : Type}.
Variable h : forall A, storage.StorageCall A -> S -> Completion A * S.

(** The status test [!status || !list.includes(status)] is decided by
    [includes] alone: the three statuses are non-empty strings. *)
Lemma status_test_is_includes (v : JValue) :
  negb (truthyValue v) || negb (includes ["active"; "expired"; "cancelled"] v)
  = negb (includes ["active"; "expired"; "cancelled"] v).
Proof.
  destruct v as [| |b|x|s|]; simpl; try reflexivity;
    try (rewrite orb_true_r; reflexivity).
  destruct (String.eqb_spec s ""); [subst; reflexivity|reflexivity].
Qed.



End AnyStorage.

(* --------------------------------------------------------------------- *)
(** ** The controller on the entity store *)
(* --------------------------------------------------------------------- *)

Lemma createPolicy_unfold userId body st d :
  Server.insertPolicySchema (<["userId" := JStr userId]> body) = Normal d ->
  createPolicy userId body st =
  match invalidReference userId d st with
  | Some msg => (mkResponse 403 false (Some msg) None, st)
  | None =>
      match EntityStore.createPolicy d st with
      | (Normal newPolicy, st') => (mkResponse 201 true None (Some newPolicy), st')
      | (Throw m, st') =>
          (mkResponse 400 false
             (Some (if String.eqb m "" then "Invalid policy data." else m)) None,
           st')
      end
  end.
Proof.
  intros Hd. unfold createPolicy, policyController.createPolicy. rewrite Hd.
  unfold invalidReference, landlordOk, propertyOk, tenantOk. simpl.
  destruct (EntityStore.getLandlord (ip_landlordId d) st) as [l|]; simpl;
    [|reflexivity].
  destruct (String.eqb (landlord_userId l) userId); simpl; [|reflexivity].
  destruct (EntityStore.getProperty (ip_propertyId d) st) as [p|]; simpl;
    [|reflexivity].
  destruct (String.eqb (property_userId p) userId); simpl; [|reflexivity].
  destruct (EntityStore.getTenant (ip_tenantId d) st) as [t|]; simpl;
    [|reflexivity].
  destruct (String.eqb (tenant_userId t) userId); simpl; [|reflexivity].
  destruct (EntityStore.createPolicy d st) as [[newPolicy|m] st']; reflexivity.
Qed.

Lemma createPolicy_malformed userId body st m :
  Server.insertPolicySchema (<["userId" := JStr userId]> body) = Throw m ->
  createPolicy userId body st =
  (mkResponse 400 false
     (Some (if String.eqb m "" then "Invalid policy data." else m)) None, st).
Proof.
  intros Hd. unfold createPolicy, policyController.createPolicy. rewrite Hd.
  reflexivity.
Qed.

Lemma EntityStore_createPolicy_cases d st :
  (EntityStore.tenantInsured (ip_tenantId d) st = true
   /\ exists m, EntityStore.createPolicy d st = (Throw m, st) /\ m <> EmptyString)
  \/ (EntityStore.tenantInsured (ip_tenantId d) st = false
      /\ exists p,
           EntityStore.createPolicy d st
           = (Normal p,
              EntityStore.setPolicies (policies st ++ [p])
                (Datatypes.S (issuedNumbers st)) st)
           /\ policy_tenantId p = ip_tenantId d
           /\ policy_status p = ip_status d
           /\ policy_coverageMonths p = ip_coverageMonths d
           /\ policy_riskScore p = ip_riskScore d
           /\ policy_startDate p = ip_startDate d
           /\ policy_endDate p = ip_endDate d
           /\ policy_premiumAmount p = ip_premiumAmount d).
Proof.
  unfold EntityStore.createPolicy.
  destruct (EntityStore.tenantInsured (ip_tenantId d) st); [left|right];
    (split; [reflexivity|]); eexists; repeat split; discriminate.
Qed.

(** A 201 answers with the created policy, which carries the dates of the
    request body as they were sent. *)
Lemma createPolicy_created_keeps_body_dates userId body st :
  statusCode (fst (createPolicy userId body st)) = 201 ->
  exists p,
    data (fst (createPolicy userId body st)) = Some p
    /\ In p (policies (snd (createPolicy userId body st)))
    /\ Zod.coerceDate "startDate" (field body "startDate")
       = Normal (policy_startDate p)
    /\ Zod.coerceDate "endDate" (field body "endDate")
       = Normal (policy_endDate p).
Proof.
  destruct (Server.insertPolicySchema (<["userId" := JStr userId]> body))
    as [d|m] eqn:Hd.
  - rewrite (createPolicy_unfold _ _ _ _ Hd).
    destruct (invalidReference userId d st); [simpl; discriminate|].
    destruct (EntityStore_createPolicy_cases d st)
      as [[_ [m [-> _]]]|[_ [p [-> [_ [_ [_ [_ [Hs [He _]]]]]]]]]];
      [simpl; discriminate|].
    intros _. exists p. simpl. split; [reflexivity|].
    split; [apply in_or_app; right; left; reflexivity|].
    destruct (insertPolicySchema_fields _ _ Hd)
      as [_ [_ [_ [_ [_ [_ [_ [_ [Hsd [Hed _]]]]]]]]]].
    unfold field in Hsd, Hed.
    rewrite lookup_insert_ne in Hsd by discriminate.
    rewrite lookup_insert_ne in Hed by discriminate.
    unfold field. rewrite Hs, He. split; assumption.
  - rewrite (createPolicy_malformed _ _ _ _ Hd). simpl. discriminate.
Qed.

(** *** The form from mounting through the user's inputs *)

Lemma SFsame_eq (a b : spec_float) : SFsame a b = true -> a = b.
Proof.
  destruct a as [s|s| |s m e], b as [s'|s'| |s' m' e']; simpl;
    try discriminate; try reflexivity.
  - intros H. apply Bool.eqb_prop in H. congruence.
  - intros H. apply Bool.eqb_prop in H. congruence.
  - intros H. apply andb_true_iff in H. destruct H as [H He].
    apply andb_true_iff in H. destruct H as [Hs Hm].
    apply Bool.eqb_prop in Hs. apply Pos.eqb_eq in Hm. apply Z.eqb_eq in He.
    congruence.
Qed.

(** Two Numbers that [Object.is] takes for the same are the same. *)
Lemma Object_is_eq (x y : float) : Object_is x y = true -> x = y.
Proof.
  intros H. apply FloatAxioms.Prim2SF_inj, SFsame_eq. exact H.
Qed.

(** The end-date effect reads the start date and the coverage and
    writes the end date: it has nothing more to write to a form whose
    three values are those of a form it left unchanged. *)
Lemma endDateEffect_same_dates (tza : Z) (f g : PolicyFormValues) :
  form_startDate g = form_startDate f ->
  form_coverageMonths g = form_coverageMonths f ->
  form_endDate g = form_endDate f ->
  EndDate.endDateEffect tza f = Normal f ->
  EndDate.endDateEffect tza g = Normal g.
Proof.
  intros Hs Hc He. unfold EndDate.endDateEffect. rewrite Hs, Hc.
  destruct (negb (String.eqb (form_startDate f) "")
            && JsNumber.truthy (form_coverageMonths f)); [|reflexivity].
  destruct (EndDate.computeEndDate tza (form_startDate f)
              (form_coverageMonths f)) as [e|]; [|discriminate].
  intros H. inversion H as [H1]. f_equal.
  apply (f_equal form_endDate) in H1. simpl in H1.
  rewrite H1, <- He. destruct g; reflexivity.
Qed.

Lemma endDateEffect_settled (tza : Z) (f f' : PolicyFormValues) :
  EndDate.endDateEffect tza f = Normal f' ->
  EndDate.endDateEffect tza f' = Normal f'.
Proof.
  unfold EndDate.endDateEffect.
  destruct (negb (String.eqb (form_startDate f) "")
            && JsNumber.truthy (form_coverageMonths f)) eqn:G.
  - destruct (EndDate.computeEndDate tza (form_startDate f)
                (form_coverageMonths f)) as [e|] eqn:C; [|discriminate].
    intros H. inversion H; subst f'. destruct f; simpl in *.
    rewrite G, C. reflexivity.
  - intros H. inversion H; subst f'. rewrite G. reflexivity.
Qed.

Lemma premiumEffect_keeps_dates (properties : list Property)
  (f : PolicyFormValues) :
  form_startDate (PolicyForm.premiumEffect properties f) = form_startDate f
  /\ form_coverageMonths (PolicyForm.premiumEffect properties f)
     = form_coverageMonths f
  /\ form_endDate (PolicyForm.premiumEffect properties f) = form_endDate f.
Proof.
  unfold PolicyForm.premiumEffect.
  destruct (negb (String.eqb (form_propertyId f) "")
            && JsNumber.truthy (form_coverageMonths f));
    [|repeat split].
  destruct (List.find _ properties); repeat split.
Qed.

Lemma setValues_keeps_endDate (i : PolicyFormSession.Input)
  (f : PolicyFormValues) :
  form_endDate (PolicyFormSession.setValues i f) = form_endDate f.
Proof. destruct i; reflexivity. Qed.

Lemma effects_settled (tza : Z) (runEndDate runPremium : bool)
  (s s' : PolicyFormSession.State) :
  (runEndDate = false ->
   EndDate.endDateEffect tza (PolicyFormSession.values s)
   = Normal (PolicyFormSession.values s)) ->
  PolicyFormSession.effects tza runEndDate runPremium s = Normal s' ->
  EndDate.endDateEffect tza (PolicyFormSession.values s')
  = Normal (PolicyFormSession.values s').
Proof.
  intros Hinv. unfold PolicyFormSession.effects, mbind, Completion_bind.
  assert (Hf : forall f, EndDate.endDateEffect tza f = Normal f ->
            EndDate.endDateEffect tza
              (if runPremium
               then PolicyForm.premiumEffect (PolicyFormSession.fetched s) f
               else f)
            = Normal (if runPremium
                      then PolicyForm.premiumEffect
                             (PolicyFormSession.fetched s) f
                      else f)).
  { intros f Hset. destruct runPremium; [|exact Hset].
    destruct (premiumEffect_keeps_dates (PolicyFormSession.fetched s) f)
      as [H1 [H2 H3]].
    exact (endDateEffect_same_dates tza f _ H1 H2 H3 Hset). }
  destruct runEndDate.
  - destruct (EndDate.endDateEffect tza (PolicyFormSession.values s))
      as [f|m] eqn:E; [|discriminate].
    intros H. inversion H; subst s'. simpl.
    apply Hf. exact (endDateEffect_settled tza _ _ E).
  - intros H. inversion H; subst s'. simpl. apply Hf, Hinv. reflexivity.
Qed.

Lemma step_settled (tza : Z) (s s' : PolicyFormSession.State)
  (i : PolicyFormSession.Input) :
  EndDate.endDateEffect tza (PolicyFormSession.values s)
  = Normal (PolicyFormSession.values s) ->
  PolicyFormSession.step tza s i = Normal s' ->
  EndDate.endDateEffect tza (PolicyFormSession.values s')
  = Normal (PolicyFormSession.values s').
Proof.
  intros Hinv. unfold PolicyFormSession.step. apply effects_settled.
  simpl. unfold PolicyFormSession.endDateDepsChanged. intros Hsame.
  apply negb_false_iff, andb_true_iff in Hsame. destruct Hsame as [Hs Hc].
  apply String.eqb_eq in Hs. apply Object_is_eq in Hc.
  apply (endDateEffect_same_dates tza (PolicyFormSession.values s));
    [symmetry; exact Hs|symmetry; exact Hc
    |apply setValues_keeps_endDate|exact Hinv].
Qed.

(** At every moment of a session the end date is what the effect derives
    from the start date and the coverage of that moment. *)
Lemma session_settled (tza : Z) (defaultValues : PolicyFormValues)
  (inputs : list PolicyFormSession.Input) (s : PolicyFormSession.State) :
  PolicyFormSession.session tza defaultValues inputs = Normal s ->
  EndDate.endDateEffect tza (PolicyFormSession.values s)
  = Normal (PolicyFormSession.values s).
Proof.
  unfold PolicyFormSession.session, mbind, Completion_bind.
  destruct (PolicyFormSession.mount tza defaultValues) as [s0|m] eqn:Hm;
    [|discriminate].
  assert (H0 : EndDate.endDateEffect tza (PolicyFormSession.values s0)
               = Normal (PolicyFormSession.values s0)).
  { apply (effects_settled tza true true _ _ ltac:(discriminate) Hm). }
  clear Hm. revert s0 H0.
  induction inputs as [|i rest IH]; intros s0 H0; simpl.
  - intros H. inversion H; subst. exact H0.
  - unfold mbind, Completion_bind.
    destruct (PolicyFormSession.step tza s0 i) as [s1|m] eqn:Hs;
      [|discriminate].
    apply IH. exact (step_settled tza s0 s1 i H0 Hs).
Qed.

(** C2, as the specification states it, fails: the end date is the
    caller's to set.  Whatever the storage does, once it has resolved the
    three parents of the request to records of the user, [createPolicy]
    hands it a twelve-month policy starting 2024-01-01 whose end date is
    2024-01-02, not 2025-01-01, and answers 201 with the policy the
    storage returns. *)
Lemma createPolicy_accepts_unrelated_endDate :
  Server.insertPolicySchema (<["userId" := JStr "u1"]> Sample.body0)
  = Normal Sample.data0
  /\ JsNumber.toInteger (ip_coverageMonths Sample.data0) = Some 12
  /\ JsDate.toISOString (Some (ip_startDate Sample.data0))
     = Some "2024-01-01T00:00:00.000Z"
  /\ JsDate.toISOString (Some (ip_endDate Sample.data0))
     = Some "2024-01-02T23:59:59.000Z"
  /\ JsDate.toISOString
       (Some (Calendar.advance (ip_startDate Sample.data0) 12))
     = Some "2025-01-01T00:00:00.000Z"
  /\ JsDate.Day (ip_endDate Sample.data0)
     <> JsDate.Day (Calendar.advance (ip_startDate Sample.data0) 12)
  /\ trace EntityStore.handle
       (policyController.createPolicy "u1" Sample.body0) Sample.store0
     = [issued (storage.getLandlord "l1"); issued (storage.getProperty "p1");
        issued (storage.getTenant "t1");
        issued (storage.createPolicy Sample.data0)]
  /\ (forall (S : Type)
             (h : forall A, storage.StorageCall A -> S -> Completion A * S)
             (st st1 st2 st3 : S) (l : Landlord) (p : Property) (t : Tenant),
        h _ (storage.getLandlord "l1") st = (Normal (Some l), st1) ->
        landlord_userId l = "u1" ->
        h _ (storage.getProperty "p1") st1 = (Normal (Some p), st2) ->
        property_userId p = "u1" ->
        h _ (storage.getTenant "t1") st2 = (Normal (Some t), st3) ->
        tenant_userId t = "u1" ->
        createCalls
          (trace h (policyController.createPolicy "u1" Sample.body0) st)
        = [Sample.data0]
        /\ forall (newPolicy : Policy) (st4 : S),
             h _ (storage.createPolicy Sample.data0) st3
             = (Normal newPolicy, st4) ->
             run h (policyController.createPolicy "u1" Sample.body0) st
             = (mkResponse 201 true None (Some newPolicy), st4)).
Proof.
  split; [vm_compute; reflexivity|].
  split; [vm_compute; reflexivity|].
  split; [vm_compute; reflexivity|].
  split; [vm_compute; reflexivity|].
  split; [vm_compute; reflexivity|].
  split; [vm_compute; discriminate|].
  split; [vm_compute; reflexivity|].
  intros S h st st1 st2 st3 l p t E1 Hl E2 Hp E3 Ht.
  unfold policyController.createPolicy.
  replace (Server.insertPolicySchema (<["userId" := JStr "u1"]> Sample.body0))
    with (Normal Sample.data0) by (vm_compute; reflexivity).
  cbn [trace run]. change (ip_landlordId Sample.data0) with "l1"%string.
  change (ip_propertyId Sample.data0) with "p1"%string.
  change (ip_tenantId Sample.data0) with "t1"%string.
  rewrite E1, E2, E3, Hl, Hp, Ht.
  change (String.eqb "u1" "u1") with true. cbn [negb trace run createCalls].
  destruct (h _ (storage.createPolicy Sample.data0) st3) as [r st4] eqn:E4.
  split; [destruct r; reflexivity|].
  intros newPolicy st4' H. inversion H; subst. reflexivity.
Qed.

(** C2, amended. In the policy form, in a browser whose zone is a
    constant offset at or east of Greenwich, at every moment of a session
    (the form mounted on any default values, then any inputs of the user)
    in which the start date is [y]-[mo]-[d] and the coverage [n] whole
    months, ending by year 9999, the end date is the start date advanced
    by [n] calendar months as [Date.setMonth] does it: the same day [n]
    months later, month lengths and leap years respected, a day past the
    end of that month carried into the next.  It is recomputed whenever
    the start date or the coverage changes (in any zone the end date is
    what the effect derives from the two), and no input of the form sets
    it.  On the server the end date is an input: whatever the storage
    does, the record [createPolicy] hands to [storage.createPolicy] has
    the start and end dates of the request body as sent. *)
Theorem endDate_derived_in_form_taken_as_sent_by_server
  (tza y mo d n : Z) (defaultValues : PolicyFormValues)
  (inputs : list PolicyFormSession.Input) (s : PolicyFormSession.State) :
  0 <= tza < JsDate.msPerDay ->
  0 <= y -> 1 <= mo <= 12 -> 1 <= d <= Calendar.DaysInMonth y mo ->
  1 <= n -> y + (mo - 1 + n) / 12 <= 9999 ->
  PolicyFormSession.session tza defaultValues inputs = Normal s ->
  form_startDate (PolicyFormSession.values s) = Calendar.civil y mo d ->
  form_coverageMonths (PolicyFormSession.values s) = JsNumber.ofZ n ->
  form_endDate (PolicyFormSession.values s)
  = Calendar.civilOf (Calendar.addMonths y mo d n)
  /\ (d <= Calendar.DaysInMonth (y + (mo - 1 + n) / 12) ((mo - 1 + n) mod 12 + 1) ->
      Calendar.addMonths y mo d n
      = (y + (mo - 1 + n) / 12, (mo - 1 + n) mod 12 + 1, d))
  /\ (forall f : PolicyFormValues,
        form_startDate f = Calendar.civil y mo d ->
        form_coverageMonths f = JsNumber.ofZ n ->
        EndDate.endDateEffect tza f
        = Normal (EndDate.setEndDate
                    (Calendar.civilOf (Calendar.addMonths y mo d n)) f))
  /\ (forall (zone : Z) (defaults : PolicyFormValues)
             (l : list PolicyFormSession.Input) (s' : PolicyFormSession.State),
        PolicyFormSession.session zone defaults l = Normal s' ->
        EndDate.endDateEffect zone (PolicyFormSession.values s')
        = Normal (PolicyFormSession.values s'))
  /\ (forall (i : PolicyFormSession.Input) (f : PolicyFormValues),
        form_endDate (PolicyFormSession.setValues i f) = form_endDate f)
  /\ (forall (S : Type)
             (h : forall A, storage.StorageCall A -> S -> Completion A * S)
             (userId : string) (body : gmap string JValue) (st : S)
             (p : InsertPolicy),
        In p (createCalls
                (trace h (policyController.createPolicy userId body) st)) ->
        Zod.coerceDate "startDate" (field body "startDate")
        = Normal (ip_startDate p)
        /\ Zod.coerceDate "endDate" (field body "endDate")
           = Normal (ip_endDate p)).
Proof.
  intros Htza Hy Hmo Hd Hn Hy' Hsession Hstart Hcov.
  assert (Heffect : forall f : PolicyFormValues,
            form_startDate f = Calendar.civil y mo d ->
            form_coverageMonths f = JsNumber.ofZ n ->
            EndDate.endDateEffect tza f
            = Normal (EndDate.setEndDate
                        (Calendar.civilOf (Calendar.addMonths y mo d n)) f))
    by (intros f Hs Hc; apply endDateEffect_calendar; assumption).
  split.
  { pose proof (session_settled _ _ _ _ Hsession) as Hset.
    rewrite (Heffect _ Hstart Hcov) in Hset. inversion Hset as [H1].
    rewrite <- H1 at 1. destruct (PolicyFormSession.values s); reflexivity. }
  split.
  { intros Hfit. unfold Calendar.addMonths.
    destruct (Z.leb_spec d
                (Calendar.DaysInMonth (y + (mo - 1 + n) / 12)
                   ((mo - 1 + n) mod 12 + 1)));
      [reflexivity|lia]. }
  split; [exact Heffect|].
  split; [exact session_settled|].
  split; [exact setValues_keeps_endDate|].
  intros S h userId body st p Hin.
  destruct (createPolicy_hands_over_body_fields h _ _ _ _ Hin)
    as [_ [Hsd [Hed _]]].
  split; assumption.
Qed.

(** In a browser one hour east of Greenwich: a new policy opened on
    2024-01-31, a landlord and a property chosen, the coverage set to one
    month; the end date is 2024-03-02, February 2024 having 29 days. *)
Lemma endDate_derived_in_form_taken_as_sent_by_server_witness :
  exists s : PolicyFormSession.State,
    PolicyFormSession.session 3600000 SampleForms.defaults SampleForms.inputs
    = Normal s
    /\ form_endDate (PolicyFormSession.values s) = "2024-03-02".
Proof.
  destruct (PolicyFormSession.session 3600000 SampleForms.defaults
              SampleForms.inputs) as [s|m] eqn:E;
    [|vm_compute in E; discriminate].
  exists s. split; [reflexivity|].
  exact (proj1 (endDate_derived_in_form_taken_as_sent_by_server
                  3600000 2024 1 31 1 SampleForms.defaults SampleForms.inputs
                  s
                  ltac:(unfold JsDate.msPerDay; lia) ltac:(lia) ltac:(lia)
                  ltac:(vm_compute; split; discriminate) ltac:(lia)
                  ltac:(vm_compute; discriminate) E
                  ltac:(vm_compute in E; inversion E; reflexivity)
                  ltac:(vm_compute in E; inversion E; reflexivity))).
Defined.

(* --------------------------------------------------------------------- *)
(** ** Reference checks on creation *)
(* --------------------------------------------------------------------- *)

(** With a reference that fails, the handler issues the three lookups
    and never [storage.createPolicy]. *)
Lemma createPolicy_invalid_reference_trace userId body st d msg :
  Server.insertPolicySchema (<["userId" := JStr userId]> body) = Normal d ->
  invalidReference userId d st = Some msg ->
  trace EntityStore.handle (policyController.createPolicy userId body) st
  = [issued (storage.getLandlord (ip_landlordId d));
     issued (storage.getProperty (ip_propertyId d));
     issued (storage.getTenant (ip_tenantId d))].
Proof.
  intros Hd. unfold policyController.createPolicy. rewrite Hd.
  unfold invalidReference, landlordOk, propertyOk, tenantOk. simpl.
  destruct (EntityStore.getLandlord (ip_landlordId d) st) as [l|]; simpl;
    [|reflexivity].
  destruct (String.eqb (landlord_userId l) userId); simpl; [|reflexivity].
  destruct (EntityStore.getProperty (ip_propertyId d) st) as [p|]; simpl;
    [|reflexivity].
  destruct (String.eqb (property_userId p) userId); simpl; [|reflexivity].
  destruct (EntityStore.getTenant (ip_tenantId d) st) as [t|]; simpl;
    [|reflexivity].
  destruct (String.eqb (tenant_userId t) userId); simpl; [|reflexivity].
  discriminate.
Qed.

(** C4. For every validated policy input whose landlord, property or
    tenant is missing or belongs to another user, [createPolicy] answers
    403 with the message naming the reference that failed (the first in
    the order landlord, property, tenant), never calls
    [storage.createPolicy] and leaves the store as it was: no policy is
    created. *)
Theorem createPolicy_invalid_reference
  (userId : string) (body : gmap string JValue) (st : Store) (d : InsertPolicy) :
  Server.insertPolicySchema (<["userId" := JStr userId]> body) = Normal d ->
  landlordOk userId d st && propertyOk userId d st && tenantOk userId d st
  = false ->
  exists msg,
    createPolicy userId body st = (mkResponse 403 false (Some msg) None, st)
    /\ trace EntityStore.handle (policyController.createPolicy userId body) st
       = [issued (storage.getLandlord (ip_landlordId d));
          issued (storage.getProperty (ip_propertyId d));
          issued (storage.getTenant (ip_tenantId d))]
    /\ (landlordOk userId d st = false -> msg = "Invalid landlord.")
    /\ (landlordOk userId d st = true -> propertyOk userId d st = false ->
        msg = "Invalid property.")
    /\ (landlordOk userId d st = true -> propertyOk userId d st = true ->
        msg = "Invalid tenant.").
Proof.
  intros Hd Hbad. rewrite (createPolicy_unfold _ _ _ _ Hd).
  destruct (invalidReference userId d st) as [msg|] eqn:Hinv.
  - exists msg. split; [reflexivity|].
    split; [exact (createPolicy_invalid_reference_trace _ _ _ _ _ Hd Hinv)|].
    revert Hinv. unfold invalidReference.
    destruct (landlordOk userId d st), (propertyOk userId d st),
      (tenantOk userId d st); simpl in *; try discriminate;
      intros Hinv; repeat split; intros; congruence.
  - exfalso. revert Hinv. unfold invalidReference.
    destruct (landlordOk userId d st), (propertyOk userId d st),
      (tenantOk userId d st); simpl in *; discriminate.
Qed.

(** User [u1] asks for a policy on tenant [t2], who belongs to [u2]. *)
Lemma createPolicy_invalid_reference_witness :
  exists msg,
    createPolicy "u1" Sample.body_foreign_tenant Sample.store0
    = (mkResponse 403 false (Some msg) None, Sample.store0)
    /\ msg = "Invalid tenant.".
Proof.
  destruct (createPolicy_invalid_reference "u1" Sample.body_foreign_tenant
              Sample.store0
              (mkInsertPolicy "u1" "l1" "p1" "t2" "active" 12 40 "accept"
                 1704067200000 1704239999000 459)
              ltac:(vm_compute; reflexivity) ltac:(vm_compute; reflexivity))
    as [msg [Hres [_ [_ [_ Htenant]]]]].
  exists msg. split; [exact Hres|].
  apply Htenant; vm_compute; reflexivity.
Defined.

(** Whatever the input, a failed reference never ends in a created
    policy: a malformed body is answered 400 before any lookup. *)
Lemma createPolicy_malformed_creates_nothing userId body st m :
  Server.insertPolicySchema (<["userId" := JStr userId]> body) = Throw m ->
  statusCode (fst (createPolicy userId body st)) = 400
  /\ snd (createPolicy userId body st) = st.
Proof.
  intros Hd. rewrite (createPolicy_malformed _ _ _ _ Hd). split; reflexivity.
Qed.

(* --------------------------------------------------------------------- *)
(** ** Deleting a policy *)
(* --------------------------------------------------------------------- *)

Lemma hasClaims_spec id st :
  EntityStore.hasClaims id st = true <->
  exists c, In c (claims st) /\ claim_policyId c = id.
Proof.
  unfold EntityStore.hasClaims. rewrite existsb_exists. split.
  - intros [c [Hin Heq]]. exists c. split; [exact Hin|].
    apply String.eqb_eq. exact Heq.
  - intros [c [Hin Heq]]. exists c. split; [exact Hin|].
    apply String.eqb_eq. exact Heq.
Qed.

Lemma deletePolicy_unfold userId id st :
  deletePolicy userId id st =
  match EntityStore.deletePolicy id userId st with
  | (Normal false, st') =>
      (mkResponse 404 false (Some "Policy not found or access denied.") None, st')
  | (Normal true, st') =>
      (mkResponse 200 true (Some "Policy deleted successfully.") None, st')
  | (Throw m, st') =>
      (if String_includes m "active claims"
       then mkResponse 409 false (Some m) None
       else mkResponse 500 false (Some "Failed to delete policy.") None, st')
  end.
Proof.
  unfold deletePolicy, policyController.deletePolicy. simpl.
  destruct (EntityStore.deletePolicy id userId st) as [[[|]|m] st']; simpl;
    try reflexivity.
  destruct (String_includes m "active claims"); reflexivity.
Qed.

(** C3. For a policy of the acting user: when some claim, of whatever
    status, references it, [deletePolicy] answers 409 with a message that
    contains "active claims" and the store (the policy and its claims) is
    as before; when no claim references it, [deletePolicy] answers 200 and
    the policy is gone, the claims untouched. *)
Theorem deletePolicy_conflict_or_success
  (userId id : string) (st : Store) (p : Policy) :
  List.find (EntityStore.ownedBy id userId) (policies st) = Some p ->
  ((exists c, In c (claims st) /\ claim_policyId c = id) ->
   exists msg,
     deletePolicy userId id st = (mkResponse 409 false (Some msg) None, st)
     /\ String_includes msg "active claims" = true)
  /\ ((forall c, In c (claims st) -> claim_policyId c <> id) ->
      exists st',
        deletePolicy userId id st
        = (mkResponse 200 true (Some "Policy deleted successfully.") None, st')
        /\ policies st'
           = List.filter (fun q => negb (EntityStore.ownedBy id userId q))
               (policies st)
        /\ ~ In p (policies st')
        /\ claims st' = claims st).
Proof.
  intros Hfind. rewrite deletePolicy_unfold. unfold EntityStore.deletePolicy.
  rewrite Hfind. split.
  - intros Hc. apply hasClaims_spec in Hc. rewrite Hc.
    eexists. split; reflexivity.
  - intros Hnone.
    assert (Hc : EntityStore.hasClaims id st = false).
    { destruct (EntityStore.hasClaims id st) eqn:E; [|reflexivity].
      apply hasClaims_spec in E. destruct E as [c [Hin Heq]].
      exfalso. exact (Hnone c Hin Heq). }
    rewrite Hc. eexists. split; [reflexivity|]. simpl. split; [reflexivity|].
    split; [|reflexivity].
    intros Hin. apply filter_In in Hin. destruct Hin as [_ Hneg].
    apply find_some in Hfind. destruct Hfind as [_ Hown].
    rewrite Hown in Hneg. discriminate.
Qed.

(** A policy with a rejected claim cannot be deleted; the same policy
    without claims can. *)
Lemma deletePolicy_conflict_or_success_witness :
  (exists msg,
     deletePolicy "u1" "policy-0" Sample.store1_claimed
     = (mkResponse 409 false (Some msg) None, Sample.store1_claimed)
     /\ String_includes msg "active claims" = true)
  /\ (exists st',
        deletePolicy "u1" "policy-0" Sample.store1
        = (mkResponse 200 true (Some "Policy deleted successfully.") None, st')
        /\ policies st' = []).
Proof.
  split.
  - apply (proj1 (deletePolicy_conflict_or_success "u1" "policy-0"
                    Sample.store1_claimed Sample.policy0 eq_refl)).
    eexists. split; [left; reflexivity|reflexivity].
  - destruct (proj2 (deletePolicy_conflict_or_success "u1" "policy-0"
                       Sample.store1 Sample.policy0 eq_refl)
                (fun c (H : In c []) => match H with end))
      as [st' [Hres [Hpol _]]].
    exists st'. split; [exact Hres|]. rewrite Hpol. reflexivity.
Defined.

(* --------------------------------------------------------------------- *)
(** ** The status of a policy *)
(* --------------------------------------------------------------------- *)

Lemma updatePolicyStatus_unfold userId id body st :
  updatePolicyStatus userId id body st =
  if includes ["active"; "expired"; "cancelled"] (field body "status") then
    match EntityStore.updatePolicy id userId (field body "status") st with
    | (Normal None, st') =>
        (mkResponse 404 false (Some "Policy not found or access denied.") None, st')
    | (Normal (Some updatedPolicy), st') =>
        (mkResponse 200 true None (Some updatedPolicy), st')
    | (Throw _, st') =>
        (mkResponse 500 false (Some "Failed to update policy.") None, st')
    end
  else (mkResponse 400 false (Some "Invalid status provided.") None, st).
Proof.
  unfold updatePolicyStatus, policyController.updatePolicyStatus.
  rewrite status_test_is_includes.
  destruct (includes _ _); simpl; [|reflexivity].
  destruct (EntityStore.updatePolicy id userId (field body "status") st)
    as [[[p|]|m] st']; reflexivity.
Qed.












Section NoConflict.
Context {S : Type}.
Variable h : forall A, storage.StorageCall A -> S -> Completion A * S.


End NoConflict.






(* --------------------------------------------------------------------- *)
(** ** One policy per tenant *)
(* --------------------------------------------------------------------- *)

Lemma tenantInsured_spec tenantId st :
  EntityStore.tenantInsured tenantId st = true
  <-> In tenantId (map policy_tenantId (policies st)).
Proof.
  unfold EntityStore.tenantInsured. rewrite existsb_exists, in_map_iff. split.
  - intros [p [Hin Heq]]. exists p. apply String.eqb_eq in Heq. split; assumption.
  - intros [p [Heq Hin]]. exists p. split; [exact Hin|].
    apply String.eqb_eq. exact Heq.
Qed.

Lemma NoDup_map_filter {A B} (f : A -> B) (g : A -> bool) (l : list A) :
  List.NoDup (map f l) -> List.NoDup (map f (List.filter g l)).
Proof.
  induction l as [|a l IH]; simpl; intros H; [constructor|].
  inversion H as [|x xs Hnin Hnd]; subst.
  destruct (g a); simpl; [|apply IH; exact Hnd].
  constructor; [|apply IH; exact Hnd].
  intros Hin. apply Hnin. apply in_map_iff in Hin.
  destruct Hin as [b [Hfb Hb]]. apply filter_In in Hb.
  apply in_map_iff. exists b. split; [exact Hfb|exact (proj1 Hb)].
Qed.

Lemma map_tenantId_setStatus (own : Policy -> bool) s l :
  map policy_tenantId
      (map (fun q => if own q then EntityStore.setStatus s q else q) l)
  = map policy_tenantId l.
Proof.
  induction l as [|q l IH]; simpl; [reflexivity|].
  rewrite IH. destruct (own q); reflexivity.
Qed.

Lemma createPolicy_tenantsUnique userId body st :
  tenantsUnique st -> tenantsUnique (snd (createPolicy userId body st)).
Proof.
  intros Hnd.
  destruct (Server.insertPolicySchema (<["userId" := JStr userId]> body))
    as [d|m] eqn:Hd.
  - rewrite (createPolicy_unfold _ _ _ _ Hd).
    destruct (invalidReference userId d st); [exact Hnd|].
    destruct (EntityStore_createPolicy_cases d st)
      as [[_ [m [-> _]]]|[Hfree [p [-> [Ht _]]]]]; [exact Hnd|].
    unfold tenantsUnique. simpl. rewrite map_app. simpl.
    apply List.NoDup_app; [exact Hnd|constructor; [intros []|constructor]|].
    intros x Hx [<-|[]]. rewrite Ht in Hx.
    apply tenantInsured_spec in Hx. congruence.
  - rewrite (createPolicy_malformed _ _ _ _ Hd). exact Hnd.
Qed.

Lemma updatePolicyStatus_tenantsUnique userId id body st :
  tenantsUnique st -> tenantsUnique (snd (updatePolicyStatus userId id body st)).
Proof.
  intros Hnd. rewrite updatePolicyStatus_unfold.
  destruct (includes _ _); [|exact Hnd].
  unfold EntityStore.updatePolicy.
  destruct (List.filter (EntityStore.ownedBy id userId) (policies st))
    as [|p rows]; [exact Hnd|].
  destruct (field body "status") as [| |b|x|s|]; try exact Hnd.
  unfold tenantsUnique. simpl. rewrite map_tenantId_setStatus. exact Hnd.
Qed.

Lemma deletePolicy_tenantsUnique userId id st :
  tenantsUnique st -> tenantsUnique (snd (deletePolicy userId id st)).
Proof.
  intros Hnd. rewrite deletePolicy_unfold. unfold EntityStore.deletePolicy.
  destruct (List.find _ _); [|exact Hnd].
  destruct (EntityStore.hasClaims id st).
  - simpl. exact Hnd.
  - unfold tenantsUnique. simpl. apply NoDup_map_filter. exact Hnd.
Qed.

Lemma createPolicy_insured_tenant_fails userId body st d :
  Server.insertPolicySchema (<["userId" := JStr userId]> body) = Normal d ->
  EntityStore.tenantInsured (ip_tenantId d) st = true ->
  success (fst (createPolicy userId body st)) = false
  /\ snd (createPolicy userId body st) = st.
Proof.
  intros Hd Hins. rewrite (createPolicy_unfold _ _ _ _ Hd).
  destruct (invalidReference userId d st); [split; reflexivity|].
  destruct (EntityStore_createPolicy_cases d st)
    as [[_ [m [-> _]]]|[Hfree _]]; [split; reflexivity|congruence].
Qed.

(** C9. When no two policies insure the same tenant, none do after any
    [createPolicy], [updatePolicyStatus] or [deletePolicy]; and
    [createPolicy] for a tenant that a policy already references fails and
    leaves the store as it was. *)
Theorem tenant_insured_at_most_once (st : Store) :
  tenantsUnique st ->
  (forall userId body, tenantsUnique (snd (createPolicy userId body st)))
  /\ (forall userId id body,
        tenantsUnique (snd (updatePolicyStatus userId id body st)))
  /\ (forall userId id, tenantsUnique (snd (deletePolicy userId id st)))
  /\ (forall userId body d,
        Server.insertPolicySchema (<["userId" := JStr userId]> body) = Normal d ->
        EntityStore.tenantInsured (ip_tenantId d) st = true ->
        success (fst (createPolicy userId body st)) = false
        /\ snd (createPolicy userId body st) = st).
Proof.
  intros Hnd.
  split; [intros; apply createPolicy_tenantsUnique; exact Hnd|].
  split; [intros; apply updatePolicyStatus_tenantsUnique; exact Hnd|].
  split; [intros; apply deletePolicy_tenantsUnique; exact Hnd|].
  intros userId body d. apply createPolicy_insured_tenant_fails.
Qed.

(** Tenant [t1] is insured by the one policy of the store; a second
    request for the same tenant fails and the store keeps its one policy. *)
Lemma tenant_insured_at_most_once_witness :
  tenantsUnique Sample.store1
  /\ success (fst (createPolicy "u1" Sample.body0 Sample.store1)) = false
  /\ snd (createPolicy "u1" Sample.body0 Sample.store1) = Sample.store1.
Proof.
  assert (H : tenantsUnique Sample.store1).
  { unfold tenantsUnique. simpl. constructor; [intros []|constructor]. }
  split; [exact H|].
  apply (proj2 (proj2 (proj2 (tenant_insured_at_most_once Sample.store1 H)))
           "u1" Sample.body0 Sample.data0).
  - vm_compute. reflexivity.
  - reflexivity.
Defined.

Example createPolicy_second_policy_for_tenant :
  createPolicy "u1" Sample.body0 Sample.store1
  = (mkResponse 400 false
       (Some "duplicate key value violates unique constraint policies_tenant_id_unique")
       None, Sample.store1).
Proof. vm_compute. reflexivity. Qed.

(* --------------------------------------------------------------------- *)
(** ** Schemas of the server and of the client *)
(* --------------------------------------------------------------------- *)

Lemma enumDefault_accepts values dflt path s :
  (exists r, Zod.enumDefault values dflt path (JStr s) = Normal r)
  <-> In s values.
Proof.
  simpl. destruct (existsb (String.eqb s) values) eqn:E.
  - split; [intros _|intros _; eexists; reflexivity].
    apply existsb_exists in E. destruct E as [x [Hin Heq]].
    apply String.eqb_eq in Heq. subst. exact Hin.
  - split; [intros [r H]; discriminate|].
    intros Hin. assert (existsb (String.eqb s) values = true).
    { apply existsb_exists. exists s. split; [exact Hin|apply String.eqb_refl]. }
    congruence.
Qed.

(** C7 on the code. The claim form and the client schema take the five
    statuses, [under_review] among them, with default [pending]; the
    server schema takes exactly pending, approved, rejected and paid, and
    refuses [under_review]. *)
Theorem server_claim_schema_refuses_under_review :
  (forall s,
     (exists r, Client.insertClaimSchema_status (JStr s) = Normal r)
     <-> In s ["pending"; "under_review"; "approved"; "rejected"; "paid"])
  /\ (forall s,
        (exists r, Server.insertClaimSchema_status (JStr s) = Normal r)
        <-> In s ["pending"; "approved"; "rejected"; "paid"])
  /\ Client.insertClaimSchema_status JUndefined = Normal "pending"
  /\ Server.insertClaimSchema_status JUndefined = Normal "pending"
  /\ Client.insertClaimSchema_status (JStr "under_review") = Normal "under_review"
  /\ Server.insertClaimSchema_status (JStr "under_review")
     = Throw "ZodError: status: invalid enum value".
Proof.
  split; [intros s; apply enumDefault_accepts|].
  split; [intros s; apply enumDefault_accepts|].
  repeat split; reflexivity.
Qed.

(** C8 on the code. [createPolicy] answers 201 for a body with a coverage
    of 0 months and a risk score of 150 and stores the policy with these
    values; the client schema refuses both. *)
Theorem createPolicy_accepts_out_of_range :
  createPolicy "u1" Sample.body_out_of_range Sample.store0
  = (mkResponse 201 true None (Some Sample.policy_out_of_range),
     mkStore (landlords Sample.store0) (properties Sample.store0)
       (tenants Sample.store0) [Sample.policy_out_of_range] [] 1)
  /\ policy_coverageMonths Sample.policy_out_of_range = 0%float
  /\ policy_riskScore Sample.policy_out_of_range = 150%float
  /\ Client.coverageMonths_ok 0 = false
  /\ Client.riskScore_ok 150 = false
  /\ Client.coverageMonths_ok 12 = true
  /\ Client.riskScore_ok 40 = true.
Proof. repeat split; vm_compute; reflexivity. Qed.

(** The server schema puts no bound on either field: whatever integer of
    the 32-bit range the coverage is and whatever number the risk score
    is, both reach the record unchanged. *)
Lemma insertPolicySchema_no_bounds o d :
  Server.insertPolicySchema o = Normal d ->
  Zod.integerColumn "coverageMonths" (field o "coverageMonths")
  = Normal (ip_coverageMonths d)
  /\ Zod.number "riskScore" (field o "riskScore") = Normal (ip_riskScore d).
Proof.
  intros Hd.
  destruct (insertPolicySchema_fields _ _ Hd)
    as [_ [_ [_ [_ [_ [Hc [Hr _]]]]]]].
  split; assumption.
Qed.

(* --------------------------------------------------------------------- *)
(** ** The read handlers on any storage *)
(* --------------------------------------------------------------------- *)

Section AnyReadStorage.
Context {S : Type}.
Variable h : forall A, storageRead.ReadCall A -> S -> Completion A * S.

(** X1. [getPoliciesForLandlord] lists policies, and answers 200, only
    after [storage.getLandlord] resolved to a landlord of the acting user;
    for a landlord that is missing or belongs to someone else it answers
    404 and asks storage for no list. *)
Theorem getPoliciesForLandlord_only_for_owner
  (userId landlordId : string) (st : S) :
  listsPolicies h (policyReads.getPoliciesForLandlord userId landlordId) st = true
  \/ replyCode
       (fst (runRead h (policyReads.getPoliciesForLandlord userId landlordId) st))
     = 200 ->
  exists l st',
    h _ (storageRead.getLandlord landlordId) st = (Normal (Some l), st')
    /\ landlord_userId l = userId.
Proof.
  simpl. destruct (h _ (storageRead.getLandlord landlordId) st)
    as [[[l|]|m] st'] eqn:E; simpl.
  - destruct (String.eqb_spec (landlord_userId l) userId) as [Hown|Hown]; simpl.
    + intros _. exists l, st'. split; [reflexivity|exact Hown].
    + intros [H|H]; discriminate.
  - intros [H|H]; discriminate.
  - intros [H|H]; discriminate.
Qed.

(** X2. [getPoliciesForTenant] lists policies, and answers 200, only after
    [storage.getTenant] resolved to a tenant of the acting user. *)
Theorem getPoliciesForTenant_only_for_owner
  (userId tenantId : string) (st : S) :
  listsPolicies h (policyReads.getPoliciesForTenant userId tenantId) st = true
  \/ replyCode
       (fst (runRead h (policyReads.getPoliciesForTenant userId tenantId) st))
     = 200 ->
  exists t st',
    h _ (storageRead.getTenant tenantId) st = (Normal (Some t), st')
    /\ tenant_userId t = userId.
Proof.
  simpl. destruct (h _ (storageRead.getTenant tenantId) st)
    as [[[t|]|m] st'] eqn:E; simpl.
  - destruct (String.eqb_spec (tenant_userId t) userId) as [Hown|Hown]; simpl.
    + intros _. exists t, st'. split; [reflexivity|exact Hown].
    + intros [H|H]; discriminate.
  - intros [H|H]; discriminate.
  - intros [H|H]; discriminate.
Qed.

(** X3. [generatePolicyDocument] and [getPolicyById] agree: the document
    handler streams the PDF of exactly the policy that the detail handler
    would answer with, under the file name of its policy number, and when
    it sends no PDF both answer with the same error code. *)
Theorem generatePolicyDocument_agrees_with_getPolicyById
  (userId id : string) (st : S) :
  match fst (runRead h (policyReads.generatePolicyDocument userId id) st) with
  | pdf contentType contentDisposition policyData =>
      fst (runRead h (policyReads.getPolicyById userId id) st)
      = json 200 true None (policyDetail policyData)
      /\ contentType = "application/pdf"
      /\ contentDisposition
         = "inline; filename=" +:+ policyReads.dquote +:+ "policy-"
           +:+ policy_policyNumber (detail_policy policyData)
           +:+ ".pdf" +:+ policyReads.dquote
  | json code ok _ payload =>
      (code = 404 \/ code = 500) /\ ok = false /\ payload = noData
      /\ replyCode (fst (runRead h (policyReads.getPolicyById userId id) st))
         = code
  end.
Proof.
  simpl. destruct (h _ (storageRead.getPolicyById id userId) st)
    as [[[d|]|m] st']; simpl.
  - repeat split; reflexivity.
  - split; [left; reflexivity|]. repeat split; reflexivity.
  - split; [right; reflexivity|]. repeat split; reflexivity.
Qed.

End AnyReadStorage.

(** User [u2] asks for the policies of landlord [l1], who belongs to
    [u1]: no list is fetched; [u1] gets the list. *)
Lemma getPoliciesForLandlord_only_for_owner_witness :
  (exists l st',
     SampleReads.handle _ (storageRead.getLandlord "l1") Sample.store1
     = (Normal (Some l), st')
     /\ landlord_userId l = "u1")
  /\ runRead SampleReads.handle
       (policyReads.getPoliciesForLandlord "u2" "l1") Sample.store1
     = (json 404 false (Some "Landlord not found or access denied.") noData,
        Sample.store1).
Proof.
  split; [|reflexivity].
  apply (getPoliciesForLandlord_only_for_owner SampleReads.handle "u1" "l1"
           Sample.store1).
  left. reflexivity.
Defined.

Lemma getPoliciesForTenant_only_for_owner_witness :
  exists t st',
    SampleReads.handle _ (storageRead.getTenant "t1") Sample.store1
    = (Normal (Some t), st')
    /\ tenant_userId t = "u1".
Proof.
  apply (getPoliciesForTenant_only_for_owner SampleReads.handle "u1" "t1"
           Sample.store1).
  right. reflexivity.
Defined.

(* --------------------------------------------------------------------- *)
(** ** What a request body can and cannot set *)
(* --------------------------------------------------------------------- *)

Lemma insertPolicySchema_reads_its_keys (o o' : gmap string JValue) :
  field o "userId" = field o' "userId" ->
  (forall key, In key policyBodyKeys -> field o key = field o' key) ->
  Server.insertPolicySchema o = Server.insertPolicySchema o'.
Proof.
  intros Hu Hk. unfold Server.insertPolicySchema. rewrite Hu.
  rewrite (Hk "landlordId"), (Hk "propertyId"), (Hk "tenantId"),
    (Hk "status"), (Hk "coverageMonths"), (Hk "riskScore"), (Hk "decision"),
    (Hk "startDate"), (Hk "endDate"), (Hk "premiumAmount");
    try reflexivity; unfold policyBodyKeys; simpl; tauto.
Qed.

(** X4. [createPolicy] takes the owner from the session and nothing but
    the ten policy fields from the body: a [userId], [id], [policyNumber]
    or any other key the body carries changes nothing of what the handler
    does. *)
Theorem createPolicy_ignores_other_keys
  (userId : string) (body : gmap string JValue) (k : string) (v : JValue) :
  ~ In k policyBodyKeys ->
  policyController.createPolicy userId (<[k := v]> body)
  = policyController.createPolicy userId body.
Proof.
  intros Hk. unfold policyController.createPolicy.
  rewrite (insertPolicySchema_reads_its_keys
             (<["userId" := JStr userId]> (<[k := v]> body))
             (<["userId" := JStr userId]> body)); [reflexivity| |].
  - unfold field. rewrite !lookup_insert_eq. reflexivity.
  - intros key Hin.
    assert (Hne : k <> key) by (intros ->; exact (Hk Hin)).
    assert (Hu : "userId" <> key).
    { intros <-. unfold policyBodyKeys in Hin. simpl in Hin.
      repeat (destruct Hin as [Hin|Hin]; [discriminate|]). exact Hin. }
    rewrite !(field_insert_ne _ "userId") by exact Hu.
    apply field_insert_ne. exact Hne.
Qed.

(** A body that names another user as owner is handled as the same body
    without it. *)
Lemma createPolicy_ignores_other_keys_witness :
  policyController.createPolicy "u1" (<["userId" := JStr "u2"]> Sample.body0)
  = policyController.createPolicy "u1" Sample.body0.
Proof.
  apply (createPolicy_ignores_other_keys "u1" Sample.body0 "userId" (JStr "u2")).
  unfold policyBodyKeys. simpl. intros H.
  repeat (destruct H as [H|H]; [discriminate|]). exact H.
Defined.

(** X15. [updatePolicyStatus] reads nothing of the body but its [status]:
    any other key the body carries, an owner or a premium say, changes
    nothing of what the handler does. *)
Theorem updatePolicyStatus_reads_status_only
  (userId id : string) (body : gmap string JValue) (k : string) (v : JValue) :
  k <> "status" ->
  policyController.updatePolicyStatus userId id (<[k := v]> body)
  = policyController.updatePolicyStatus userId id body.
Proof.
  intros Hk. unfold policyController.updatePolicyStatus.
  rewrite (field_insert_ne body k v "status" Hk). reflexivity.
Qed.

Section AnyStorageCreate.
Context {S : Type}.
Variable h : forall A, storage.StorageCall A -> S -> Completion A * S.

(** X5. Whatever the storage does, every policy [createPolicy] hands to
    [storage.createPolicy] is the parsed body with the session's user as
    owner, and it is handed over only after the landlord, the property
    and the tenant it names were each resolved to a record of that user. *)
Theorem createPolicy_creates_only_for_owner
  (userId : string) (body : gmap string JValue) (st : S) (d : InsertPolicy) :
  In d (createCalls (trace h (policyController.createPolicy userId body) st)) ->
  Server.insertPolicySchema (<["userId" := JStr userId]> body) = Normal d
  /\ ip_userId d = userId
  /\ let '(r1, s1) := h _ (storage.getLandlord (ip_landlordId d)) st in
     let '(r2, s2) := h _ (storage.getProperty (ip_propertyId d)) s1 in
     let '(r3, _) := h _ (storage.getTenant (ip_tenantId d)) s2 in
     resolvedOwned landlord_userId userId r1
     /\ resolvedOwned property_userId userId r2
     /\ resolvedOwned tenant_userId userId r3.
Proof.
  unfold policyController.createPolicy.
  destruct (Server.insertPolicySchema (<["userId" := JStr userId]> body))
    as [d0|m] eqn:Hd; [|intros []].
  simpl.
  destruct (h _ (storage.getLandlord (ip_landlordId d0)) st) as [r1 s1] eqn:E1.
  destruct (h _ (storage.getProperty (ip_propertyId d0)) s1) as [r2 s2] eqn:E2.
  destruct (h _ (storage.getTenant (ip_tenantId d0)) s2) as [r3 s3] eqn:E3.
  simpl.
  destruct r1 as [[l|]|m1], r2 as [[p|]|m2], r3 as [[t|]|m3]; simpl;
    repeat match goal with
           | |- context [String.eqb ?a ?b] =>
               destruct (String.eqb_spec a b); simpl
           end;
    try (intros []).
  destruct (h _ (storage.createPolicy d0) s3) as [[np|m] s4]; simpl;
    (intros [<-|[]]; split; [reflexivity|]; split;
     [|rewrite E1, E2, E3; repeat split; eexists; split; eauto]).
  all: destruct (insertPolicySchema_fields _ _ Hd) as [Hu _];
    unfold field in Hu; rewrite lookup_insert_eq in Hu; simpl in Hu;
    congruence.
Qed.

End AnyStorageCreate.

Lemma createPolicy_creates_only_for_owner_witness :
  ip_userId Sample.data0 = "u1"
  /\ createCalls (trace EntityStore.handle
                    (policyController.createPolicy "u1" Sample.body0)
                    Sample.store0) = [Sample.data0].
Proof.
  split; [|vm_compute; reflexivity].
  apply (createPolicy_creates_only_for_owner EntityStore.handle "u1"
           Sample.body0 Sample.store0 Sample.data0).
  vm_compute. left. reflexivity.
Defined.

(* --------------------------------------------------------------------- *)
(** ** Dates between the form, the server and the pages *)
(* --------------------------------------------------------------------- *)

Section DateTripFacts.
Import JsDate Calendar.

Lemma DayWithinYear_bounds t :
  0 <= DayWithinYear t < 365 + InLeapYear t /\ 0 <= InLeapYear t <= 1.
Proof.
  unfold DayWithinYear, InLeapYear, YearFromTime.
  pose proof (YearFromDay_spec (Day t)) as H.
  rewrite DayFromYear_succ in H.
  destruct (DaysInYear_cases (YearFromDay (Day t))) as [E Hl].
  rewrite E in H. lia.
Qed.

Lemma MonthFromTime_bounds t : 0 <= MonthFromTime t <= 11.
Proof. unfold MonthFromTime, monthOfDay. ztests; lia. Qed.

Lemma DateFromTime_bounds t : 1 <= DateFromTime t <= 31.
Proof.
  destruct (DayWithinYear_bounds t) as [Hd Hl].
  unfold DateFromTime, MonthFromTime, monthOfDay, firstDayOfMonth.
  revert Hd Hl. generalize (DayWithinYear t) (InLeapYear t). intros dwy l Hd Hl.
  ztests; lia.
Qed.

(** A time value is the date of its three calendar fields plus its time
    within the day. *)
Lemma MakeDate_fields t :
  MakeDate (MakeDay (YearFromTime t) (MonthFromTime t) (DateFromTime t))
           (TimeWithinDay t) = t.
Proof.
  pose proof (MonthFromTime_bounds t) as Hm.
  rewrite MakeDay_normal.
  replace (MonthFromTime t / 12) with 0 by (symmetry; apply Z.div_small; lia).
  replace (MonthFromTime t mod 12) with (MonthFromTime t)
    by (symmetry; apply Z.mod_small; lia).
  replace (YearFromTime t + 0) with (YearFromTime t) by lia.
  unfold DateFromTime, DayWithinYear, InLeapYear.
  unfold MakeDate, TimeWithinDay, Day, msPerDay. zdiv.
Qed.

Lemma year_range_clips t :
  0 <= YearFromTime t <= 9999 -> TimeClip t = Some t.
Proof.
  intros Hy. unfold TimeClip.
  destruct (Z.leb_spec (Z.abs t) 8640000000000000) as [H|H]; [reflexivity|].
  exfalso. pose proof (YearFromDay_spec (Day t)) as Hs.
  fold (YearFromTime t) in Hs.
  assert (H0 : DayFromYear 0 <= DayFromYear (YearFromTime t)).
  { destruct (Z.eq_dec 0 (YearFromTime t)) as [<-|Hne]; [lia|].
    pose proof (DayFromYear_mono 0 (YearFromTime t) ltac:(lia)). lia. }
  assert (H1 : DayFromYear (YearFromTime t + 1) <= DayFromYear 10000).
  { destruct (Z.eq_dec (YearFromTime t + 1) 10000) as [->|Hne]; [lia|].
    pose proof (DayFromYear_mono (YearFromTime t + 1) 10000 ltac:(lia)). lia. }
  assert (E0 : DayFromYear 0 = -719528) by reflexivity.
  assert (E1 : DayFromYear 10000 = 2932897) by reflexivity.
  revert H Hs. unfold Day, msPerDay. intros H Hs. zdiv.
Qed.

Lemma digits_append w n rest s :
  digits w n rest +:+ s = digits w n (rest +:+ s).
Proof.
  revert n rest. induction w as [|w IH]; intros n rest; [reflexivity|].
  cbn [digits]. rewrite IH. reflexivity.
Qed.

Lemma number3 n :
  0 <= n <= 999 ->
  number [digitChar (n / 10 / 10); digitChar (n / 10); digitChar n] 0 = Some n.
Proof.
  intros H. cbn [number]. rewrite !digitVal_digitChar. f_equal. zdiv.
Qed.

Lemma parseTime_isoTime t :
  parseTime (list_ascii_of_string (String "T" (isoTime t)))
  = Some (TimeWithinDay t).
Proof.
  unfold isoTime.
  pose proof (Z.mod_pos_bound t msPerDay ltac:(unfold msPerDay; lia)) as Hb.
  fold (TimeWithinDay t) in Hb. unfold msPerDay in Hb.
  set (ms := TimeWithinDay t) in *.
  cbn [digits list_ascii_of_string parseTime parseZone].
  rewrite !Ascii.eqb_refl. cbn [andb].
  rewrite (number2 (ms / 3600000)) by zdiv.
  rewrite (number2 (ms / 60000 mod 60)) by zdiv.
  rewrite (number2 (ms / 1000 mod 60)) by zdiv.
  rewrite (number3 (ms mod 1000)) by zdiv.
  unfold timeOfDay.
  destruct (Z.leb_spec (ms / 3600000) 23); [|zdiv].
  destruct (Z.leb_spec (ms / 60000 mod 60) 59); [|zdiv].
  destruct (Z.leb_spec (ms / 1000 mod 60) 59); [|zdiv].
  cbn [andb orb zoned]. f_equal. zdiv.
Qed.

(** What [toISOString] writes, [new Date] reads back. *)
Lemma parse_toISOString t :
  0 <= YearFromTime t <= 9999 ->
  ofString (isoDate t (String "T" (isoTime t))) = Some t.
Proof.
  intros Hy. unfold ofString.
  assert (Hp : parse (isoDate t (String "T" (isoTime t))) = Some t).
  { pose proof (MonthFromTime_bounds t) as Hm.
    pose proof (DateFromTime_bounds t) as Hd.
    pose proof (parseTime_isoTime t) as Ht.
    unfold parse, isoDate, yearString.
    destruct (Z.leb_spec 0 (YearFromTime t)); [|lia].
    destruct (Z.leb_spec (YearFromTime t) 9999); [|lia]. cbn [andb].
    cbn [digits list_ascii_of_string]. rewrite !Ascii.eqb_refl. cbn [andb].
    rewrite (number4 _ Hy), (number2 (MonthFromTime t + 1) ltac:(lia)),
      (number2 (DateFromTime t) ltac:(lia)).
    destruct (Z.leb_spec 1 (MonthFromTime t + 1)); [|lia].
    destruct (Z.leb_spec (MonthFromTime t + 1) 12); [|lia].
    destruct (Z.leb_spec 1 (DateFromTime t)); [|lia].
    destruct (Z.leb_spec (DateFromTime t) 31); [|lia]. cbn [andb].
    cbn [list_ascii_of_string] in Ht. rewrite Ht.
    replace (MonthFromTime t + 1 - 1) with (MonthFromTime t) by lia.
    rewrite MakeDate_fields. reflexivity. }
  rewrite Hp. apply year_range_clips. exact Hy.
Qed.

End DateTripFacts.

Section DateTripTheorems.
Import JsDate Calendar.

Lemma append_String c a b : String c a +:+ b = String c (a +:+ b).
Proof. reflexivity. Qed.

Lemma ofString_civil_time y mo d suffix tod :
  0 <= y <= 9999 -> 1 <= mo <= 12 -> 1 <= d <= 31 ->
  suffix <> EmptyString ->
  parseTime (list_ascii_of_string suffix) = Some tod ->
  0 <= tod < msPerDay ->
  ofString (civil y mo d +:+ suffix)
  = Some (MakeDate (MakeDay y (mo - 1) d) tod).
Proof.
  intros Hy Hmo Hd Hne Hpt Htod. unfold ofString, civil.
  rewrite digits_append, append_String, digits_append, append_String,
    digits_append.
  change (EmptyString +:+ suffix) with suffix.
  assert (Hp : parse (digits 4 y (String "-" (digits 2 mo
                  (String "-" (digits 2 d suffix)))))
               = Some (MakeDate (MakeDay y (mo - 1) d) tod)).
  { unfold parse. cbn [digits list_ascii_of_string].
    rewrite !Ascii.eqb_refl. cbn [andb].
    rewrite (number4 y Hy), (number2 mo ltac:(lia)), (number2 d ltac:(lia)).
    destruct (Z.leb_spec 1 mo); [|lia]. destruct (Z.leb_spec mo 12); [|lia].
    destruct (Z.leb_spec 1 d); [|lia]. destruct (Z.leb_spec d 31); [|lia].
    cbn [andb]. rewrite Hpt.
    destruct suffix as [|c suffix']; [congruence|]. reflexivity. }
  rewrite Hp. apply year_range_clips. rewrite MakeDay_normal.
  replace ((mo - 1) / 12) with 0 by (symmetry; apply Z.div_small; lia).
  replace ((mo - 1) mod 12) with (mo - 1) by (symmetry; apply Z.mod_small; lia).
  replace (y + 0) with y by lia.
  destruct (fields_of_time y (mo - 1) d tod ltac:(lia) Hd Htod) as [-> _].
  exact Hy.
Qed.

Lemma formDate_toJSON t :
  0 <= YearFromTime t <= 9999 ->
  exists s,
    DateTrip.toJSON t = Some s
    /\ ofString s = Some t
    /\ DateTrip.formDate s
       = Some (civil (YearFromTime t) (MonthFromTime t + 1) (DateFromTime t)).
Proof.
  intros Hy. exists (isoDate t (String "T" (isoTime t))).
  split; [reflexivity|]. split; [apply parse_toISOString; exact Hy|].
  unfold DateTrip.formDate. rewrite (parse_toISOString t Hy).
  unfold toISOString. rewrite (beforeT_isoDate t _ Hy), (isoDate_civil t Hy).
  reflexivity.
Qed.

Lemma thereAndBack_civil y mo d suffix tod :
  0 <= y <= 9999 -> 1 <= mo <= 12 -> 1 <= d <= DaysInMonth y mo ->
  suffix <> EmptyString ->
  parseTime (list_ascii_of_string suffix) = Some tod ->
  0 <= tod < msPerDay ->
  DateTrip.thereAndBack (civil y mo d +:+ suffix) = Some (civil y mo d).
Proof.
  intros Hy Hmo Hd Hne Hpt Htod.
  assert (Hd31 : 1 <= d <= 31).
  { revert Hd. unfold DaysInMonth. destruct (DaysInYear_cases y) as [_ Hl].
    ztests; simpl; lia. }
  unfold DateTrip.thereAndBack, Zod.coerceDate.
  rewrite (ofString_civil_time y mo d suffix tod Hy Hmo Hd31 Hne Hpt Htod).
  rewrite MakeDay_normal.
  replace ((mo - 1) / 12) with 0 by (symmetry; apply Z.div_small; lia).
  replace ((mo - 1) mod 12) with (mo - 1) by (symmetry; apply Z.mod_small; lia).
  replace (y + 0) with y by lia.
  destruct (fields_of_time y (mo - 1) d tod ltac:(lia) Hd31 Htod)
    as [HY [_ [Hfit _]]].
  replace (mo - 1 + 1) with mo in Hfit by lia.
  destruct (Hfit (proj2 Hd)) as [HM HD].
  set (t := MakeDate (DayFromYear y + firstDayOfMonth (leapOfYear y) (mo - 1)
                      + d - 1) tod) in *.
  destruct (formDate_toJSON t ltac:(rewrite HY; exact Hy)) as [s [-> [_ ->]]].
  rewrite HY, HM, HD. replace (mo - 1 + 1) with mo by lia. reflexivity.
Qed.

(** X6. A calendar date of the policy form or the tenant form survives
    the trip to the server and back: sent as midnight UTC (start and lease
    dates) or as 23:59:59 UTC (end date), coerced to a Date by the server
    schema, serialised in a reply and cut back to its date part by the
    page that opens the edit dialog, it is the date that was entered,
    whatever the time zone of the browser. *)
Theorem form_dates_survive_the_round_trip
  (y mo d : Z) (f : PolicyFormValues) :
  0 <= y <= 9999 -> 1 <= mo <= 12 -> 1 <= d <= DaysInMonth y mo ->
  (form_startDate f = civil y mo d ->
   DateTrip.thereAndBack (EndDate.submitStartDate f) = Some (form_startDate f))
  /\ (form_endDate f = civil y mo d ->
      DateTrip.thereAndBack (EndDate.submitEndDate f) = Some (form_endDate f))
  /\ DateTrip.thereAndBack (DateTrip.submitLeaseDate (civil y mo d))
     = Some (civil y mo d).
Proof.
  intros Hy Hmo Hd.
  unfold EndDate.submitStartDate, EndDate.submitEndDate,
    DateTrip.submitLeaseDate.
  split; [|split].
  - intros ->.
    apply (thereAndBack_civil y mo d _ 0 Hy Hmo Hd); [discriminate|reflexivity|].
    unfold msPerDay. lia.
  - intros ->.
    apply (thereAndBack_civil y mo d _ 86399000 Hy Hmo Hd);
      [discriminate|reflexivity|]. unfold msPerDay. lia.
  - apply (thereAndBack_civil y mo d _ 0 Hy Hmo Hd); [discriminate|reflexivity|].
    unfold msPerDay. lia.
Qed.

(** X7. A stored instant of a year 0 to 9999 survives JSON: the string a
    reply carries for it parses back to the same instant, on the client
    with [new Date] and on the server with [z.coerce.date()], and the date
    a form shows for it is the UTC calendar date of the instant. *)
Theorem stored_dates_survive_json
  (t : Z) :
  0 <= YearFromTime t <= 9999 ->
  exists s,
    DateTrip.toJSON t = Some s
    /\ ofString s = Some t
    /\ Zod.coerceDate "date" (JStr s) = Normal t
    /\ DateTrip.formDate s
       = Some (civil (YearFromTime t) (MonthFromTime t + 1) (DateFromTime t)).
Proof.
  intros Hy. destruct (formDate_toJSON t Hy) as [s [H1 [H2 H3]]].
  exists s. repeat split; try assumption.
  unfold Zod.coerceDate. rewrite H2. reflexivity.
Qed.

(** One month further on a fixed day number is 28 to 31 days further,
    also across the end of a year. *)
Lemma MakeDay_next_month y i d :
  28 <= MakeDay y (i + 1) d - MakeDay y i d <= 31.
Proof.
  rewrite !MakeDay_normal.
  destruct (Z.eq_dec (i mod 12) 11) as [E|E].
  - replace ((i + 1) / 12) with (i / 12 + 1) by zdiv.
    replace ((i + 1) mod 12) with 0 by zdiv. rewrite E.
    replace (y + (i / 12 + 1)) with (y + i / 12 + 1) by lia.
    rewrite DayFromYear_succ.
    destruct (DaysInYear_cases (y + i / 12)) as [-> Hl].
    destruct (DaysInYear_cases (y + i / 12 + 1)) as [_ Hl'].
    unfold firstDayOfMonth. simpl. lia.
  - replace ((i + 1) / 12) with (i / 12) by zdiv.
    replace ((i + 1) mod 12) with (i mod 12 + 1) by zdiv.
    pose proof (Z.mod_pos_bound i 12 ltac:(lia)) as Hb.
    destruct (DaysInYear_cases (y + i / 12)) as [_ Hl].
    revert E Hb Hl. generalize (i mod 12) (leapOfYear (y + i / 12)).
    intros mn l E Hb Hl. unfold firstDayOfMonth. ztests; lia.
Qed.

Lemma MakeDay_months y i d n :
  0 <= n ->
  28 * n <= MakeDay y (i + n) d - MakeDay y i d <= 31 * n.
Proof.
  intros Hn. pattern n. apply natlike_ind; [| |exact Hn].
  - replace (i + 0) with i by lia. lia.
  - intros k Hk IH.
    pose proof (MakeDay_next_month y (i + k) d) as Hstep.
    replace (i + Z.succ k) with (i + k + 1) by lia. lia.
Qed.

Lemma ofString_addMonths y mo d n :
  0 <= y -> 1 <= mo <= 12 -> 1 <= d <= DaysInMonth y mo ->
  1 <= n -> y + (mo - 1 + n) / 12 <= 9999 ->
  ofString (civilOf (addMonths y mo d n))
  = Some (MakeDate (MakeDay y (mo - 1 + n) d) 0).
Proof.
  intros Hy Hmo Hd Hn Hy'.
  assert (Hd31 : 1 <= d <= 31).
  { revert Hd. unfold DaysInMonth. destruct (DaysInYear_cases y) as [_ Hl].
    ztests; simpl; lia. }
  set (i := mo - 1 + n) in *.
  assert (Hi12 : 0 <= i mod 12 <= 11) by (pose proof (Z.mod_pos_bound i 12); lia).
  assert (Hiy : 0 <= y + i / 12 <= 9999).
  { split; [|exact Hy']. assert (0 <= i / 12) by (apply Z.div_pos; lia). lia. }
  unfold addMonths. fold i. rewrite MakeDay_normal.
  set (y1 := y + i / 12) in *. set (mn := i mod 12) in *.
  destruct (DaysInYear_cases y1) as [_ Hl].
  destruct (Z.leb_spec d (DaysInMonth y1 (mn + 1))) as [Hle|Hgt];
    unfold civilOf, ofString.
  - rewrite (parse_civil y1 (mn + 1) d Hiy ltac:(lia) Hd31), MakeDay_normal.
    replace (mn + 1 - 1) with mn by lia.
    replace (mn / 12) with 0 by (symmetry; apply Z.div_small; lia).
    replace (mn mod 12) with mn by (symmetry; apply Z.mod_small; lia).
    replace (y1 + 0) with y1 by lia.
    apply (TimeClip_day y1 mn d Hiy Hi12 Hd31).
  - assert (Hmn : mn <= 10).
    { destruct (Z.eq_dec mn 11) as [E|E]; [|lia].
      exfalso. revert Hgt. rewrite E. unfold DaysInMonth. simpl. lia. }
    assert (Hdim : 28 <= DaysInMonth y1 (mn + 1) <= 31).
    { unfold DaysInMonth. ztests; simpl; lia. }
    rewrite (parse_civil y1 (mn + 1 + 1) (d - DaysInMonth y1 (mn + 1)) Hiy
               ltac:(lia) ltac:(lia)), MakeDay_normal.
    replace (mn + 1 + 1 - 1) with (mn + 1) by lia.
    replace ((mn + 1) / 12) with 0 by (symmetry; apply Z.div_small; lia).
    replace ((mn + 1) mod 12) with (mn + 1) by (symmetry; apply Z.mod_small; lia).
    replace (y1 + 0) with y1 by lia.
    assert (Hfd : firstDayOfMonth (leapOfYear y1) (mn + 1)
                  = firstDayOfMonth (leapOfYear y1) mn + DaysInMonth y1 (mn + 1)).
    { unfold DaysInMonth. revert Hl Hi12 Hmn.
      generalize (leapOfYear y1) mn. intros l m Hl Hm Hm'.
      unfold firstDayOfMonth. ztests; simpl; lia. }
    rewrite Hfd.
    replace (DayFromYear y1
             + (firstDayOfMonth (leapOfYear y1) mn + DaysInMonth y1 (mn + 1))
             + (d - DaysInMonth y1 (mn + 1)) - 1)
      with (DayFromYear y1 + firstDayOfMonth (leapOfYear y1) mn + d - 1) by lia.
    apply (TimeClip_day y1 mn d Hiy Hi12 Hd31).
Qed.

(** X8. East of Greenwich or on it, for a start date of the calendar and
    one or more months of coverage with the end no later than year 9999,
    the end date the policy form derives is a date string, and between the
    start and the end as the server reads them lie at least 28 and at most
    31 days for every month of coverage. *)
Theorem coverage_lasts_28_to_31_days_a_month (tza y mo d n : Z) :
  0 <= tza < msPerDay ->
  0 <= y -> 1 <= mo <= 12 -> 1 <= d <= DaysInMonth y mo ->
  1 <= n -> y + (mo - 1 + n) / 12 <= 9999 ->
  exists endDate t0 t1,
    EndDate.computeEndDate tza (civil y mo d) (JsNumber.ofZ n) = Some endDate
    /\ ofString (civil y mo d) = Some t0
    /\ ofString endDate = Some t1
    /\ 28 * n * msPerDay <= t1 - t0 <= 31 * n * msPerDay.
Proof.
  intros Htza Hy Hmo Hd Hn Hy'.
  assert (Hd31 : 1 <= d <= 31).
  { revert Hd. unfold DaysInMonth. destruct (DaysInYear_cases y) as [_ Hl].
    ztests; simpl; lia. }
  assert (Hy9 : 0 <= y <= 9999).
  { split; [exact Hy|].
    assert (0 <= (mo - 1 + n) / 12) by (apply Z.div_pos; lia). lia. }
  exists (civilOf (addMonths y mo d n)),
    (MakeDate (MakeDay y (mo - 1) d) 0),
    (MakeDate (MakeDay y (mo - 1 + n) d) 0).
  split; [apply computeEndDate_calendar; try assumption; lia|].
  split.
  { unfold ofString. rewrite (parse_civil y mo d Hy9 Hmo Hd31), MakeDay_normal.
    replace ((mo - 1) / 12) with 0 by (symmetry; apply Z.div_small; lia).
    replace ((mo - 1) mod 12) with (mo - 1) by (symmetry; apply Z.mod_small; lia).
    replace (y + 0) with y by lia.
    apply (TimeClip_day y (mo - 1) d Hy9 ltac:(lia) Hd31). }
  split; [apply ofString_addMonths; try assumption; lia|].
  pose proof (MakeDay_months y (mo - 1) d n ltac:(lia)) as Hm.
  unfold MakeDate, msPerDay. lia.
Qed.

End DateTripTheorems.

(* --------------------------------------------------------------------- *)
(** ** The two effects of the policy form together *)
(* --------------------------------------------------------------------- *)

(** X9. The two effects of the policy form do not disturb each other:
    the premium effect run twice writes what it wrote the first time, the
    end-date effect gives the same form whether it runs before or after
    the premium effect, and run again on its own result it changes
    nothing, so the derived fields are settled after one pass in either
    order. *)
Theorem derived_fields_settle_in_any_order
  (properties : list Property) (tza : Z) (f : PolicyFormValues) :
  PolicyForm.premiumEffect properties (PolicyForm.premiumEffect properties f)
  = PolicyForm.premiumEffect properties f
  /\ EndDate.endDateEffect tza (PolicyForm.premiumEffect properties f)
     = match EndDate.endDateEffect tza f with
       | Normal f' => Normal (PolicyForm.premiumEffect properties f')
       | Throw m => Throw m
       end
  /\ match EndDate.endDateEffect tza f with
     | Normal f' => EndDate.endDateEffect tza f' = Normal f'
     | Throw _ => True
     end.
Proof.
  destruct f as [l p t st cm rs dc sd ed pa].
  unfold PolicyForm.premiumEffect, EndDate.endDateEffect,
    PolicyForm.setPremiumAmount, EndDate.setEndDate; cbn -[String.eqb].
  destruct (String.eqb p "") eqn:Ep, (JsNumber.truthy cm) eqn:Ecm,
    (String.eqb sd "") eqn:Esd; cbn -[String.eqb];
    rewrite ?Ep, ?Ecm, ?Esd; cbn -[String.eqb];
    try destruct (List.find _ properties) as [q|] eqn:F;
    cbn -[String.eqb]; rewrite ?Ep, ?Ecm, ?Esd, ?F; cbn -[String.eqb];
    try destruct (EndDate.computeEndDate tza sd cm) as [e|] eqn:C;
    cbn -[String.eqb]; rewrite ?Ep, ?Ecm, ?Esd, ?F, ?C; cbn -[String.eqb];
    rewrite ?Ep, ?Ecm, ?Esd, ?F, ?C; auto.
Qed.

(* --------------------------------------------------------------------- *)
(** ** A premium too small to submit *)
(* --------------------------------------------------------------------- *)

Lemma digits2_pos_bound (m : positive) : Z.pos m < 2 ^ Z.pos (digits2_pos m).
Proof.
  induction m as [m IH|m IH|]; cbn [digits2_pos].
  - rewrite Pos2Z.inj_succ, Z.pow_succ_r by lia. lia.
  - rewrite Pos2Z.inj_succ, Z.pow_succ_r by lia. lia.
  - reflexivity.
Qed.

(** A valid binary64 mantissa is below [2^53]. *)
Lemma valid_mantissa_bound s m e :
  valid_binary (S754_finite s m e) = true -> Z.pos m < 2 ^ 53.
Proof.
  unfold valid_binary, bounded, canonical_mantissa, fexp, SpecFloat.emin.
  intros H. apply andb_true_iff in H. destruct H as [H _].
  apply Z.eqb_eq in H. pose proof (digits2_pos_bound m) as Hb.
  assert (Hd : Z.pos (digits2_pos m) <= 53) by (unfold prec in H; lia).
  assert (2 ^ Z.pos (digits2_pos m) <= 2 ^ 53)
    by (apply Z.pow_le_mono_r; lia).
  lia.
Qed.

Lemma roundHalfUp_small m e :
  e < 0 -> 2 * Z.pos m < 2 ^ (- e) -> JsNumber.roundHalfUp false m e = 0.
Proof.
  intros He Hm. unfold JsNumber.roundHalfUp. apply Z.div_small. lia.
Qed.

(** [a < b] on two positive finite values, read on exponent and
    mantissa. *)
Lemma SFltb_finite_pos (m : positive) (e : Z) (m' : positive) (e' : Z) :
  SFltb (S754_finite false m e) (S754_finite false m' e') = true ->
  e < e' \/ (e = e' /\ (m < m')%positive).
Proof.
  unfold SFltb, SFcompare.
  change (PosDef.Pos.compare_cont Eq m m') with (Pos.compare m m').
  destruct (Z.compare_spec e e') as [He|He|He]; [|left; lia|discriminate].
  destruct (Pos.compare_spec m m') as [Hm|Hm|Hm]; try discriminate.
  intros _. right. split; assumption.
Qed.

Lemma SFleb_zero_negative (m : positive) (e : Z) :
  SFleb (S754_zero false) (S754_finite true m e) = false.
Proof. reflexivity. Qed.

Lemma Math_round_below_half (p : float) :
  (0 <=? p)%float = true -> (p <? 0.5)%float = true ->
  (JsNumber.Math_round p =? 0)%float = true.
Proof.
  rewrite FloatAxioms.leb_spec, FloatAxioms.ltb_spec, FloatAxioms.eqb_spec.
  replace (Prim2SF 0) with (S754_zero false) by reflexivity.
  replace (Prim2SF 0.5) with (S754_finite false 4503599627370496 (-53))
    by (vm_compute; reflexivity).
  unfold JsNumber.Math_round. pose proof (Prim2SF_valid p) as Hv.
  destruct (Prim2SF p) as [s|s| |s m e] eqn:E; intros H0 H1.
  - rewrite E. destruct s; reflexivity.
  - destruct s; discriminate.
  - discriminate.
  - destruct s; [rewrite SFleb_zero_negative in H0; discriminate|].
    pose proof (valid_mantissa_bound _ _ _ Hv) as Hm.
    apply SFltb_finite_pos in H1.
    assert (He : e < 0 /\ 2 * Z.pos m < 2 ^ (- e)).
    { destruct H1 as [H1|[-> H1]].
      - split; [lia|].
        assert (H : 2 ^ 54 <= 2 ^ (- e)) by (apply Z.pow_le_mono_r; lia).
        change (2 ^ 53) with 9007199254740992 in Hm.
        change (2 ^ 54) with 18014398509481984 in H. lia.
      - split; [reflexivity|].
        change (Z.pos (2 * m) < Z.pos (2 * 4503599627370496)).
        apply Pos2Z.pos_lt_pos, Pos.mul_lt_mono_l. exact H1. }
    destruct He as [He Hsmall].
    destruct (Z.leb_spec 0 e) as [H|H]; [exfalso; clear - He H; lia|].
    rewrite (roundHalfUp_small m e He Hsmall). reflexivity.
Qed.

(** X10. A premium that computes to less than one half is written to the
    form as zero, and the form's own schema ([premiumAmount] must be
    positive) then refuses the submission: a rent low enough cannot be
    insured through the form. *)
Theorem small_premium_is_stored_as_zero_and_refused (r m s : float) :
  (0 <=? PolicyForm.premium r m s)%float = true ->
  (PolicyForm.premium r m s <? 0.5)%float = true ->
  (PolicyForm.premiumAmount r m s =? 0)%float = true
  /\ ClientPolicy.premiumAmount_ok (PolicyForm.premiumAmount r m s) = false.
Proof.
  intros H0 H1. pose proof (Math_round_below_half _ H0 H1) as Hz.
  split; [exact Hz|]. unfold ClientPolicy.premiumAmount_ok.
  apply andb_false_iff. right. fold (PolicyForm.premiumAmount r m s) in Hz.
  revert Hz. rewrite FloatAxioms.eqb_spec, FloatAxioms.ltb_spec.
  replace (Prim2SF 0) with (S754_zero false) by reflexivity.
  destruct (Prim2SF (PolicyForm.premiumAmount r m s)) as [sg|sg| |sg mt e];
    cbv [SFeqb SFltb SFcompare]; try discriminate; try reflexivity.
  - destruct sg; discriminate.
  - destruct sg; discriminate.
Qed.

Lemma small_premium_is_stored_as_zero_and_refused_witness :
  (PolicyForm.premiumAmount 10 1 80 =? 0)%float = true
  /\ ClientPolicy.premiumAmount_ok (PolicyForm.premiumAmount 10 1 80) = false.
Proof.
  apply (small_premium_is_stored_as_zero_and_refused 10 1 80);
    vm_compute; reflexivity.
Defined.

(* --------------------------------------------------------------------- *)
(** ** The quote wizard *)
(* --------------------------------------------------------------------- *)

Lemma stepAfter_snoc (l : list Quote.Handler) (a : Quote.Handler) :
  Quote.stepAfter (l ++ [a]) = Quote.setStep (Quote.stepAfter l) a.
Proof. unfold Quote.stepAfter. rewrite fold_left_app. reflexivity. Qed.

Lemma stepAfter_range (l : list Quote.Handler) :
  -1 <= Quote.stepAfter l <= 4.
Proof.
  induction l as [|a l IH] using rev_ind; [unfold Quote.stepAfter; simpl; lia|].
  rewrite stepAfter_snoc. destruct a; simpl; lia.
Qed.

(** X11. Whatever buttons of the quote wizard are pressed, in whatever
    order, the step stays between -1 and 4; the landing page (step -1) is
    shown only before the first press or right after a restart; and the
    progress bar shows exactly 20 per cent for every section reached. *)
Theorem quote_step_stays_on_the_wizard (l : list Quote.Handler) :
  -1 <= Quote.stepAfter l <= 4
  /\ (Quote.stepAfter l = -1 <->
      l = [] \/ exists l', l = l' ++ [Quote.handleRestart])
  /\ Quote.progressValue (Quote.stepAfter l)
     = JsNumber.ofZ (20 * (Quote.stepAfter l + 1)).
Proof.
  pose proof (stepAfter_range l) as Hr. split; [exact Hr|]. split.
  - destruct l as [|a l] using rev_ind; [split; auto|].
    clear IHl. rewrite stepAfter_snoc.
    pose proof (stepAfter_range l) as Hl. split.
    + intros H. right. destruct a; simpl in H; try lia. eauto.
    + intros [H|[l' H]].
      * destruct l; discriminate.
      * apply app_inj_tail in H. destruct H as [_ ->]. reflexivity.
  - assert (H : Quote.stepAfter l = -1 \/ Quote.stepAfter l = 0
                \/ Quote.stepAfter l = 1 \/ Quote.stepAfter l = 2
                \/ Quote.stepAfter l = 3 \/ Quote.stepAfter l = 4) by lia.
    destruct H as [-> | [-> | [-> | [-> | [-> | ->]]]]];
      vm_compute; reflexivity.
Qed.

(* --------------------------------------------------------------------- *)
(** ** Property status on the two sides *)
(* --------------------------------------------------------------------- *)

(** X12. A property status passes both the client schema and the server
    schema exactly when it is [available] or [rented]: the third value the
    property form offers, [under_maintenance], passes the client schema
    and is refused by the server's. *)
Theorem property_status_shared_values (v : JValue) :
  (Zod_enum PropertyStatus.client v = true
   /\ Zod_enum PropertyStatus.server v = true
   <-> v = JStr "available" \/ v = JStr "rented")
  /\ Zod_enum PropertyStatus.server (JStr "under_maintenance") = false
  /\ Zod_enum PropertyStatus.client (JStr "under_maintenance") = true.
Proof.
  split; [|split; reflexivity]. split.
  - intros [Hc Hs]. destruct v as [| | | s | |]; try discriminate.
    all: try (simpl in Hc; discriminate).
    unfold Zod_enum, PropertyStatus.client, PropertyStatus.server in *.
    cbn [existsb] in *.
    repeat match goal with
           | H : context [String.eqb ?a ?b] |- _ =>
               destruct (String.eqb_spec a b); [subst; auto; try discriminate|]
           end; simpl in *; try discriminate.
  - intros [-> | ->]; split; reflexivity.
Qed.

(* --------------------------------------------------------------------- *)
(** ** Removing an evidence link *)
(* --------------------------------------------------------------------- *)

Lemma filter_index_before (k : nat) (l : list string) :
  forall j : nat, (k < j)%nat ->
  map snd
    (List.filter (fun p => negb (Nat.eqb (fst p) k))
       (combine (seq j (length l)) l))
  = l.
Proof.
  induction l as [|y l IH]; intros j Hj; [reflexivity|].
  cbn [length seq combine List.filter fst].
  destruct (Nat.eqb_spec j k); [lia|]. cbn [negb map snd].
  rewrite IH by lia. reflexivity.
Qed.

Lemma filter_index_from (l : list string) :
  forall k index : nat,
  map snd
    (List.filter (fun p => negb (Nat.eqb (fst p) (k + index)))
       (combine (seq k (length l)) l))
  = firstn index l ++ skipn (S index) l.
Proof.
  induction l as [|x l IH]; intros k index.
  - destruct index; reflexivity.
  - cbn [length seq combine List.filter fst].
    destruct index as [|index].
    + rewrite Nat.add_0_r, Nat.eqb_refl. cbn [negb firstn skipn app].
      apply filter_index_before. lia.
    + destruct (Nat.eqb_spec k (k + S index)); [lia|].
      cbn [negb map snd firstn skipn app]. f_equal.
      replace (k + S index)%nat with (S k + index)%nat by lia.
      apply IH.
Qed.

(** X14. Removing an evidence link of the claim form drops the link at
    that position and nothing else: the links before it and after it stay,
    in order; a position beyond the list leaves the list as it is. *)
Theorem handleRemoveLink_drops_one_position
  (index : nat) (evidenceLinks : list string) :
  ClaimForm.handleRemoveLink index evidenceLinks
  = (if Nat.ltb index (length evidenceLinks)
     then firstn index evidenceLinks ++ skipn (S index) evidenceLinks
     else evidenceLinks)
  /\ length (ClaimForm.handleRemoveLink index evidenceLinks)
     = (length evidenceLinks
        - (if Nat.ltb index (length evidenceLinks) then 1 else 0))%nat.
Proof.
  assert (E : ClaimForm.handleRemoveLink index evidenceLinks
              = firstn index evidenceLinks ++ skipn (S index) evidenceLinks)
    by apply (filter_index_from evidenceLinks 0 index).
  rewrite E. destruct (Nat.ltb_spec index (length evidenceLinks)) as [H|H].
  - split; [reflexivity|].
    rewrite length_app, length_firstn, length_skipn. lia.
  - rewrite firstn_all2 by lia. rewrite skipn_all2 by lia.
    rewrite app_nil_r. split; [reflexivity|lia].
Qed.

(* --------------------------------------------------------------------- *)
(** ** The list a page reads out of a reply *)
(* --------------------------------------------------------------------- *)

Lemma dataOfSuccess_without_success (o : gmap string Json) :
  o !! "success" = None -> Extract.dataOfSuccess (JsObject o) = [].
Proof.
  intros H. unfold Extract.dataOfSuccess, Extract.get. rewrite H. reflexivity.
Qed.

(** X13. The five places that read a list out of a reply agree: the
    claim form, a landlord's policies page and the dashboard return the
    same list for every reply; the policies page and the claims page
    return that list too, except on a truthy primitive (a number, a
    non-empty string, [true]), where their unguarded ['success' in] test
    throws a TypeError; and all of them read the rows out of a successful
    reply body. *)
Theorem list_extractors_agree (response : Json) :
  Extract.claimForm response = Extract.dashboard response
  /\ Extract.landlordPage response = Extract.dashboard response
  /\ Extract.listPage response
     = match response with
       | JsBool true => Throw "TypeError: Cannot use 'in' operator to search for 'success'"
       | JsNumber x =>
           if JsNumber.truthy x
           then Throw "TypeError: Cannot use 'in' operator to search for 'success'"
           else Normal []
       | JsString s =>
           if String.eqb s "" then Normal []
           else Throw "TypeError: Cannot use 'in' operator to search for 'success'"
       | _ => Normal (Extract.dashboard response)
       end
  /\ forall rows : list Json,
       Extract.listPage (Extract.successBody rows) = Normal rows
       /\ Extract.dashboard (Extract.successBody rows) = rows.
Proof.
  split; [|split; [|split]].
  - destruct response as [| | b | x | s | l | o]; try reflexivity.
    + destruct b; reflexivity.
    + unfold Extract.claimForm; simpl. destruct (JsNumber.truthy x); reflexivity.
    + unfold Extract.claimForm; simpl. destruct (String.eqb s ""); reflexivity.
    + unfold Extract.claimForm, Extract.dashboard; simpl.
      destruct (o !! "success") as [v|] eqn:E.
      * rewrite bool_decide_eq_true_2 by eauto. reflexivity.
      * rewrite bool_decide_eq_false_2 by (intros [? ?]; congruence).
        symmetry. apply dataOfSuccess_without_success. exact E.
  - destruct response as [| | b | x | s | l | o]; try reflexivity.
    + destruct b; reflexivity.
    + unfold Extract.landlordPage; simpl. destruct (JsNumber.truthy x); reflexivity.
    + unfold Extract.landlordPage; simpl. destruct (String.eqb s ""); reflexivity.
  - destruct response as [| | b | x | s | l | o]; try reflexivity.
    + destruct b; reflexivity.
    + unfold Extract.listPage; simpl. destruct (JsNumber.truthy x); reflexivity.
    + unfold Extract.listPage; simpl. destruct (String.eqb s ""); reflexivity.
    + unfold Extract.listPage, Extract.dashboard; simpl.
      destruct (o !! "success") as [v|] eqn:E.
      * rewrite bool_decide_eq_true_2 by eauto. reflexivity.
      * rewrite bool_decide_eq_false_2 by (intros [? ?]; congruence).
        rewrite dataOfSuccess_without_success by exact E. reflexivity.
  - intros rows. split.
    + unfold Extract.listPage, Extract.successBody; simpl.
      rewrite bool_decide_eq_true_2
        by (rewrite lookup_insert; eauto).
      unfold Extract.dataOfSuccess, Extract.get.
      rewrite lookup_insert, lookup_insert_ne by discriminate.
      rewrite lookup_insert. reflexivity.
    + unfold Extract.dashboard, Extract.successBody.
      unfold Extract.dataOfSuccess, Extract.get.
      rewrite lookup_insert, lookup_insert_ne by discriminate.
      rewrite lookup_insert. reflexivity.
Qed.

(* --------------------------------------------------------------------- *)
(** ** Instances *)
(* --------------------------------------------------------------------- *)

Lemma updatePolicyStatus_reads_status_only_witness :
  policyController.updatePolicyStatus "u1" "policy-0"
    (<["premiumAmount" := JNum 0]> (<["status" := JStr "cancelled"]> ∅))
  = policyController.updatePolicyStatus "u1" "policy-0"
      (<["status" := JStr "cancelled"]> ∅).
Proof.
  apply (updatePolicyStatus_reads_status_only "u1" "policy-0"
           (<["status" := JStr "cancelled"]> ∅) "premiumAmount" (JNum 0)).
  discriminate.
Defined.

Lemma form_dates_survive_the_round_trip_witness :
  DateTrip.thereAndBack (EndDate.submitStartDate Sample.form0)
  = Some "2024-01-31"
  /\ DateTrip.thereAndBack
       (EndDate.submitEndDate (EndDate.setEndDate "2024-03-02" Sample.form0))
     = Some "2024-03-02"
  /\ DateTrip.thereAndBack (DateTrip.submitLeaseDate "2024-02-29")
     = Some "2024-02-29".
Proof.
  split; [|split].
  - apply (proj1 (form_dates_survive_the_round_trip 2024 1 31 Sample.form0
                    ltac:(lia) ltac:(lia)
                    ltac:(vm_compute; split; discriminate))).
    reflexivity.
  - apply (proj1 (proj2 (form_dates_survive_the_round_trip 2024 3 2
                    (EndDate.setEndDate "2024-03-02" Sample.form0)
                    ltac:(lia) ltac:(lia)
                    ltac:(vm_compute; split; discriminate)))).
    reflexivity.
  - apply (proj2 (proj2 (form_dates_survive_the_round_trip 2024 2 29
                    Sample.form0 ltac:(lia) ltac:(lia)
                    ltac:(vm_compute; split; discriminate)))).
Defined.

Lemma stored_dates_survive_json_witness :
  exists s,
    DateTrip.toJSON 1704239999000 = Some s
    /\ JsDate.ofString s = Some 1704239999000
    /\ Zod.coerceDate "date" (JStr s) = Normal 1704239999000
    /\ DateTrip.formDate s
       = Some (Calendar.civil (JsDate.YearFromTime 1704239999000)
                 (JsDate.MonthFromTime 1704239999000 + 1)
                 (JsDate.DateFromTime 1704239999000)).
Proof.
  apply (stored_dates_survive_json 1704239999000).
  vm_compute. split; discriminate.
Defined.

Lemma coverage_lasts_28_to_31_days_a_month_witness :
  exists endDate t0 t1,
    EndDate.computeEndDate 3600000 (Calendar.civil 2024 1 31) (JsNumber.ofZ 1)
    = Some endDate
    /\ JsDate.ofString (Calendar.civil 2024 1 31) = Some t0
    /\ JsDate.ofString endDate = Some t1
    /\ 28 * 1 * JsDate.msPerDay <= t1 - t0 <= 31 * 1 * JsDate.msPerDay.
Proof.
  apply (coverage_lasts_28_to_31_days_a_month 3600000 2024 1 31 1).
  - unfold JsDate.msPerDay. lia.
  - lia.
  - lia.
  - vm_compute. split; discriminate.
  - lia.
  - vm_compute. discriminate.
Defined.
